(** * BikeShare: descriptive statistics over bicycle-share trips

    A shallow embedding of [bikeshare.py] and the properties of its
    time-period filter, its aggregators and its reporting driver.

    Conventions of the embedding:
    - a Python exception is a value of [exn]; a call that may raise returns
      a [result];
    - a pandas [DataFrame] is its header together with the list of its rows,
      in row order; the columns every city file has are fields of the row,
      the blank cells that [read_csv] turns into NaN are [None];
    - strings are sequences of ASCII characters; [str.lower] is modelled on
      that fragment;
    - interactive functions read the operator's answers from a list and
      produce the list of what they print. *)

From Stdlib Require Import List ZArith Lia Bool String Ascii Arith.
From Stdlib Require Import Permutation DecimalString Sorted.
Import ListNotations.

Local Open Scope string_scope.
Local Open Scope list_scope.
Local Open Scope Z_scope.

(* ================================================================== *)
(** ** Python values: exceptions and results *)

Inductive exn : Type :=
| IndexError
| KeyError
| ValueError
| TypeError
| EOFError
| FileNotFoundError
| RecursionError.

Inductive result (A : Type) : Type :=
| Ok (a : A)
| Raise (e : exn).

Arguments Ok {A} a.
Arguments Raise {A} e.

Definition rbind {A B : Type} (r : result A) (k : A -> result B) : result B :=
  match r with
  | Ok a => k a
  | Raise e => Raise e
  end.

Notation "'let?' x ':=' r 'in' k" := (rbind r (fun x => k))
  (at level 10, x pattern, r at level 100, k at level 200).

Definition is_ok {A : Type} (r : result A) : bool :=
  match r with Ok _ => true | Raise _ => false end.

(** [str.lower] on ASCII text. *)
Definition lower_char (c : ascii) : ascii :=
  let n := nat_of_ascii c in
  if (65 <=? n)%nat && (n <=? 90)%nat then ascii_of_nat (n + 32) else c.

Fixpoint lower (s : string) : string :=
  match s with
  | EmptyString => EmptyString
  | String c s' => String (lower_char c) (lower s')
  end.

(** Position of the first occurrence, as [list.index]. *)
Fixpoint index_of (x : string) (l : list string) : option nat :=
  match l with
  | [] => None
  | y :: l' => if String.eqb x y then Some O
               else option_map S (index_of x l')
  end.

(* ================================================================== *)
(** ** The [calendar] and [datetime] modules *)

Record date : Type := mkdate { year : Z; month : Z; day : Z }.

Definition isleap (y : Z) : bool :=
  (y mod 4 =? 0) && (negb (y mod 100 =? 0) || (y mod 400 =? 0)).

Definition February : Z := 2.

(** [calendar.mdays]: days of each month of a common year, 1-indexed. *)
Definition mdays : list Z := [0; 31; 28; 31; 30; 31; 30; 31; 31; 30; 31; 30; 31].

Definition days_before_month_table : list Z :=
  [0; 0; 31; 59; 90; 120; 151; 181; 212; 243; 273; 304; 334].

Definition days_in_month (y m : Z) : Z :=
  if (m =? 2) && isleap y then 29 else nth (Z.to_nat m) mdays 0.

Definition days_before_year (y : Z) : Z :=
  let p := y - 1 in p * 365 + p / 4 - p / 100 + p / 400.

Definition days_before_month (y m : Z) : Z :=
  nth (Z.to_nat m) days_before_month_table 0
  + (if (2 <? m) && isleap y then 1 else 0).

Definition toordinal (d : date) : Z :=
  days_before_year (year d) + days_before_month (year d) (month d) + day d.

(** [date.weekday()]: Monday is 0, Sunday is 6. *)
Definition date_weekday (d : date) : Z := (toordinal d + 6) mod 7.

(** [datetime.date(y, m, d)]: [TypeError] on [None], [ValueError] on a
    day that is not on the calendar. *)
Definition datetime_date (y m d : option Z) : result date :=
  match y, m, d with
  | Some y, Some m, Some d =>
      if (1 <=? y) && (y <=? 9999) && (1 <=? m) && (m <=? 12)
         && (1 <=? d) && (d <=? days_in_month y m)
      then Ok (mkdate y m d)
      else Raise ValueError
  | _, _, _ => Raise TypeError
  end.

(** Comparison of dates is comparison of [(year, month, day)]. *)
Definition date_leb (a b : date) : bool :=
  (year a <? year b)
  || ((year a =? year b)
      && ((month a <? month b)
          || ((month a =? month b) && (day a <=? day b)))).

Definition date_le (a b : date) : Prop :=
  year a < year b
  \/ (year a = year b
      /\ (month a < month b \/ (month a = month b /\ day a <= day b))).

(** [calendar.monthrange(year, month)]: weekday of the first day and number
    of days of the month. *)
Definition monthrange (y m : Z) : result (Z * Z) :=
  if (1 <=? m) && (m <=? 12) then
    let day1 := date_weekday (mkdate y m 1) in
    let ndays := nth (Z.to_nat m) mdays 0
                 + (if (m =? February) && isleap y then 1 else 0) in
    Ok (day1, ndays)
  else Raise ValueError.

Definition month_names : list string :=
  [""; "January"; "February"; "March"; "April"; "May"; "June"; "July";
   "August"; "September"; "October"; "November"; "December"].

Definition day_names : list string :=
  ["Monday"; "Tuesday"; "Wednesday"; "Thursday"; "Friday"; "Saturday";
   "Sunday"].

(** [calendar.month_name[m]] and [calendar.day_name[d]].  The index is the
    month, respectively the weekday, of a pandas timestamp, which lies in
    1..12, respectively 0..6. *)
Definition month_name (m : Z) : string := nth (Z.to_nat m) month_names "".
Definition day_name (d : Z) : string := nth (Z.to_nat d) day_names "".

(* ================================================================== *)
(** ** Trip records and tables *)

(** A pandas timestamp through its [.dt] accessors. *)
Record Timestamp : Type := mkts {
  ts_year : Z; ts_month : Z; ts_day : Z;
  ts_hour : Z; ts_minute : Z; ts_second : Z
}.

Definition dt_date (t : Timestamp) : date :=
  mkdate (ts_year t) (ts_month t) (ts_day t).
Definition dt_month (t : Timestamp) : Z := ts_month t.
Definition dt_weekday (t : Timestamp) : Z := date_weekday (dt_date t).
Definition dt_hour (t : Timestamp) : Z := ts_hour t.

(** One row of a city file.  The fields carry the names of the columns. *)
Record Trip : Type := mktrip {
  Start_Time : Timestamp;
  End_Time : Timestamp;
  Trip_Duration : Z;
  Start_Station : string;
  End_Station : string;
  User_Type : option string;
  Gender : option string;
  Birth_Year : option Z
}.

Record DataFrame : Type := mkdf {
  columns : list string;
  rows : list Trip
}.

(** The dictionary returned by [get_time_period]. *)
Inductive Period : Type := PMonth | PDay | PNone.

Record time_period : Type := mktp {
  tp_period : Period;
  tp_year : option Z;
  tp_month : option Z;
  tp_day : option Z * option Z
}.

(* ================================================================== *)
(** ** The time-period filter *)

Definition start_date (tp : time_period) : result date :=
  datetime_date (tp_year tp) (tp_month tp) (fst (tp_day tp)).

Definition end_date (tp : time_period) : result date :=
  datetime_date (tp_year tp) (tp_month tp) (snd (tp_day tp)).

(** The boolean mask of [filter_city_data] at one row. *)
Definition in_period (lo hi : date) (r : Trip) : bool :=
  date_leb lo (dt_date (Start_Time r)) && date_leb (dt_date (Start_Time r)) hi.

Definition filter_city_data (city_data : DataFrame) (tp : time_period)
  : result DataFrame :=
  let? lo := start_date tp in
  let? hi := end_date tp in
  Ok (mkdf (columns city_data) (filter (in_period lo hi) (rows city_data))).

(* ================================================================== *)
(** ** pandas: counting the values of a column *)

(** [Series.dropna]: the cells that hold a value. *)
Fixpoint dropna {A : Type} (l : list (option A)) : list A :=
  match l with
  | [] => []
  | Some a :: l' => a :: dropna l'
  | None :: l' => dropna l'
  end.

Section Counting.

Context {K : Type}.
Variable eq_dec : forall x y : K, {x = y} + {x <> y}.

(** One step of the counting pass: the count of a key already seen is
    incremented in place, a new key is added after the keys seen so far. *)
Fixpoint bump (k : K) (acc : list (K * nat)) : list (K * nat) :=
  match acc with
  | [] => [(k, 1%nat)]
  | (k', n) :: acc' =>
      if eq_dec k k' then (k', S n) :: acc' else (k', n) :: bump k acc'
  end.

(** Distinct values with their number of occurrences, in order of first
    appearance. *)
Definition tally (l : list K) : list (K * nat) :=
  fold_left (fun acc k => bump k acc) l [].

(** [sort_values(ascending=False)]: descending counts, entries of equal
    count left in the order they had. *)
Fixpoint insert_desc (x : K * nat) (l : list (K * nat)) : list (K * nat) :=
  match l with
  | [] => [x]
  | y :: l' =>
      if (snd y <=? snd x)%nat then x :: y :: l' else y :: insert_desc x l'
  end.

Definition sort_values_desc (l : list (K * nat)) : list (K * nat) :=
  fold_right insert_desc [] l.

(** [Series.value_counts()]. *)
Definition value_counts (l : list K) : list (K * nat) :=
  sort_values_desc (tally l).

(** [s.index[0]] and [s.iloc[0]] of a counted series. *)
Definition index0 (s : list (K * nat)) : result K :=
  match s with
  | [] => Raise IndexError
  | (k, _) :: _ => Ok k
  end.

Definition iloc0 (s : list (K * nat)) : result nat :=
  match s with
  | [] => Raise IndexError
  | (_, n) :: _ => Ok n
  end.

(** Sorting of group keys by [groupby], ascending. *)
Variable key_leb : K -> K -> bool.

Fixpoint insert_key (x : K * nat) (l : list (K * nat)) : list (K * nat) :=
  match l with
  | [] => [x]
  | y :: l' =>
      if key_leb (fst x) (fst y) then x :: y :: l' else y :: insert_key x l'
  end.

Definition sort_keys (l : list (K * nat)) : list (K * nat) :=
  fold_right insert_key [] l.

(** [groupby(keys).size()]: one entry per group, groups in key order. *)
Definition groupby_size (l : list K) : list (K * nat) :=
  sort_keys (tally l).

End Counting.

Definition pair_eq_dec (x y : string * string) : {x = y} + {x <> y}.
Proof. decide equality; apply string_dec. Defined.

(** Order of tuples of strings. *)
Definition pair_leb (x y : string * string) : bool :=
  String.ltb (fst x) (fst y)
  || (String.eqb (fst x) (fst y) && String.leb (snd x) (snd y)).

(* ================================================================== *)
(** ** The aggregators *)

Definition col_Start_Time (df : DataFrame) : list Timestamp :=
  map Start_Time (rows df).

Definition popular_month (city_file : DataFrame) : result (string * nat) :=
  let month_values := value_counts Z.eq_dec (map dt_month (col_Start_Time city_file)) in
  let? m := index0 month_values in
  let? n := iloc0 month_values in
  Ok (month_name m, n).

Definition popular_day (city_file : DataFrame) : result (string * nat) :=
  let day_values := value_counts Z.eq_dec (map dt_weekday (col_Start_Time city_file)) in
  let? d := index0 day_values in
  let? n := iloc0 day_values in
  Ok (day_name d, n).

(** The driver tests the value returned by [popular_hour] against [None];
    the tuple the function returns is [Some]. *)
Definition popular_hour (city_file : DataFrame) : result (option (Z * nat)) :=
  let hour_values := value_counts Z.eq_dec (map dt_hour (col_Start_Time city_file)) in
  let? h := index0 hour_values in
  let? n := iloc0 hour_values in
  Ok (Some (h, n)).

(** The duration column is read as int64: every cell is a whole number of
    the int64 range and none is blank, as in the files of Chicago and New
    York.  A sum of int64 cells wraps around at 2^63. *)
Definition wrap_int64 (z : Z) : Z := (z + 2 ^ 63) mod 2 ^ 64 - 2 ^ 63.

(** A float64 that pandas computes.  The model does not compute with
    floats: the mean of a column is kept as the mean of its cells, rounded
    as pandas rounds it; the mean of no cell is NaN. *)
Inductive float64 : Type :=
| NaN
| mean_of (cells : list Z).

Record duration_stats : Type := mkdur { total : Z; mean : float64 }.

(** [Series.sum()] of an int64 column. *)
Definition series_sum (l : list Z) : Z :=
  fold_left (fun acc x => wrap_int64 (acc + x)) l 0.

(** [Series.mean()]: NaN on an empty column. *)
Definition series_mean (l : list Z) : float64 :=
  match l with
  | [] => NaN
  | _ :: _ => mean_of l
  end.

Definition trip_duration (city_file : DataFrame) : duration_stats :=
  let col := map Trip_Duration (rows city_file) in
  mkdur (series_sum col) (series_mean col).

Record station_stats : Type := mkstations {
  start : string * nat;
  end_ : string * nat
}.

Definition popular_stations (city_file : DataFrame) : result station_stats :=
  let start := value_counts string_dec (map Start_Station (rows city_file)) in
  let end_ := value_counts string_dec (map End_Station (rows city_file)) in
  let? s := index0 start in
  let? sn := iloc0 start in
  let? e := index0 end_ in
  let? en := iloc0 end_ in
  Ok (mkstations (s, sn) (e, en)).

(** The station pair of each row, in row order. *)
Definition station_pairs (df : DataFrame) : list (string * string) :=
  map (fun r => (Start_Station r, End_Station r)) (rows df).

(** Row of label 0 of the re-indexed frame; [KeyError] when there is none. *)
Definition row0 {A : Type} (l : list A) : result A :=
  match l with
  | [] => Raise KeyError
  | x :: _ => Ok x
  end.

Definition popular_trip (city_file : DataFrame) : result (string * nat) :=
  let trip := sort_values_desc
                (groupby_size pair_eq_dec pair_leb (station_pairs city_file)) in
  let? r := row0 trip in
  Ok ((fst (fst r) ++ " to " ++ snd (fst r))%string, snd r).

Definition users (city_file : DataFrame) : list (string * nat) :=
  value_counts string_dec (dropna (map User_Type (rows city_file))).

(** [city_file[name]] for a column some city files lack. *)
Definition getcol {A : Type} (name : string) (cell : Trip -> A)
  (df : DataFrame) : result (list A) :=
  if existsb (String.eqb name) (columns df)
  then Ok (map cell (rows df))
  else Raise KeyError.

Definition gender (city_file : DataFrame) : result (list (string * nat)) :=
  let? col := getcol "Gender" Gender city_file in
  Ok (value_counts string_dec (dropna col)).

Record birth_stats : Type := mkbirth { oldest : Z; youngest : Z; mode : Z }.

(** [Series.min()] and [Series.max()] skip NaN and are NaN when no cell
    holds a value. *)
Definition series_min (l : list (option Z)) : option Z :=
  match dropna l with
  | [] => None
  | x :: xs => Some (fold_left Z.min xs x)
  end.

Definition series_max (l : list (option Z)) : option Z :=
  match dropna l with
  | [] => None
  | x :: xs => Some (fold_left Z.max xs x)
  end.

(** [int(x)] of a float that holds a whole number; [ValueError] on NaN. *)
Definition py_int (x : option Z) : result Z :=
  match x with
  | Some v => Ok v
  | None => Raise ValueError
  end.

Definition birth_years (city_file : DataFrame) : result birth_stats :=
  let? col := getcol "Birth Year" Birth_Year city_file in
  let? o := py_int (series_min col) in
  let? y := py_int (series_max col) in
  let? m := index0 (value_counts Z.eq_dec (dropna col)) in
  Ok (mkbirth o y m).

(* ================================================================== *)
(** ** Interaction with the operator *)

Inductive Prompt : Type :=
| AskCity
| AskFilter
| AskMonth
| AskDay (month_year : string) (last_day : Z)
| AskView
| AskContinue
| AskRestart.

(** What the program prints, one constructor per message.  The elapsed
    seconds that some messages carry are left out. *)
Inductive Output : Type :=
| Prompted (p : Prompt)
| InvalidCity
| InvalidFilter
| InvalidMonth
| InvalidDay
| InvalidResponse
| Hello
| LoadingTook
| FilteringTook
| StatisticsHeader
| Elapsed
| MostPopularMonth (name : string) (n : nat)
| MostPopularDay (name : string) (n : nat)
| MostPopularHour (h : Z) (n : nat)
| HourNotAvailable
| TotalDuration (t : Z)
| AverageDuration (m : float64)
| MostPopularStart (name : string) (n : nat)
| MostPopularEnd (name : string) (n : nat)
| MostPopularTrip (name : string) (n : nat)
| UserTypeHeader
| UserTypeTable (l : list (string * nat))
| GenderHeader
| GenderTable (l : list (string * nat))
| GenderNotAvailable
| OldestBirthYear (y : Z)
| NewestBirthYear (y : Z)
| CommonBirthYear (y : Z)
| BirthYearNotAvailable
| TripDetailsHeader
| Page (p : list Trip)
| EndOfTripDetails
| BlankLine.

(** A computation that reads answers, prints, and returns or raises: from
    the answers not yet read to what was printed, the outcome and the
    answers left. *)
Definition io (A : Type) : Type :=
  list string -> list Output * result A * list string.

Definition ret {A : Type} (a : A) : io A := fun ins => ([], Ok a, ins).

Definition bind {A B : Type} (m : io A) (k : A -> io B) : io B :=
  fun ins =>
    match m ins with
    | (o1, Ok a, ins1) =>
        match k a ins1 with
        | (o2, r, ins2) => (o1 ++ o2, r, ins2)
        end
    | (o1, Raise e, ins1) => (o1, Raise e, ins1)
    end.

Notation "x <- m ;; k" := (bind m (fun x => k))
  (at level 61, m at next level, right associativity).
Notation "m ;;; k" := (bind m (fun _ => k))
  (at level 61, right associativity).

Definition print (o : Output) : io unit := fun ins => ([o], Ok tt, ins).

Definition lift {A : Type} (r : result A) : io A := fun ins => ([], r, ins).

(** [input(prompt)]: the prompt is printed, the next answer is read;
    [EOFError] when there is none. *)
Definition input (p : Prompt) : io string :=
  fun ins =>
    match ins with
    | [] => ([Prompted p], Raise EOFError, [])
    | a :: ins' => ([Prompted p], Ok a, ins')
    end.

(** Printed before the run [r]. *)
Definition after {A : Type} (pre : list Output)
  (r : list Output * result A * list string)
  : list Output * result A * list string :=
  match r with
  | (o, x, rest) => (pre ++ o, x, rest)
  end.

Definition trace {A : Type} (r : list Output * result A * list string)
  : list Output := fst (fst r).

Definition outcome {A : Type} (r : list Output * result A * list string)
  : result A := snd (fst r).

Definition chicago : string := "chicago.csv".
Definition new_york_city : string := "new_york_city.csv".
Definition washington : string := "washington.csv".

(** Every turn of the prompt loop reads one answer: the loop is a
    recursion on the answers. *)
Fixpoint get_city_filename (ins : list string)
  : list Output * result string * list string :=
  match ins with
  | [] => ([Prompted AskCity], Raise EOFError, [])
  | city :: ins' =>
      let city := lower city in
      if String.eqb city "chicago" then ([Prompted AskCity], Ok chicago, ins')
      else if String.eqb city "new york" then
        ([Prompted AskCity], Ok new_york_city, ins')
      else if String.eqb city "washington" then
        ([Prompted AskCity], Ok washington, ins')
      else after [Prompted AskCity; InvalidCity] (get_city_filename ins')
  end.

(** [pandas.read_csv] on the files of the directory of the script. *)
Definition open_file (files : string -> option DataFrame) (file_path : string)
  : io DataFrame :=
  lift (match files file_path with
        | Some data => Ok data
        | None => Raise FileNotFoundError
        end).

Definition valid_months : list string :=
  ["january"; "february"; "march"; "april"; "may"; "june"].

Fixpoint get_month (ins : list string)
  : list Output * result Z * list string :=
  match ins with
  | [] => ([Prompted AskMonth], Raise EOFError, [])
  | month :: ins' =>
      let month := lower month in
      match index_of month valid_months with
      | Some i => ([Prompted AskMonth], Ok (Z.of_nat i + 1), ins')
      | None => after [Prompted AskMonth; InvalidMonth] (get_month ins')
      end
  end.

(** [int(s)] on ASCII text: blanks around an optional sign and decimal
    digits, which single underscores may separate. *)
Definition is_space (c : ascii) : bool :=
  let n := nat_of_ascii c in
  ((9 <=? n)%nat && (n <=? 13)%nat) || ((28 <=? n)%nat && (n <=? 32)%nat).

Definition is_digit (c : ascii) : bool :=
  let n := nat_of_ascii c in (48 <=? n)%nat && (n <=? 57)%nat.

Definition digit_value (c : ascii) : Z := Z.of_nat (nat_of_ascii c) - 48.

Fixpoint all_space (s : string) : bool :=
  match s with
  | EmptyString => true
  | String c s' => is_space c && all_space s'
  end.

Fixpoint parse_digits (s : string) (acc : Z) (after_digit : bool) : option Z :=
  match s with
  | EmptyString => if after_digit then Some acc else None
  | String c s' =>
      if is_digit c then parse_digits s' (10 * acc + digit_value c) true
      else if Ascii.eqb c "_" then
        if after_digit then parse_digits s' acc false else None
      else if is_space c && after_digit && all_space s' then Some acc
      else None
  end.

Fixpoint skip_spaces (s : string) : string :=
  match s with
  | EmptyString => EmptyString
  | String c s' => if is_space c then skip_spaces s' else s
  end.

Definition py_int_of_str (s : string) : result Z :=
  let parsed :=
    match skip_spaces s with
    | String "-" s' => option_map Z.opp (parse_digits s' 0 false)
    | String "+" s' => parse_digits s' 0 false
    | s' => parse_digits s' 0 false
    end in
  match parsed with
  | Some n => Ok n
  | None => Raise ValueError
  end.

Fixpoint get_day_loop (month_year : string) (last_day_of_month : Z)
  (ins : list string) : list Output * result Z * list string :=
  let ask := Prompted (AskDay month_year last_day_of_month) in
  match ins with
  | [] => ([ask], Raise EOFError, [])
  | day :: ins' =>
      match py_int_of_str day with
      | Raise _ =>
          after [ask; InvalidDay] (get_day_loop month_year last_day_of_month ins')
      | Ok day =>
          if (1 <=? day) && (day <=? last_day_of_month)
          then ([ask], Ok day, ins')
          else after [ask; InvalidDay]
                 (get_day_loop month_year last_day_of_month ins')
      end
  end.

Definition get_day (month : Z) : io Z :=
  let month_year := (month_name month ++ " 2017")%string in
  mr <- lift (monthrange 2017 month) ;;
  get_day_loop month_year (snd mr).

Fixpoint get_time_period (ins : list string)
  : list Output * result time_period * list string :=
  match ins with
  | [] => ([Prompted AskFilter], Raise EOFError, [])
  | time_period :: ins' =>
      let time_period := lower time_period in
      if String.eqb time_period "month" then
        after [Prompted AskFilter]
          ((m <- get_month ;;
            mr <- lift (monthrange 2017 m) ;;
            ret (mktp PMonth (Some 2017) (Some m) (Some 1, Some (snd mr))))
             ins')
      else if String.eqb time_period "day" then
        after [Prompted AskFilter]
          ((m <- get_month ;;
            d <- get_day m ;;
            ret (mktp PDay (Some 2017) (Some m) (Some d, Some d)))
             ins')
      else if String.eqb time_period "none" then
        ([Prompted AskFilter], Ok (mktp PNone None None (None, None)), ins')
      else after [Prompted AskFilter; InvalidFilter] (get_time_period ins')
  end.

(* ================================================================== *)
(** ** The reporting driver *)

Fixpoint display_tabular_data_from (city_file : DataFrame) (i : nat)
  (ins : list string) : list Output * result unit * list string :=
  let page := Page (firstn 5 (skipn i (rows city_file))) in
  let i := (i + 5)%nat in
  if (List.length (rows city_file) <? i)%nat
  then ([page; EndOfTripDetails], Ok tt, ins)
  else
    match ins with
    | [] => ([page; Prompted AskContinue], Raise EOFError, [])
    | response :: ins' =>
        let response := lower response in
        if String.eqb response "continue" || String.eqb response "c"
        then after [page; Prompted AskContinue; BlankLine]
               (display_tabular_data_from city_file i ins')
        else ([page; Prompted AskContinue], Ok tt, ins')
    end.

Definition display_tabular_data (city_file : DataFrame) : io unit :=
  print TripDetailsHeader ;;;
  display_tabular_data_from city_file 0.

Fixpoint display_data (ins : list string)
  : list Output * result bool * list string :=
  match ins with
  | [] => ([Prompted AskView], Raise EOFError, [])
  | display :: ins' =>
      let display := lower display in
      if String.eqb display "yes" then ([Prompted AskView], Ok true, ins')
      else if String.eqb display "no" then ([Prompted AskView], Ok false, ins')
      else after [Prompted AskView; InvalidResponse] (display_data ins')
  end.

Definition when (b : bool) (m : io unit) : io unit := if b then m else ret tt.

Definition is_none (p : Period) : bool :=
  match p with PNone => true | _ => false end.
Definition is_month (p : Period) : bool :=
  match p with PMonth => true | _ => false end.
Definition is_day (p : Period) : bool :=
  match p with PDay => true | _ => false end.

(** The statistics part of [statistics]: from the header
    [=== Statistics ===] to the birth years. *)
Definition report (city_data_elements : list string) (city_data : DataFrame)
  (time_period : time_period) : io unit :=
  print StatisticsHeader ;;;
  when (is_none (tp_period time_period))
    (r <- lift (popular_month city_data) ;;
     print (MostPopularMonth (fst r) (snd r)) ;;;
     print Elapsed) ;;;
  when (is_none (tp_period time_period) || is_month (tp_period time_period))
    (r <- lift (popular_day city_data) ;;
     print (MostPopularDay (fst r) (snd r)) ;;;
     print Elapsed) ;;;
  stat_popular_hour <- lift (popular_hour city_data) ;;
  match stat_popular_hour with
  | Some r => print (MostPopularHour (fst r) (snd r)) ;;; print Elapsed
  | None => print HourNotAvailable
  end ;;;
  (let trip_length := trip_duration city_data in
   print (TotalDuration (total trip_length)) ;;;
   print (AverageDuration (mean trip_length)) ;;;
   print Elapsed) ;;;
  popular_station <- lift (popular_stations city_data) ;;
  print (MostPopularStart (fst (start popular_station))
           (snd (start popular_station))) ;;;
  print (MostPopularEnd (fst (end_ popular_station))
           (snd (end_ popular_station))) ;;;
  print Elapsed ;;;
  stat_popular_trip <- lift (popular_trip city_data) ;;
  print (MostPopularTrip (fst stat_popular_trip) (snd stat_popular_trip)) ;;;
  print Elapsed ;;;
  print UserTypeHeader ;;;
  print (UserTypeTable (users city_data)) ;;;
  print Elapsed ;;;
  (if existsb (String.eqb "gender") city_data_elements then
     print GenderHeader ;;;
     g <- lift (gender city_data) ;;
     print (GenderTable g) ;;;
     print Elapsed
   else print GenderNotAvailable) ;;;
  (if existsb (String.eqb "birth year") city_data_elements then
     stats_birth_years <- lift (birth_years city_data) ;;
     print (OldestBirthYear (oldest stats_birth_years)) ;;;
     print (NewestBirthYear (youngest stats_birth_years)) ;;;
     print (CommonBirthYear (mode stats_birth_years)) ;;;
     print Elapsed
   else print BirthYearNotAvailable).

(** One pass through [statistics], up to the answer to the restart prompt:
    [true] when the operator asks to restart. *)
Definition session (files : string -> option DataFrame) : io bool :=
  print Hello ;;;
  city_file_name <- get_city_filename ;;
  city_data <- open_file files city_file_name ;;
  let city_data_elements := map lower (columns city_data) in
  print LoadingTook ;;;
  time_period <- get_time_period ;;
  city_data <-
    (if is_month (tp_period time_period) || is_day (tp_period time_period)
     then filtered <- lift (filter_city_data city_data time_period) ;;
          print FilteringTook ;;;
          ret filtered
     else ret city_data) ;;
  report city_data_elements city_data time_period ;;;
  view <- display_data ;;
  when view (display_tabular_data city_data) ;;;
  restart <- input AskRestart ;;
  ret (String.eqb (lower restart) "yes").

(** [statistics] calls itself on a restart; [depth] is the number of
    nested calls the interpreter still allows. *)
Fixpoint statistics (depth : nat) (files : string -> option DataFrame)
  : io unit :=
  match depth with
  | O => lift (Raise RecursionError)
  | S depth' =>
      restart <- session files ;;
      when restart (statistics depth' files)
  end.

(** A table held by reference: [city_data[mask]] builds a new frame and
    leaves the frame it indexes as it was.  The store is the list of the
    frames allocated so far, a reference is a position in it. *)
Definition store : Type := list DataFrame.

Definition empty_frame : DataFrame := mkdf [] [].

Definition deref (st : store) (p : nat) : DataFrame := nth p st empty_frame.

Definition filter_city_data_ref (st : store) (p : nat) (tp : time_period)
  : result (store * nat) :=
  let? filtered := filter_city_data (deref st p) tp in
  Ok (st ++ [filtered], List.length st).

(* ================================================================== *)
(** ** Vocabulary of the specification *)

(** Selectors of granularity month or day of the data model: year 2017,
    a month from January to June, both bounds days of that month. *)
Definition month_or_day_selector (tp : time_period) : bool :=
  match tp with
  | mktp p (Some y) (Some m) (Some a, Some b) =>
      negb (is_none p) && (y =? 2017) && (1 <=? m) && (m <=? 6)
      && (1 <=? a) && (a <=? days_in_month 2017 m)
      && (1 <=? b) && (b <=? days_in_month 2017 m)
  | _ => false
  end.

(** Last day of the months January to June of 2017, from the calendar. *)
Definition last_day_of_month_2017 (m : Z) : Z :=
  match m with
  | 1 => 31
  | 2 => 28
  | 3 => 31
  | 4 => 30
  | 5 => 31
  | 6 => 30
  | _ => 0
  end.

(** The answers an operator types for month [m] and day [d]. *)
Definition month_answer (m : Z) : string :=
  nth (Z.to_nat (m - 1)) valid_months "".

Definition day_answer (d : Z) : string :=
  NilZero.string_of_int (Z.to_int d).

(** [l1] is [l2] with some elements removed. *)
Inductive Subseq {A : Type} : list A -> list A -> Prop :=
| Subseq_nil : Subseq [] []
| Subseq_keep x l1 l2 : Subseq l1 l2 -> Subseq (x :: l1) (x :: l2)
| Subseq_drop x l1 l2 : Subseq l1 l2 -> Subseq l1 (x :: l2).

(** The literal sum of a column. *)
Fixpoint list_sum (l : list Z) : Z :=
  match l with
  | [] => 0
  | x :: l' => x + list_sum l'
  end.

(** Total count recorded for a key in a list of counted entries. *)
Fixpoint assoc_count {K : Type} (eq_dec : forall x y : K, {x = y} + {x <> y})
  (k : K) (acc : list (K * nat)) : nat :=
  match acc with
  | [] => O
  | (k', n) :: acc' =>
      ((if eq_dec k k' then n else O) + assoc_count eq_dec k acc')%nat
  end.

(** The count that an aggregator reports, whatever the value it names. *)
Definition reported_count {A : Type} (r : result (A * nat)) : result nat :=
  let? x := r in Ok (snd x).

Definition reported_hour_count (r : result (option (Z * nat)))
  : result (option nat) :=
  let? x := r in Ok (option_map snd x).

(** Every aggregator that [report] calls for this header and selector
    returns. *)
Definition all_stages_return (city_data_elements : list string)
  (df : DataFrame) (tp : time_period) : bool :=
  (negb (is_none (tp_period tp)) || is_ok (popular_month df))
  && (negb (is_none (tp_period tp) || is_month (tp_period tp))
      || is_ok (popular_day df))
  && is_ok (popular_hour df)
  && is_ok (popular_stations df)
  && is_ok (popular_trip df)
  && (negb (existsb (String.eqb "gender") city_data_elements)
      || is_ok (gender df))
  && (negb (existsb (String.eqb "birth year") city_data_elements)
      || is_ok (birth_years df)).

(** A run that ends with an exception other than the end of the answers
    has not asked whether to restart. *)
Definition fails_before_restart {A : Type}
  (r : list Output * result A * list string) : Prop :=
  forall e, outcome r = Raise e -> e <> EOFError ->
            ~ In (Prompted AskRestart) (trace r).

(** A run that returns has asked whether to restart. *)
Definition returns_after_restart {A : Type}
  (r : list Output * result A * list string) : Prop :=
  forall a, outcome r = Ok a -> In (Prompted AskRestart) (trace r).

(** *** Answers to the prompts *)

(** What is printed for the answers a prompt loop turns down. *)
Definition rejected (bad : list string) (ask : Prompt) (msg : Output)
  : list Output :=
  flat_map (fun _ => [Prompted ask; msg]) bad.

Definition valid_city (a : string) : bool :=
  String.eqb (lower a) "chicago" || String.eqb (lower a) "new york"
  || String.eqb (lower a) "washington".

(** The file of a city the operator named. *)
Definition city_file (a : string) : string :=
  if String.eqb (lower a) "chicago" then chicago
  else if String.eqb (lower a) "new york" then new_york_city
  else washington.

Definition valid_month (a : string) : bool :=
  match index_of (lower a) valid_months with
  | Some _ => true
  | None => false
  end.

Definition valid_day (last_day : Z) (a : string) : bool :=
  match py_int_of_str a with
  | Ok d => (1 <=? d) && (d <=? last_day)
  | Raise _ => false
  end.

Definition valid_view (a : string) : bool :=
  String.eqb (lower a) "yes" || String.eqb (lower a) "no".

Definition valid_filter (a : string) : bool :=
  String.eqb (lower a) "month" || String.eqb (lower a) "day"
  || String.eqb (lower a) "none".

Definition says_continue (a : string) : bool :=
  String.eqb (lower a) "continue" || String.eqb (lower a) "c".

(** The pages of trip data among what was printed. *)
Fixpoint pages (o : list Output) : list (list Trip) :=
  match o with
  | [] => []
  | Page p :: o' => p :: pages o'
  | _ :: o' => pages o'
  end.

(** The selectors that [get_time_period] builds for a month and for a day
    of 2017. *)
Definition month_selector (m : Z) : time_period :=
  mktp PMonth (Some 2017) (Some m) (Some 1, Some (last_day_of_month_2017 m)).

Definition day_selector (m d : Z) : time_period :=
  mktp PDay (Some 2017) (Some m) (Some d, Some d).
(** Descending order of the counts of a counted series. *)
Definition by_count_desc {K : Type} (a b : K * nat) : Prop :=
  (snd b <= snd a)%nat.
(** The outcome of a call, its value forgotten. *)
Definition check {A : Type} (r : result A) : result unit :=
  let? _ := r in Ok tt.

(** The first exception among the aggregators that [report] calls for this
    header and selector, in the order of the calls. *)
Definition first_failure (city_data_elements : list string)
  (df : DataFrame) (tp : time_period) : result unit :=
  let? _ := (if is_none (tp_period tp) then check (popular_month df)
             else Ok tt) in
  let? _ := (if is_none (tp_period tp) || is_month (tp_period tp)
             then check (popular_day df) else Ok tt) in
  let? _ := check (popular_hour df) in
  let? _ := check (popular_stations df) in
  let? _ := check (popular_trip df) in
  let? _ := (if existsb (String.eqb "gender") city_data_elements
             then check (gender df) else Ok tt) in
  if existsb (String.eqb "birth year") city_data_elements
  then check (birth_years df) else Ok tt.

(** A table whose header spells the gender column in lower case. *)
Definition lowercase_gender : DataFrame :=
  mkdf ["Start Time"; "End Time"; "Trip Duration"; "Start Station";
        "End Station"; "User Type"; "gender"]
    [mktrip (mkts 2017 1 1 10 0 0) (mkts 2017 1 1 10 5 0) 5 "A" "B"
       (Some "Subscriber") (Some "Male") None].
(** A computation that, when it returns, has read at least [n] answers. *)
Definition uses {A : Type} (n : nat) (m : io A) : Prop :=
  forall ins o a rest,
    m ins = (o, Ok a, rest) ->
    (List.length rest + n <= List.length ins)%nat.

(** A computation that raises nothing but the exceptions of [allowed]. *)
Definition raises_only {A : Type} (allowed : list exn) (m : io A) : Prop :=
  forall ins e, outcome (m ins) = Raise e -> In e allowed.

(** The exceptions with which a session can end. *)
Definition session_exceptions : list exn :=
  [EOFError; FileNotFoundError; IndexError; KeyError; ValueError].

(** *** The stages of the statistics part *)

(** A stage of the statistics part of [statistics]: what it prints before
    it calls its aggregator, and what the call gives, the lines printed
    once it has returned or the exception it raises. *)
Record stage : Type := mkstage {
  announced : list Output;
  call : result (list Output)
}.

(** The stages that the driver goes through for this header, table and
    selector, in the order of the source. *)
Definition stages_of (city_data_elements : list string) (df : DataFrame)
  (tp : time_period) : list stage :=
  (if is_none (tp_period tp)
   then [mkstage []
           (let? r := popular_month df in
            Ok [MostPopularMonth (fst r) (snd r); Elapsed])]
   else [])
  ++ (if is_none (tp_period tp) || is_month (tp_period tp)
      then [mkstage []
              (let? r := popular_day df in
               Ok [MostPopularDay (fst r) (snd r); Elapsed])]
      else [])
  ++ [mkstage []
        (let? h := popular_hour df in
         Ok (match h with
             | Some r => [MostPopularHour (fst r) (snd r); Elapsed]
             | None => [HourNotAvailable]
             end));
      mkstage []
        (Ok [TotalDuration (total (trip_duration df));
             AverageDuration (mean (trip_duration df)); Elapsed]);
      mkstage []
        (let? s := popular_stations df in
         Ok [MostPopularStart (fst (start s)) (snd (start s));
             MostPopularEnd (fst (end_ s)) (snd (end_ s)); Elapsed]);
      mkstage []
        (let? t := popular_trip df in
         Ok [MostPopularTrip (fst t) (snd t); Elapsed]);
      mkstage [UserTypeHeader] (Ok [UserTypeTable (users df); Elapsed]);
      (if existsb (String.eqb "gender") city_data_elements
       then mkstage [GenderHeader]
              (let? g := gender df in Ok [GenderTable g; Elapsed])
       else mkstage [] (Ok [GenderNotAvailable]));
      (if existsb (String.eqb "birth year") city_data_elements
       then mkstage []
              (let? b := birth_years df in
               Ok [OldestBirthYear (oldest b); NewestBirthYear (youngest b);
                   CommonBirthYear (mode b); Elapsed])
       else mkstage [] (Ok [BirthYearNotAvailable]))].

(** Everything a stage prints when its call returns; what it prints before
    the call when the call raises. *)
Definition lines (s : stage) : list Output :=
  announced s ++ match call s with
                 | Ok printed => printed
                 | Raise _ => []
                 end.

(** Stages run one after the other up to the first whose call raises. *)
Fixpoint run_stages (l : list stage) : list Output * result unit :=
  match l with
  | [] => ([], Ok tt)
  | s :: l' =>
      match call s with
      | Ok printed =>
          (announced s ++ printed ++ fst (run_stages l'),
           snd (run_stages l'))
      | Raise e => (announced s, Raise e)
      end
  end.

(** The part of [statistics] before the statistics are printed: the city,
    its table, the selector and the filter.  It gives the header in lower
    case, the table to report on and the selector. *)
Definition prepare (files : string -> option DataFrame)
  : io (list string * DataFrame * time_period) :=
  print Hello ;;;
  city_file_name <- get_city_filename ;;
  city_data <- open_file files city_file_name ;;
  let city_data_elements := map lower (columns city_data) in
  print LoadingTook ;;;
  time_period <- get_time_period ;;
  city_data <-
    (if is_month (tp_period time_period) || is_day (tp_period time_period)
     then filtered <- lift (filter_city_data city_data time_period) ;;
          print FilteringTook ;;;
          ret filtered
     else ret city_data) ;;
  ret (city_data_elements, city_data, time_period).

(* ================================================================== *)
(** ** Sample tables *)

Definition header : list string :=
  ["Start Time"; "End Time"; "Trip Duration"; "Start Station";
   "End Station"; "User Type"; "Gender"; "Birth Year"].

Definition at_time (m d h mi : Z) : Timestamp := mkts 2017 m d h mi 0.

Definition ride (t : Timestamp) (dur : Z) (s e : string) (born : option Z)
  : Trip :=
  mktrip t t dur s e (Some "Subscriber") (Some "Male") born.

(** Two trips from A to B and one from A to C; birth years 1980, 1980 and
    1995. *)
Definition three_trips : DataFrame :=
  mkdf header
    [ride (at_time 1 1 10 0) 5 "A" "B" (Some 1980);
     ride (at_time 1 31 23 59) 7 "A" "B" (Some 1980);
     ride (at_time 2 3 11 30) 9 "A" "C" (Some 1995)].

(** A table none of whose riders gave a birth year. *)
Definition unrecorded_years : DataFrame :=
  mkdf header
    [ride (at_time 1 1 10 0) 5 "A" "B" None].

(** Trips in both directions between two stations. *)
Definition two_way_trips : DataFrame :=
  mkdf header
    [ride (at_time 1 1 8 0) 5 "A" "B" None;
     ride (at_time 1 1 9 0) 5 "B" "A" None;
     ride (at_time 1 2 8 0) 5 "A" "B" None;
     ride (at_time 1 2 9 0) 5 "B" "A" None;
     ride (at_time 1 3 8 0) 5 "C" "D" None;
     ride (at_time 1 3 9 0) 5 "C" "D" None;
     ride (at_time 1 3 10 0) 5 "C" "D" None].

(** Two trips whose durations add up to 2^63. *)
Definition long_trips : DataFrame :=
  mkdf header
    [ride (at_time 1 1 8 0) (2 ^ 62) "A" "B" None;
     ride (at_time 1 2 8 0) (2 ^ 62) "A" "B" None].

(** Ten trips: two full pages of trip data. *)
Definition ten_trips : DataFrame :=
  mkdf header (rows two_way_trips ++ rows three_trips).

Definition january : time_period :=
  mktp PMonth (Some 2017) (Some 1) (Some 1, Some 31).

Definition february_2nd : time_period :=
  mktp PDay (Some 2017) (Some 2) (Some 2, Some 2).

Definition all_year : time_period := mktp PNone None None (None, None).

Definition chicago_only (df : DataFrame) (path : string) : option DataFrame :=
  if String.eqb path chicago then Some df else None.

(* ================================================================== *)
(** * Properties *)

(** ** Counting *)

Section CountingFacts.

Context {K : Type}.
Variable eq_dec : forall x y : K, {x = y} + {x <> y}.

Lemma assoc_count_bump (k k' : K) (acc : list (K * nat)) :
  assoc_count eq_dec k (bump eq_dec k' acc)
  = ((if eq_dec k k' then 1 else 0) + assoc_count eq_dec k acc)%nat.
Proof.
  induction acc as [|[k0 n] acc IH]; simpl.
  - destruct (eq_dec k k'); lia.
  - destruct (eq_dec k' k0) as [->|Hne]; simpl.
    + destruct (eq_dec k k0); lia.
    + rewrite IH. destruct (eq_dec k k'), (eq_dec k k0); lia.
Qed.

Lemma assoc_count_fold (k : K) (l : list K) :
  forall acc,
    assoc_count eq_dec k (fold_left (fun a x => bump eq_dec x a) l acc)
    = (assoc_count eq_dec k acc + count_occ eq_dec l k)%nat.
Proof.
  induction l as [|x l IH]; intros acc; simpl.
  - lia.
  - rewrite IH, assoc_count_bump.
    destruct (eq_dec k x), (eq_dec x k); try congruence; lia.
Qed.

Lemma bump_keys (k k' : K) (acc : list (K * nat)) :
  In k' (map fst (bump eq_dec k acc)) <-> k' = k \/ In k' (map fst acc).
Proof.
  induction acc as [|[k0 n] acc IH]; simpl.
  - intuition.
  - destruct (eq_dec k k0) as [->|Hne]; simpl.
    + intuition.
    + rewrite IH. intuition.
Qed.

Lemma bump_NoDup (k : K) (acc : list (K * nat)) :
  NoDup (map fst acc) -> NoDup (map fst (bump eq_dec k acc)).
Proof.
  induction acc as [|[k0 n] acc IH]; simpl; intros H.
  - constructor; [intros [] | constructor].
  - destruct (eq_dec k k0) as [->|Hne]; simpl; [exact H|].
    inversion H as [|? ? Hnin Hnd]; subst.
    constructor; [|auto].
    rewrite bump_keys. intros [E|E]; [congruence | contradiction].
Qed.

Lemma bump_positive (k : K) (acc : list (K * nat)) :
  Forall (fun e => (1 <= snd e)%nat) acc ->
  Forall (fun e => (1 <= snd e)%nat) (bump eq_dec k acc).
Proof.
  induction acc as [|[k0 n] acc IH]; simpl; intros H.
  - constructor; [simpl; lia | constructor].
  - inversion H; subst. destruct (eq_dec k k0); constructor; simpl in *; auto; lia.
Qed.

Lemma fold_NoDup (l : list K) :
  forall acc, NoDup (map fst acc) -> NoDup (map fst (fold_left (fun a x => bump eq_dec x a) l acc)).
Proof.
  induction l as [|x l IH]; intros acc H; simpl; [exact H|].
  apply IH, bump_NoDup, H.
Qed.

Lemma fold_positive (l : list K) :
  forall acc,
    Forall (fun e => (1 <= snd e)%nat) acc ->
    Forall (fun e => (1 <= snd e)%nat) (fold_left (fun a x => bump eq_dec x a) l acc).
Proof.
  induction l as [|x l IH]; intros acc H; simpl; [exact H|].
  apply IH, bump_positive, H.
Qed.

Lemma assoc_count_absent (k : K) (acc : list (K * nat)) :
  ~ In k (map fst acc) -> assoc_count eq_dec k acc = O.
Proof.
  induction acc as [|[k0 n] acc IH]; simpl; intros H; [reflexivity|].
  destruct (eq_dec k k0) as [->|Hne]; [tauto|].
  apply IH. tauto.
Qed.

Lemma assoc_count_entry (k : K) (n : nat) (acc : list (K * nat)) :
  NoDup (map fst acc) -> In (k, n) acc -> assoc_count eq_dec k acc = n.
Proof.
  induction acc as [|[k0 n0] acc IH]; simpl; intros Hnd Hin; [contradiction|].
  inversion Hnd as [|? ? Hnin Hnd']; subst.
  destruct Hin as [E|Hin].
  - inversion E; subst. destruct (eq_dec k k); [|congruence].
    rewrite assoc_count_absent by assumption. lia.
  - destruct (eq_dec k k0) as [->|Hne].
    + exfalso. apply Hnin. change k0 with (fst (k0, n)). now apply in_map.
    + now apply IH.
Qed.

Lemma assoc_count_present (k : K) (acc : list (K * nat)) :
  (0 < assoc_count eq_dec k acc)%nat -> exists n, In (k, n) acc.
Proof.
  induction acc as [|[k0 n0] acc IH]; simpl; intros H; [lia|].
  destruct (eq_dec k k0) as [->|Hne].
  - exists n0. now left.
  - destruct IH as [n Hn]; [lia|]. exists n. now right.
Qed.

(** An entry of the tally is a value of the list with its number of
    occurrences. *)
Lemma tally_sound (k : K) (n : nat) (l : list K) :
  In (k, n) (tally eq_dec l) -> In k l /\ n = count_occ eq_dec l k.
Proof.
  intros Hin. unfold tally in *.
  assert (Hn : n = count_occ eq_dec l k).
  { rewrite <- (assoc_count_entry k n _ (fold_NoDup l [] (NoDup_nil _)) Hin).
    now rewrite assoc_count_fold. }
  split; [|exact Hn].
  apply (count_occ_In eq_dec). rewrite <- Hn.
  pose proof (fold_positive l [] (Forall_nil _)) as Hpos.
  rewrite Forall_forall in Hpos. specialize (Hpos _ Hin). simpl in Hpos. lia.
Qed.

(** Every value of the list has its entry. *)
Lemma tally_complete (k : K) (l : list K) :
  In k l -> In (k, count_occ eq_dec l k) (tally eq_dec l).
Proof.
  intros Hin.
  assert (Hc : (0 < assoc_count eq_dec k (tally eq_dec l))%nat).
  { unfold tally. rewrite assoc_count_fold. simpl.
    apply (count_occ_In eq_dec) in Hin. lia. }
  destruct (assoc_count_present _ _ Hc) as [n Hn].
  destruct (tally_sound _ _ _ Hn) as [_ ->]. exact Hn.
Qed.

Lemma insert_desc_In (x y : K * nat) (l : list (K * nat)) :
  In y (insert_desc x l) <-> y = x \/ In y l.
Proof.
  induction l as [|z l IH]; simpl.
  - intuition.
  - destruct (snd z <=? snd x)%nat; simpl; [intuition|].
    rewrite IH. intuition.
Qed.

Lemma sort_values_desc_In (y : K * nat) (l : list (K * nat)) :
  In y (sort_values_desc l) <-> In y l.
Proof.
  induction l as [|x l IH]; simpl; [tauto|].
  rewrite insert_desc_In, IH. intuition.
Qed.

(** The first entry after sorting carries the largest count. *)
Lemma sort_values_desc_head (l : list (K * nat)) :
  forall e r, sort_values_desc l = e :: r ->
              forall e', In e' l -> (snd e' <= snd e)%nat.
Proof.
  induction l as [|x l IH]; simpl; intros e r Hs e' Hin; [contradiction|].
  destruct (sort_values_desc l) as [|y s] eqn:Hl; simpl in Hs.
  - inversion Hs; subst. destruct Hin as [->|Hin]; [lia|].
    apply sort_values_desc_In in Hin. rewrite Hl in Hin. contradiction.
  - specialize (IH y s eq_refl).
    destruct (snd y <=? snd x)%nat eqn:Hle.
    + apply Nat.leb_le in Hle. inversion Hs; subst.
      destruct Hin as [->|Hin]; [lia|]. specialize (IH _ Hin). lia.
    + apply Nat.leb_gt in Hle. inversion Hs; subst.
      destruct Hin as [->|Hin]; [lia|]. now apply IH.
Qed.

Lemma sort_values_desc_nonempty (l : list (K * nat)) :
  l <> [] -> sort_values_desc l <> [].
Proof.
  destruct l as [|x l]; [congruence|]. intros _ Hs.
  assert (Hin : In x (sort_values_desc (x :: l)))
    by (apply sort_values_desc_In; now left).
  rewrite Hs in Hin. contradiction.
Qed.

Lemma tally_nonempty (l : list K) : l <> [] -> tally eq_dec l <> [].
Proof.
  destruct l as [|x l]; [congruence|]. intros _ Ht.
  pose proof (tally_complete x (x :: l) (or_introl eq_refl)) as Hin.
  rewrite Ht in Hin. contradiction.
Qed.

Lemma value_counts_nil : value_counts eq_dec (@nil K) = [].
Proof. reflexivity. Qed.

Lemma value_counts_nonempty (l : list K) :
  l <> [] -> value_counts eq_dec l <> [].
Proof.
  intros H. now apply sort_values_desc_nonempty, tally_nonempty.
Qed.

(** The first entry of [value_counts] is a most frequent value with its
    number of occurrences. *)
Lemma value_counts_head (l : list K) (k : K) (n : nat) (r : list (K * nat)) :
  value_counts eq_dec l = (k, n) :: r ->
  In k l /\ n = count_occ eq_dec l k
  /\ forall k', (count_occ eq_dec l k' <= n)%nat.
Proof.
  intros Hv. unfold value_counts in Hv.
  assert (Hin : In (k, n) (tally eq_dec l)).
  { apply sort_values_desc_In. rewrite Hv. now left. }
  destruct (tally_sound _ _ _ Hin) as [Hk Hn].
  repeat split; trivial.
  intros k'. destruct (in_dec eq_dec k' l) as [Hk'|Hk'].
  - apply (sort_values_desc_head _ _ _ Hv (k', count_occ eq_dec l k')).
    now apply tally_complete.
  - apply (count_occ_not_In eq_dec) in Hk'. lia.
Qed.

(** The largest count does not depend on the order of the rows. *)
Lemma value_counts_iloc0_perm (l l' : list K) :
  Permutation l l' ->
  iloc0 (value_counts eq_dec l) = iloc0 (value_counts eq_dec l').
Proof.
  intros HP.
  destruct (value_counts eq_dec l) as [|[k n] r] eqn:Hl;
    destruct (value_counts eq_dec l') as [|[k' n'] r'] eqn:Hl'; simpl; trivial.
  - destruct l as [|x l]; [|now apply value_counts_nonempty in Hl].
    apply Permutation_nil in HP. subst. discriminate.
  - destruct l' as [|x l']; [|now apply value_counts_nonempty in Hl'].
    apply Permutation_sym, Permutation_nil in HP. subst. discriminate.
  - destruct (value_counts_head _ _ _ _ Hl) as (_ & Hn & Hmax).
    destruct (value_counts_head _ _ _ _ Hl') as (_ & Hn' & Hmax').
    pose proof (proj1 (Permutation_count_occ eq_dec l l') HP) as Hc.
    f_equal. apply Nat.le_antisymm.
    + rewrite Hn, Hc. apply Hmax'.
    + rewrite Hn', <- Hc. apply Hmax.
Qed.

Lemma index0_iloc0 (s : list (K * nat)) :
  s <> [] -> exists k n r, s = (k, n) :: r /\ index0 s = Ok k /\ iloc0 s = Ok n.
Proof.
  destruct s as [|[k n] r]; [congruence|]. intros _.
  exists k, n, r. repeat split.
Qed.

Variable key_leb : K -> K -> bool.

Lemma insert_key_In (x y : K * nat) (l : list (K * nat)) :
  In y (insert_key key_leb x l) <-> y = x \/ In y l.
Proof.
  induction l as [|z l IH]; simpl.
  - intuition.
  - destruct (key_leb (fst x) (fst z)); simpl; [intuition|].
    rewrite IH. intuition.
Qed.

Lemma sort_keys_In (y : K * nat) (l : list (K * nat)) :
  In y (sort_keys key_leb l) <-> In y l.
Proof.
  induction l as [|x l IH]; simpl; [tauto|].
  rewrite insert_key_In, IH. intuition.
Qed.

(** The first row of the sorted group sizes is a most frequent key with
    its number of occurrences. *)
Lemma groupby_size_head (l : list K) (k : K) (n : nat) (r : list (K * nat)) :
  sort_values_desc (groupby_size eq_dec key_leb l) = (k, n) :: r ->
  In k l /\ n = count_occ eq_dec l k
  /\ forall k', (count_occ eq_dec l k' <= n)%nat.
Proof.
  intros Hv. unfold groupby_size in Hv.
  assert (Hin : In (k, n) (tally eq_dec l)).
  { apply (sort_keys_In (k, n)), sort_values_desc_In. rewrite Hv. now left. }
  destruct (tally_sound _ _ _ Hin) as [Hk Hn].
  repeat split; trivial.
  intros k'. destruct (in_dec eq_dec k' l) as [Hk'|Hk'].
  - apply (sort_values_desc_head _ _ _ Hv (k', count_occ eq_dec l k')).
    apply sort_keys_In. now apply tally_complete.
  - apply (count_occ_not_In eq_dec) in Hk'. lia.
Qed.

Lemma groupby_size_nonempty (l : list K) :
  l <> [] -> sort_values_desc (groupby_size eq_dec key_leb l) <> [].
Proof.
  intros H. apply sort_values_desc_nonempty. unfold groupby_size.
  destruct l as [|x l]; [congruence|]. intros Hs.
  pose proof (tally_complete x (x :: l) (or_introl eq_refl)) as Hin.
  apply (sort_keys_In _ (tally eq_dec (x :: l))) in Hin.
  rewrite Hs in Hin. contradiction.
Qed.

End CountingFacts.

(* ================================================================== *)
(** ** The aggregators *)

Lemma reported_count_head {A : Type} (g : Z -> A) (s : list (Z * nat)) :
  reported_count (let? k := index0 s in let? n := iloc0 s in Ok (g k, n))
  = iloc0 s.
Proof. destruct s as [|[k n] r]; reflexivity. Qed.

Lemma reported_hour_count_head (s : list (Z * nat)) :
  reported_hour_count
    (let? k := index0 s in let? n := iloc0 s in Ok (Some (k, n)))
  = (let? n := iloc0 s in Ok (Some n)).
Proof. destruct s as [|[k n] r]; reflexivity. Qed.

Lemma start_times_perm (f : Timestamp -> Z) (df df' : DataFrame) :
  Permutation (rows df) (rows df') ->
  Permutation (map f (col_Start_Time df)) (map f (col_Start_Time df')).
Proof.
  intros HP. unfold col_Start_Time. now do 2 apply Permutation_map.
Qed.

(** C8. The counts that popular_month, popular_day and popular_hour report
    are the same on a table and on any table with the same rows in another
    order; on a table without rows all three raise, in any order. *)
Theorem popular_counts_insensitive_to_row_order (df df' : DataFrame) :
  Permutation (rows df) (rows df') ->
  reported_count (popular_month df) = reported_count (popular_month df')
  /\ reported_count (popular_day df) = reported_count (popular_day df')
  /\ reported_hour_count (popular_hour df)
     = reported_hour_count (popular_hour df').
Proof.
  intros HP. unfold popular_month, popular_day, popular_hour.
  rewrite !reported_count_head, !reported_hour_count_head.
  rewrite (value_counts_iloc0_perm Z.eq_dec _ _ (start_times_perm dt_month _ _ HP)).
  rewrite (value_counts_iloc0_perm Z.eq_dec _ _ (start_times_perm dt_weekday _ _ HP)).
  rewrite (value_counts_iloc0_perm Z.eq_dec _ _ (start_times_perm dt_hour _ _ HP)).
  repeat split.
Qed.

Lemma popular_counts_insensitive_to_row_order_witness :
  Permutation (rows three_trips) (rev (rows three_trips))
  /\ reported_count (popular_month three_trips)
     = reported_count (popular_month (mkdf header (rev (rows three_trips)))).
Proof.
  split.
  - apply Permutation_rev.
  - apply (popular_counts_insensitive_to_row_order three_trips
             (mkdf header (rev (rows three_trips)))).
    apply Permutation_rev.
Defined.

(** C5. On a table with at least one row popular_trip returns a most
    frequent ordered pair (start station, end station), written
    "start to end", with the number of rows that have exactly that pair;
    on the three-trip table popular_stations gives ("A", 3) for the start
    and popular_trip gives ("A to B", 2); trips in the opposite direction
    are not counted together. *)
Theorem popular_trip_most_frequent_ordered_pair :
  (forall df : DataFrame,
      rows df <> [] ->
      exists (s e : string) (n : nat),
        popular_trip df = Ok ((s ++ " to " ++ e)%string, n)
        /\ In (s, e) (station_pairs df)
        /\ n = count_occ pair_eq_dec (station_pairs df) (s, e)
        /\ forall p, (count_occ pair_eq_dec (station_pairs df) p <= n)%nat)
  /\ popular_stations three_trips
     = Ok (mkstations ("A", 3%nat) ("B", 2%nat))
  /\ popular_trip three_trips = Ok ("A to B", 2%nat)
  /\ popular_trip two_way_trips = Ok ("C to D", 3%nat).
Proof.
  split; [|repeat split].
  intros df Hne. unfold popular_trip.
  assert (Hp : station_pairs df <> []).
  { unfold station_pairs. destruct (rows df); [congruence | discriminate]. }
  destruct (sort_values_desc
              (groupby_size pair_eq_dec pair_leb (station_pairs df)))
    as [|[[s e] n] r] eqn:Hs.
  - now apply groupby_size_nonempty in Hs.
  - destruct (groupby_size_head _ _ _ _ _ _ Hs) as (Hin & Hn & Hmax).
    exists s, e, n. simpl. auto.
Qed.

Lemma popular_trip_most_frequent_ordered_pair_witness :
  rows three_trips <> []
  /\ exists (s e : string) (n : nat),
      popular_trip three_trips = Ok ((s ++ " to " ++ e)%string, n)
      /\ In (s, e) (station_pairs three_trips)
      /\ n = count_occ pair_eq_dec (station_pairs three_trips) (s, e)
      /\ forall p,
          (count_occ pair_eq_dec (station_pairs three_trips) p <= n)%nat.
Proof.
  assert (H : rows three_trips <> []) by discriminate.
  split; [exact H|].
  exact (proj1 popular_trip_most_frequent_ordered_pair three_trips H).
Defined.

Lemma dropna_In {A : Type} (v : A) (l : list (option A)) :
  In v (dropna l) <-> In (Some v) l.
Proof.
  induction l as [|[a|] l IH]; simpl.
  - tauto.
  - rewrite IH. split; intros [E|E]; auto; left; congruence.
  - rewrite IH. split; [auto|]. intros [E|E]; [discriminate | exact E].
Qed.

Lemma fold_min_spec (xs : list Z) :
  forall x,
    In (fold_left Z.min xs x) (x :: xs)
    /\ forall y, In y (x :: xs) -> fold_left Z.min xs x <= y.
Proof.
  induction xs as [|a xs IH]; intros x; simpl.
  - split; [now left|]. intros y [->|[]]. lia.
  - destruct (IH (Z.min x a)) as [Hin Hle]. split.
    + destruct Hin as [E|Hin]; [|now right; right].
      rewrite <- E. destruct (Z.min_spec x a) as [[_ ->]|[_ ->]]; auto.
    + intros y Hy.
      assert (Hm : fold_left Z.min xs (Z.min x a) <= Z.min x a)
        by (apply Hle; now left).
      destruct Hy as [->|[->|Hy]]; [lia | lia |].
      apply Hle. now right.
Qed.

Lemma fold_max_spec (xs : list Z) :
  forall x,
    In (fold_left Z.max xs x) (x :: xs)
    /\ forall y, In y (x :: xs) -> y <= fold_left Z.max xs x.
Proof.
  induction xs as [|a xs IH]; intros x; simpl.
  - split; [now left|]. intros y [->|[]]. lia.
  - destruct (IH (Z.max x a)) as [Hin Hle]. split.
    + destruct Hin as [E|Hin]; [|now right; right].
      rewrite <- E. destruct (Z.max_spec x a) as [[_ ->]|[_ ->]]; auto.
    + intros y Hy.
      assert (Hm : Z.max x a <= fold_left Z.max xs (Z.max x a))
        by (apply Hle; now left).
      destruct Hy as [->|[->|Hy]]; [lia | lia |].
      apply Hle. now right.
Qed.

Lemma getcol_present {A : Type} (name : string) (cell : Trip -> A)
  (df : DataFrame) :
  In name (columns df) -> getcol name cell df = Ok (map cell (rows df)).
Proof.
  intros Hin. unfold getcol.
  replace (existsb (String.eqb name) (columns df)) with true; [reflexivity|].
  symmetry. apply existsb_exists. exists name. split; [exact Hin|].
  apply String.eqb_refl.
Qed.

(** C9 (amended). On a table with a birth-year column in which at least
    one row records a birth year, birth_years returns the smallest recorded
    year as oldest, the largest as youngest, and as mode a recorded year
    that no other year outnumbers; the years 1980, 1980, 1995 give oldest
    1980, youngest 1995, mode 1980. *)
Theorem birth_years_min_max_mode :
  (forall df : DataFrame,
      In "Birth Year" (columns df) ->
      dropna (map Birth_Year (rows df)) <> [] ->
      exists b : birth_stats,
        birth_years df = Ok b
        /\ (In (Some (oldest b)) (map Birth_Year (rows df))
            /\ forall y, In (Some y) (map Birth_Year (rows df)) -> oldest b <= y)
        /\ (In (Some (youngest b)) (map Birth_Year (rows df))
            /\ forall y, In (Some y) (map Birth_Year (rows df)) -> y <= youngest b)
        /\ (In (Some (mode b)) (map Birth_Year (rows df))
            /\ forall y,
                (count_occ Z.eq_dec (dropna (map Birth_Year (rows df))) y
                 <= count_occ Z.eq_dec (dropna (map Birth_Year (rows df)))
                      (mode b))%nat))
  /\ birth_years three_trips = Ok (mkbirth 1980 1995 1980).
Proof.
  split; [|reflexivity].
  intros df Hcol Hrec. unfold birth_years.
  rewrite (getcol_present _ _ _ Hcol). simpl.
  set (col := map Birth_Year (rows df)) in *.
  unfold series_min, series_max.
  destruct (dropna col) as [|x xs] eqn:Hd; [congruence|].
  destruct (value_counts Z.eq_dec (x :: xs)) as [|[m n] r] eqn:Hv.
  { apply value_counts_nonempty in Hv; [contradiction | discriminate]. }
  simpl.
  destruct (fold_min_spec xs x) as [Hmin Hminle].
  destruct (fold_max_spec xs x) as [Hmax Hmaxle].
  destruct (value_counts_head _ _ _ _ _ Hv) as (Hm & Hn & Hmost).
  eexists. split; [reflexivity|]. cbn [oldest youngest mode].
  assert (Hiff : forall v, In v (x :: xs) <-> In (Some v) col)
    by (intros v; rewrite <- Hd; apply dropna_In).
  repeat split.
  - now apply Hiff.
  - intros y Hy. apply Hminle. now apply Hiff.
  - now apply Hiff.
  - intros y Hy. apply Hmaxle. now apply Hiff.
  - now apply Hiff.
  - intros y. specialize (Hmost y). rewrite Hn in Hmost. exact Hmost.
Qed.

Lemma birth_years_min_max_mode_witness :
  In "Birth Year" (columns three_trips)
  /\ dropna (map Birth_Year (rows three_trips)) <> []
  /\ exists b : birth_stats,
      birth_years three_trips = Ok b
      /\ In (Some (oldest b)) (map Birth_Year (rows three_trips)).
Proof.
  assert (H1 : In "Birth Year" (columns three_trips)) by (simpl; tauto).
  assert (H2 : dropna (map Birth_Year (rows three_trips)) <> [])
    by discriminate.
  split; [exact H1|]. split; [exact H2|].
  destruct (proj1 birth_years_min_max_mode three_trips H1 H2)
    as (b & Hb & (Ho & _) & _).
  exists b. split; assumption.
Defined.

(** C9, as stated, fails on a table that has rows and a birth-year column
    but no recorded year: the minimum is NaN and its conversion to an
    integer raises. *)
Lemma birth_years_without_recorded_year :
  rows unrecorded_years <> []
  /\ In "Birth Year" (columns unrecorded_years)
  /\ birth_years unrecorded_years = Raise ValueError.
Proof.
  split; [discriminate|]. split; [simpl; tauto | reflexivity].
Qed.

(* ================================================================== *)
(** ** The time-period filter *)

Lemma date_leb_le (a b : date) : date_leb a b = true <-> date_le a b.
Proof.
  unfold date_leb, date_le.
  rewrite !orb_true_iff, !andb_true_iff, !orb_true_iff, !andb_true_iff.
  rewrite !Z.ltb_lt, !Z.eqb_eq, Z.leb_le. tauto.
Qed.

Lemma in_period_spec (lo hi : date) (r : Trip) :
  in_period lo hi r = true
  <-> date_le lo (dt_date (Start_Time r)) /\ date_le (dt_date (Start_Time r)) hi.
Proof.
  unfold in_period. now rewrite andb_true_iff, !date_leb_le.
Qed.

Lemma filter_Subseq {A : Type} (f : A -> bool) (l : list A) :
  Subseq (filter f l) l.
Proof.
  induction l as [|x l IH]; simpl.
  - constructor.
  - destruct (f x); now constructor.
Qed.

Lemma month_or_day_selector_dates (tp : time_period) :
  month_or_day_selector tp = true ->
  exists m a b,
    1 <= m <= 6
    /\ tp_year tp = Some 2017 /\ tp_month tp = Some m
    /\ tp_day tp = (Some a, Some b)
    /\ start_date tp = Ok (mkdate 2017 m a)
    /\ end_date tp = Ok (mkdate 2017 m b).
Proof.
  destruct tp as [p [y|] [m|] [[a|] [b|]]]; simpl; try discriminate.
  rewrite !andb_true_iff, Z.eqb_eq, !Z.leb_le.
  intros (((((((_ & ->) & Hm1) & Hm6) & Ha1) & Ha) & Hb1) & Hb).
  exists m, a, b. unfold start_date, end_date, datetime_date. simpl.
  apply Z.leb_le in Hm1 as Em1. apply Z.leb_le in Ha1 as Ea1.
  apply Z.leb_le in Ha as Ea. apply Z.leb_le in Hb1 as Eb1.
  apply Z.leb_le in Hb as Eb.
  assert (Em12 : (m <=? 12) = true) by (apply Z.leb_le; lia).
  rewrite Em1, Em12, Ea1, Ea, Eb1, Eb. simpl.
  repeat split; trivial; lia.
Qed.

(** C1. For a selector of granularity month or day the filter returns the
    table of exactly the rows whose start date lies between the first and
    the last date of the selector, bounds included, in the order and with
    the repetitions of the input; rows with the same start date are kept or
    dropped together, whatever their time of day. *)
Theorem filter_city_data_exact (df : DataFrame) (tp : time_period) :
  month_or_day_selector tp = true ->
  exists (lo hi : date) (df' : DataFrame) (keep : Trip -> bool),
    start_date tp = Ok lo
    /\ end_date tp = Ok hi
    /\ filter_city_data df tp = Ok df'
    /\ columns df' = columns df
    /\ rows df' = filter keep (rows df)
    /\ (forall r, keep r = true
                  <-> date_le lo (dt_date (Start_Time r))
                      /\ date_le (dt_date (Start_Time r)) hi)
    /\ (forall r, In r (rows df')
                  <-> In r (rows df)
                      /\ date_le lo (dt_date (Start_Time r))
                      /\ date_le (dt_date (Start_Time r)) hi)
    /\ (forall r r', dt_date (Start_Time r) = dt_date (Start_Time r') ->
                     keep r = keep r').
Proof.
  intros Hsel.
  destruct (month_or_day_selector_dates tp Hsel)
    as (m & a & b & _ & _ & _ & _ & Hlo & Hhi).
  exists (mkdate 2017 m a), (mkdate 2017 m b).
  eexists. exists (in_period (mkdate 2017 m a) (mkdate 2017 m b)).
  unfold filter_city_data. rewrite Hlo, Hhi. cbn [rbind rows columns].
  split; [reflexivity|]. split; [reflexivity|]. split; [reflexivity|].
  split; [reflexivity|]. split; [reflexivity|].
  split; [intros r; apply in_period_spec|].
  split.
  - intros r. cbn [rows]. rewrite filter_In, in_period_spec. tauto.
  - intros r r' E. unfold in_period. now rewrite E.
Qed.

Lemma filter_city_data_exact_witness :
  month_or_day_selector january = true
  /\ exists df' : DataFrame,
      filter_city_data three_trips january = Ok df'
      /\ forall r, In r (rows df')
                   <-> In r (rows three_trips)
                       /\ date_le (mkdate 2017 1 1) (dt_date (Start_Time r))
                       /\ date_le (dt_date (Start_Time r)) (mkdate 2017 1 31).
Proof.
  split; [reflexivity|].
  destruct (filter_city_data_exact three_trips january eq_refl)
    as (lo & hi & df' & keep & Hlo & Hhi & Hf & _ & _ & _ & Hin & _).
  exists df'. split; [exact Hf|].
  injection Hlo as <-. injection Hhi as <-. exact Hin.
Defined.

(** C10. For a selector of granularity month or day the filter returns,
    and whenever it returns a table its rows are a subsequence of the rows
    of the input: each occurs in the input, and they come in the order of
    the input.  The table is a new frame: the frame that was filtered, and
    every other frame of the store, holds what it held before. *)
Theorem filter_city_data_subsequence (df : DataFrame) (tp : time_period) :
  (month_or_day_selector tp = true ->
   exists df', filter_city_data df tp = Ok df')
  /\ forall df' : DataFrame,
      filter_city_data df tp = Ok df' ->
      Subseq (rows df') (rows df)
      /\ (forall r, In r (rows df') -> In r (rows df))
      /\ forall (st : store) (p : nat),
          deref st p = df ->
          filter_city_data_ref st p tp = Ok (st ++ [df'], List.length st)
          /\ deref (st ++ [df']) (List.length st) = df'
          /\ forall q, (q < List.length st)%nat ->
                       deref (st ++ [df']) q = deref st q.
Proof.
  split.
  - intros Hsel.
    destruct (month_or_day_selector_dates tp Hsel)
      as (m & a & b & _ & _ & _ & _ & Hlo & Hhi).
    unfold filter_city_data. rewrite Hlo, Hhi. cbn [rbind]. now eexists.
  - intros df' Hf.
    assert (Hrows : exists f, rows df' = filter f (rows df)).
    { unfold filter_city_data in Hf.
      destruct (start_date tp) as [lo|]; [|discriminate].
      destruct (end_date tp) as [hi|]; [|discriminate].
      cbn [rbind] in Hf. injection Hf as <-. now eexists. }
    destruct Hrows as [f Hrows]. rewrite Hrows.
    split; [apply filter_Subseq|].
    split; [intros r Hin; apply filter_In in Hin; tauto|].
    intros st p Hp. unfold filter_city_data_ref. rewrite Hp, Hf. cbn [rbind].
    split; [reflexivity|]. unfold deref. split.
    + now rewrite nth_middle.
    + intros q Hq. now apply app_nth1.
Qed.

Lemma filter_city_data_subsequence_witness :
  exists df' : DataFrame,
    filter_city_data three_trips january = Ok df'
    /\ Subseq (rows df') (rows three_trips).
Proof.
  destruct (proj1 (filter_city_data_subsequence three_trips january) eq_refl)
    as [df' Hf].
  exists df'. split; [exact Hf|].
  exact (proj1 (proj2 (filter_city_data_subsequence three_trips january)
                  df' Hf)).
Defined.

(* ================================================================== *)
(** ** Reading the time period *)

Lemma after_inv {A : Type} (pre o : list Output) (x : result A)
  (rest : list string) (r : list Output * result A * list string) :
  after pre r = (o, x, rest) ->
  exists o', r = (o', x, rest) /\ o = pre ++ o'.
Proof.
  destruct r as [[o' x'] rest']. simpl. intros H. inversion H; subst.
  now exists o'.
Qed.

Lemma bind_Ok_inv {A B : Type} (m : io A) (k : A -> io B)
  (ins rest : list string) (o : list Output) (b : B) :
  bind m k ins = (o, Ok b, rest) ->
  exists o1 a ins1 o2,
    m ins = (o1, Ok a, ins1) /\ k a ins1 = (o2, Ok b, rest) /\ o = o1 ++ o2.
Proof.
  unfold bind. destruct (m ins) as [[o1 [a|e]] ins1] eqn:Hm; [|discriminate].
  destruct (k a ins1) as [[o2 r] ins2] eqn:Hk. intros H. inversion H; subst.
  now exists o1, a, ins1, o2.
Qed.

Lemma lift_Ok_inv {A : Type} (r : result A) (ins rest : list string)
  (o : list Output) (a : A) :
  lift r ins = (o, Ok a, rest) -> r = Ok a /\ o = [] /\ rest = ins.
Proof. unfold lift. intros H. inversion H; subst. auto. Qed.

Lemma ret_Ok_inv {A : Type} (a b : A) (ins rest : list string)
  (o : list Output) :
  ret a ins = (o, Ok b, rest) -> a = b /\ o = [] /\ rest = ins.
Proof. unfold ret. intros H. inversion H; subst. auto. Qed.

Lemma index_of_bound (x : string) (l : list string) :
  forall i, index_of x l = Some i -> (i < List.length l)%nat.
Proof.
  induction l as [|y l IH]; simpl; intros i H; [discriminate|].
  destruct (String.eqb x y).
  - inversion H. lia.
  - destruct (index_of x l) as [j|]; [|discriminate].
    inversion H. specialize (IH j eq_refl). lia.
Qed.

Lemma get_month_range (ins : list string) :
  forall o m rest, get_month ins = (o, Ok m, rest) -> 1 <= m <= 6.
Proof.
  induction ins as [|x ins IH]; intros o m rest H; [discriminate|].
  cbn [get_month] in H.
  destruct (index_of (lower x) valid_months) as [i|] eqn:E.
  - inversion H; subst. apply index_of_bound in E. simpl in E. lia.
  - apply after_inv in H. destruct H as (o' & H & _). eauto.
Qed.

Lemma get_day_loop_range (month_year : string) (last : Z)
  (ins : list string) :
  forall o d rest,
    get_day_loop month_year last ins = (o, Ok d, rest) -> 1 <= d <= last.
Proof.
  induction ins as [|x ins IH]; intros o d rest H; [discriminate|].
  cbn [get_day_loop] in H.
  destruct (py_int_of_str x) as [n|e].
  - destruct ((1 <=? n) && (n <=? last)) eqn:E.
    + inversion H; subst. apply andb_true_iff in E.
      rewrite !Z.leb_le in E. exact E.
    + apply after_inv in H. destruct H as (o' & H & _). eauto.
  - apply after_inv in H. destruct H as (o' & H & _). eauto.
Qed.

Ltac cases_from x lo :=
  first
    [ exfalso; lia
    | let H := fresh "E" in
      destruct (Z.eq_dec x lo) as [H|H];
      [ subst x
      | let lo' := eval compute in (lo + 1) in cases_from x lo' ] ].

Lemma monthrange_2017 (m : Z) :
  1 <= m <= 6 ->
  exists w, monthrange 2017 m = Ok (w, last_day_of_month_2017 m).
Proof.
  intros H. cases_from m 1; eexists; reflexivity.
Qed.

Lemma get_time_period_shape (ins : list string) :
  forall o tp rest,
    get_time_period ins = (o, Ok tp, rest) ->
    match tp_period tp with
    | PMonth =>
        exists m,
          1 <= m <= 6
          /\ tp = mktp PMonth (Some 2017) (Some m)
                    (Some 1, Some (last_day_of_month_2017 m))
    | PDay =>
        exists m d,
          1 <= m <= 6 /\ 1 <= d <= last_day_of_month_2017 m
          /\ tp = mktp PDay (Some 2017) (Some m) (Some d, Some d)
    | PNone => tp = mktp PNone None None (None, None)
    end.
Proof.
  induction ins as [|x ins IH]; intros o tp rest H; [discriminate|].
  cbn [get_time_period] in H.
  destruct (String.eqb (lower x) "month").
  { apply after_inv in H. destruct H as (o' & H & _).
    apply bind_Ok_inv in H. destruct H as (o1 & m & ins1 & o2 & Hm & H & _).
    apply bind_Ok_inv in H. destruct H as (o3 & mr & ins2 & o4 & Hr & H & _).
    apply lift_Ok_inv in Hr. destruct Hr as (Hr & _ & _).
    apply ret_Ok_inv in H. destruct H as (<- & _ & _).
    apply get_month_range in Hm.
    destruct (monthrange_2017 m Hm) as [w Hw]. rewrite Hw in Hr.
    inversion Hr; subst. simpl. now exists m. }
  destruct (String.eqb (lower x) "day").
  { apply after_inv in H. destruct H as (o' & H & _).
    apply bind_Ok_inv in H. destruct H as (o1 & m & ins1 & o2 & Hm & H & _).
    apply bind_Ok_inv in H. destruct H as (o3 & d & ins2 & o4 & Hd & H & _).
    apply ret_Ok_inv in H. destruct H as (<- & _ & _).
    apply get_month_range in Hm.
    unfold get_day in Hd.
    apply bind_Ok_inv in Hd. destruct Hd as (o5 & mr & ins3 & o6 & Hr & Hd & _).
    apply lift_Ok_inv in Hr. destruct Hr as (Hr & _ & _).
    destruct (monthrange_2017 m Hm) as [w Hw]. rewrite Hw in Hr.
    inversion Hr; subst. simpl in Hd.
    apply get_day_loop_range in Hd. simpl. now exists m, d. }
  destruct (String.eqb (lower x) "none").
  { inversion H; subst. reflexivity. }
  apply after_inv in H. destruct H as (o' & H & _). exact (IH _ _ _ H).
Qed.

(** C4. A selector of granularity month that get_time_period returns is
    for a month M from 1 to 6 of 2017 and covers the days from 1 to the
    last day of M (31, 28, 31, 30, 31, 30), and the answers "month" and the
    name of M yield it; February gives 1 to 28.  A selector of granularity
    day is for a day d of such a month and covers d to d, and the answers
    "day", the name of M and the number d yield it. *)
Theorem get_time_period_day_range :
  (forall ins o tp rest,
      get_time_period ins = (o, Ok tp, rest) ->
      match tp_period tp with
      | PMonth =>
          exists m,
            1 <= m <= 6
            /\ tp = mktp PMonth (Some 2017) (Some m)
                      (Some 1, Some (last_day_of_month_2017 m))
      | PDay =>
          exists m d,
            1 <= m <= 6 /\ 1 <= d <= last_day_of_month_2017 m
            /\ tp = mktp PDay (Some 2017) (Some m) (Some d, Some d)
      | PNone => tp = mktp PNone None None (None, None)
      end)
  /\ (forall m,
         1 <= m <= 6 ->
         outcome (get_time_period ["month"; month_answer m])
         = Ok (mktp PMonth (Some 2017) (Some m)
                 (Some 1, Some (last_day_of_month_2017 m))))
  /\ (forall m d,
         1 <= m <= 6 -> 1 <= d <= last_day_of_month_2017 m ->
         outcome (get_time_period ["day"; month_answer m; day_answer d])
         = Ok (mktp PDay (Some 2017) (Some m) (Some d, Some d)))
  /\ (forall m,
         1 <= m <= 6 ->
         exists w, monthrange 2017 m = Ok (w, last_day_of_month_2017 m))
  /\ get_time_period ["month"; "February"]
     = ([Prompted AskFilter; Prompted AskMonth],
        Ok (mktp PMonth (Some 2017) (Some 2) (Some 1, Some 28)), []).
Proof.
  split; [intros ins; apply get_time_period_shape|].
  split; [intros m H; cases_from m 1; reflexivity|].
  split.
  { intros m d Hm Hd. cases_from m 1; simpl in Hd; cases_from d 1;
      reflexivity. }
  split; [apply monthrange_2017 | reflexivity].
Qed.

Lemma get_time_period_day_range_witness :
  exists m,
    1 <= m <= 6
    /\ mktp PMonth (Some 2017) (Some 2) (Some 1, Some 28)
       = mktp PMonth (Some 2017) (Some m)
           (Some 1, Some (last_day_of_month_2017 m)).
Proof.
  exact (proj1 get_time_period_day_range ["month"; "February"]
           [Prompted AskFilter; Prompted AskMonth]
           (mktp PMonth (Some 2017) (Some 2) (Some 1, Some 28)) []
           eq_refl).
Defined.

(* ================================================================== *)
(** ** The reporting driver *)

Lemma time_column_nonempty (f : Timestamp -> Z) (df : DataFrame) :
  rows df <> [] -> map f (col_Start_Time df) <> [].
Proof.
  unfold col_Start_Time. destruct (rows df); [congruence | discriminate].
Qed.

Lemma popular_month_returns (df : DataFrame) :
  rows df <> [] -> exists name n, popular_month df = Ok (name, n).
Proof.
  intros H. unfold popular_month.
  destruct (index0_iloc0 _ (value_counts_nonempty Z.eq_dec _
                              (time_column_nonempty dt_month df H)))
    as (k & n & r & _ & -> & ->).
  now eexists _, _.
Qed.

Lemma popular_day_returns (df : DataFrame) :
  rows df <> [] -> exists name n, popular_day df = Ok (name, n).
Proof.
  intros H. unfold popular_day.
  destruct (index0_iloc0 _ (value_counts_nonempty Z.eq_dec _
                              (time_column_nonempty dt_weekday df H)))
    as (k & n & r & _ & -> & ->).
  now eexists _, _.
Qed.

Lemma popular_hour_returns (df : DataFrame) :
  rows df <> [] -> exists h n, popular_hour df = Ok (Some (h, n)).
Proof.
  intros H. unfold popular_hour.
  destruct (index0_iloc0 _ (value_counts_nonempty Z.eq_dec _
                              (time_column_nonempty dt_hour df H)))
    as (k & n & r & _ & -> & ->).
  now eexists _, _.
Qed.

(** [popular_hour] returns a tuple or raises; it never returns [None]. *)
Lemma popular_hour_not_None (df : DataFrame) : popular_hour df <> Ok None.
Proof.
  unfold popular_hour.
  destruct (value_counts Z.eq_dec (map dt_hour (col_Start_Time df)))
    as [|[k n] r]; discriminate.
Qed.

Lemma popular_hour_empty (df : DataFrame) :
  rows df = [] -> popular_hour df = Raise IndexError.
Proof.
  intros H. unfold popular_hour, col_Start_Time. now rewrite H.
Qed.

Ltac split_var :=
  match goal with
  | |- context [match ?v with _ => _ end] => is_var v; destruct v
  end.

(** Case analysis on the outcome of every stage of [report], stage after
    stage. *)
Ltac report_cases :=
  unfold trace, outcome, bind, print, lift, when, ret; cbn;
  repeat (split_var; cbn).

(** C7 (amended). In every run of the driver the message of popular_month is
    printed only if the granularity is none and the message of popular_day
    only if it is none or month.  On a table with at least one row, where
    the three stages are reached and return, the message of popular_month is
    printed if and only if the granularity is none, the message of
    popular_day if and only if it is none or month, and the message of
    popular_hour for every granularity; each carries what the aggregator
    returns. *)
Theorem report_skip_rules (cols : list string) (df : DataFrame)
  (tp : time_period) (ins : list string) :
  ((forall name n,
       In (MostPopularMonth name n) (trace (report cols df tp ins)) ->
       tp_period tp = PNone)
   /\ (forall name n,
          In (MostPopularDay name n) (trace (report cols df tp ins)) ->
          tp_period tp = PNone \/ tp_period tp = PMonth))
  /\ (rows df <> [] ->
      (forall name n,
          In (MostPopularMonth name n) (trace (report cols df tp ins))
          <-> tp_period tp = PNone /\ popular_month df = Ok (name, n))
      /\ (forall name n,
             In (MostPopularDay name n) (trace (report cols df tp ins))
             <-> (tp_period tp = PNone \/ tp_period tp = PMonth)
                 /\ popular_day df = Ok (name, n))
      /\ (forall h n,
             In (MostPopularHour h n) (trace (report cols df tp ins))
             <-> popular_hour df = Ok (Some (h, n)))
      /\ (exists name n, popular_month df = Ok (name, n))
      /\ (exists name n, popular_day df = Ok (name, n))
      /\ (exists h n, popular_hour df = Ok (Some (h, n)))).
Proof.
  split.
  { split; intros x n; unfold report;
      generalize (popular_month df) (popular_day df) (popular_hour df)
        (popular_stations df) (popular_trip df) (gender df)
        (birth_years df) (existsb (String.eqb "gender") cols)
        (existsb (String.eqb "birth year") cols) (users df)
        (trip_duration df);
      intros pm pd ph ps pt g b eg eb u td;
      destruct (tp_period tp); report_cases; intuition discriminate. }
  intros Hne.
  destruct (popular_month_returns df Hne) as (nm & cm & Hm).
  destruct (popular_day_returns df Hne) as (nd & cd & Hd).
  destruct (popular_hour_returns df Hne) as (h0 & c0 & Hh).
  split; [|split; [|split]].
  4: { rewrite Hm, Hd, Hh. repeat split; now eexists _, _. }
  all: intros x n; unfold report; rewrite Hm, Hd, Hh;
    generalize (popular_stations df) (popular_trip df) (gender df)
      (birth_years df) (existsb (String.eqb "gender") cols)
      (existsb (String.eqb "birth year") cols) (users df) (trip_duration df);
    intros ps pt g b eg eb u td;
    destruct (tp_period tp); report_cases; intuition congruence.
Qed.

Lemma report_skip_rules_witness :
  rows three_trips <> []
  /\ (In (MostPopularMonth "January" 2)
        (trace (report (map lower header) three_trips all_year []))
      <-> tp_period all_year = PNone
          /\ popular_month three_trips = Ok ("January", 2%nat)).
Proof.
  assert (H : rows three_trips <> []) by discriminate.
  split; [exact H|].
  exact (proj1 (proj2 (report_skip_rules (map lower header) three_trips
                         all_year []) H) "January" 2%nat).
Defined.

(** C7, as stated, fails on a table without rows.  With the trips of
    January and February filtered by the month of March, popular_day raises
    and popular_hour is not run, although the granularity is month: the
    session ends right after the header of the statistics.  On an empty
    table without filter popular_month raises and neither popular_day nor
    popular_hour is run, although the granularity is none. *)
Lemma skip_rules_fail_on_empty_table :
  (exists df',
      filter_city_data three_trips
        (mktp PMonth (Some 2017) (Some 3) (Some 1, Some 31)) = Ok df'
      /\ rows df' = [])
  /\ session (chicago_only three_trips)
       ["chicago"; "month"; "march"; "no"; "no"]
     = ([Hello; Prompted AskCity; LoadingTook; Prompted AskFilter;
         Prompted AskMonth; FilteringTook; StatisticsHeader],
        Raise IndexError, ["no"; "no"])
  /\ tp_period all_year = PNone
  /\ report (map lower header) (mkdf header []) all_year []
     = ([StatisticsHeader], Raise IndexError, []).
Proof.
  split; [eexists; split; reflexivity|].
  repeat split.
Qed.

(** C2, on the code.  On a table without rows popular_hour raises
    IndexError; it never returns None, so that no run of the driver prints
    that the most popular hour is not available; a session whose filter
    leaves no row ends with the exception right after the header of the
    statistics, the remaining answers unread. *)
Theorem popular_hour_unavailable_is_never_reported :
  popular_hour (mkdf header []) = Raise IndexError
  /\ (forall df, popular_hour df <> Ok None)
  /\ (forall cols df tp ins,
         ~ In HourNotAvailable (trace (report cols df tp ins)))
  /\ (exists df',
         filter_city_data three_trips february_2nd = Ok df' /\ rows df' = [])
  /\ session (chicago_only three_trips)
       ["chicago"; "day"; "february"; "2"; "no"; "no"]
     = ([Hello; Prompted AskCity; LoadingTook; Prompted AskFilter;
         Prompted AskMonth; Prompted (AskDay "February 2017" 28);
         FilteringTook; StatisticsHeader],
        Raise IndexError, ["no"; "no"]).
Proof.
  split; [reflexivity|]. split; [apply popular_hour_not_None|].
  split; [|split; [eexists; split; reflexivity | reflexivity]].
  intros cols df tp ins. unfold report.
  pose proof (popular_hour_not_None df) as Hh. revert Hh.
  generalize (popular_month df) (popular_day df) (popular_hour df)
    (popular_stations df) (popular_trip df) (gender df)
    (birth_years df) (existsb (String.eqb "gender") cols)
    (existsb (String.eqb "birth year") cols) (users df) (trip_duration df).
  intros pm pd ph ps pt g b eg eb u td Hh.
  destruct (tp_period tp); report_cases; intuition congruence.
Qed.

(** *** Propagation of exceptions *)

Lemma trace_after {A : Type} (pre : list Output)
  (r : list Output * result A * list string) :
  trace (after pre r) = pre ++ trace r.
Proof. destruct r as [[o x] rest]. reflexivity. Qed.

Section Quiet.

Variable x : Output.

Lemma bind_quiet {A B : Type} (m : io A) (k : A -> io B) :
  (forall ins, ~ In x (trace (m ins))) ->
  (forall a ins, ~ In x (trace (k a ins))) ->
  forall ins, ~ In x (trace (bind m k ins)).
Proof.
  intros Hm Hk ins. unfold bind.
  specialize (Hm ins). destruct (m ins) as [[o1 [a|e]] ins1]; [|exact Hm].
  specialize (Hk a ins1). destruct (k a ins1) as [[o2 r] ins2].
  unfold trace in *. simpl in *. rewrite in_app_iff. tauto.
Qed.

Lemma print_quiet (o : Output) :
  o <> x -> forall ins, ~ In x (trace (print o ins)).
Proof. intros H ins [E|[]]. contradiction. Qed.

Lemma lift_quiet {A : Type} (r : result A) :
  forall ins, ~ In x (trace (lift r ins)).
Proof. intros ins []. Qed.

Lemma ret_quiet {A : Type} (a : A) : forall ins, ~ In x (trace (ret a ins)).
Proof. intros ins []. Qed.

Lemma after_quiet {A : Type} (pre : list Output)
  (r : list Output * result A * list string) :
  ~ In x pre -> ~ In x (trace r) -> ~ In x (trace (after pre r)).
Proof. rewrite trace_after, in_app_iff. tauto. Qed.

End Quiet.

Ltac not_in_list :=
  simpl; intuition discriminate.

Lemma get_city_filename_quiet (ins : list string) :
  ~ In (Prompted AskRestart) (trace (get_city_filename ins)).
Proof.
  induction ins as [|a ins IH]; cbn [get_city_filename]; [not_in_list|].
  repeat match goal with
         | |- context [if ?c then _ else _] => destruct c
         end; try not_in_list.
  apply after_quiet; [not_in_list | exact IH].
Qed.

Lemma get_month_quiet (ins : list string) :
  ~ In (Prompted AskRestart) (trace (get_month ins)).
Proof.
  induction ins as [|a ins IH]; cbn [get_month]; [not_in_list|].
  destruct (index_of (lower a) valid_months); [not_in_list|].
  apply after_quiet; [not_in_list | exact IH].
Qed.

Lemma get_day_loop_quiet (month_year : string) (last : Z)
  (ins : list string) :
  ~ In (Prompted AskRestart) (trace (get_day_loop month_year last ins)).
Proof.
  induction ins as [|a ins IH]; cbn [get_day_loop]; [not_in_list|].
  destruct (py_int_of_str a) as [n|e].
  - destruct ((1 <=? n) && (n <=? last)); [not_in_list|].
    apply after_quiet; [not_in_list | exact IH].
  - apply after_quiet; [not_in_list | exact IH].
Qed.

Lemma get_time_period_quiet (ins : list string) :
  ~ In (Prompted AskRestart) (trace (get_time_period ins)).
Proof.
  induction ins as [|a ins IH]; cbn [get_time_period]; [not_in_list|].
  destruct (String.eqb (lower a) "month").
  { apply after_quiet; [not_in_list|].
    apply bind_quiet; [apply get_month_quiet|]. intros m ins1.
    apply bind_quiet; [apply lift_quiet|]. intros mr ins2.
    apply ret_quiet. }
  destruct (String.eqb (lower a) "day").
  { apply after_quiet; [not_in_list|].
    apply bind_quiet; [apply get_month_quiet|]. intros m ins1.
    apply bind_quiet; [|intros d ins2; apply ret_quiet].
    intros ins2. unfold get_day.
    apply bind_quiet; [apply lift_quiet|]. intros mr ins3.
    apply get_day_loop_quiet. }
  destruct (String.eqb (lower a) "none"); [not_in_list|].
  apply after_quiet; [not_in_list | exact IH].
Qed.

Lemma display_data_quiet (ins : list string) :
  ~ In (Prompted AskRestart) (trace (display_data ins)).
Proof.
  induction ins as [|a ins IH]; cbn [display_data]; [not_in_list|].
  destruct (String.eqb (lower a) "yes"); [not_in_list|].
  destruct (String.eqb (lower a) "no"); [not_in_list|].
  apply after_quiet; [not_in_list | exact IH].
Qed.

Lemma display_tabular_data_from_quiet (df : DataFrame) (ins : list string) :
  forall i,
    ~ In (Prompted AskRestart) (trace (display_tabular_data_from df i ins)).
Proof.
  induction ins as [|a ins IH]; intros i.
  - cbn [display_tabular_data_from].
    destruct (List.length (rows df) <? i + 5)%nat; not_in_list.
  - cbn [display_tabular_data_from].
    destruct (List.length (rows df) <? i + 5)%nat; [not_in_list|].
    destruct (String.eqb (lower a) "continue" || String.eqb (lower a) "c");
      [|not_in_list].
    apply after_quiet; [not_in_list | apply IH].
Qed.

(** [report] asks nothing and reads nothing. *)
Lemma report_quiet (cols : list string) (df : DataFrame) (tp : time_period)
  (ins : list string) (p : Prompt) :
  ~ In (Prompted p) (trace (report cols df tp ins)).
Proof.
  unfold report.
  generalize (popular_month df) (popular_day df) (popular_hour df)
    (popular_stations df) (popular_trip df) (gender df)
    (birth_years df) (existsb (String.eqb "gender") cols)
    (existsb (String.eqb "birth year") cols) (users df) (trip_duration df).
  intros pm pd ph ps pt g b eg eb u td.
  destruct (tp_period tp); report_cases; intuition discriminate.
Qed.

Lemma report_reads_nothing (cols : list string) (df : DataFrame)
  (tp : time_period) (ins : list string) :
  snd (report cols df tp ins) = ins.
Proof.
  unfold report.
  generalize (popular_month df) (popular_day df) (popular_hour df)
    (popular_stations df) (popular_trip df) (gender df)
    (birth_years df) (existsb (String.eqb "gender") cols)
    (existsb (String.eqb "birth year") cols) (users df) (trip_duration df).
  intros pm pd ph ps pt g b eg eb u td.
  destruct (tp_period tp); report_cases; reflexivity.
Qed.

Lemma report_returns_iff (cols : list string) (df : DataFrame)
  (tp : time_period) (ins : list string) :
  outcome (report cols df tp ins) = Ok tt
  <-> all_stages_return cols df tp = true.
Proof.
  unfold report, all_stages_return.
  generalize (popular_month df) (popular_day df) (popular_hour df)
    (popular_stations df) (popular_trip df) (gender df)
    (birth_years df) (existsb (String.eqb "gender") cols)
    (existsb (String.eqb "birth year") cols) (users df) (trip_duration df).
  intros pm pd ph ps pt g b eg eb u td.
  destruct (tp_period tp); report_cases; intuition discriminate.
Qed.

Lemma bind_fails_before_restart {A B : Type} (m : io A) (k : A -> io B) :
  (forall ins, ~ In (Prompted AskRestart) (trace (m ins))) ->
  (forall a ins, fails_before_restart (k a ins)) ->
  forall ins, fails_before_restart (bind m k ins).
Proof.
  intros Hm Hk ins e. unfold bind.
  specialize (Hm ins). destruct (m ins) as [[o1 [a|e1]] ins1].
  - specialize (Hk a ins1 e). destruct (k a ins1) as [[o2 r] ins2].
    unfold trace, outcome in *. simpl in *. intros H1 H2.
    rewrite in_app_iff. intros [H|H]; [contradiction|]. now apply Hk.
  - unfold trace, outcome in *. simpl in *. intros _ _. exact Hm.
Qed.

Lemma bind_returns_after_restart {A B : Type} (m : io A) (k : A -> io B) :
  (forall a ins, returns_after_restart (k a ins)) ->
  forall ins, returns_after_restart (bind m k ins).
Proof.
  intros Hk ins b. unfold bind.
  destruct (m ins) as [[o1 [a|e1]] ins1].
  - specialize (Hk a ins1 b). destruct (k a ins1) as [[o2 r] ins2].
    unfold trace, outcome in *. simpl in *. intros H.
    rewrite in_app_iff. right. now apply Hk.
  - unfold outcome. simpl. discriminate.
Qed.

Lemma filter_step_quiet (df : DataFrame) (tp : time_period)
  (ins : list string) :
  ~ In (Prompted AskRestart)
      (trace ((if is_month (tp_period tp) || is_day (tp_period tp)
               then filtered <- lift (filter_city_data df tp) ;;
                    print FilteringTook ;;;
                    ret filtered
               else ret df) ins)).
Proof.
  destruct (is_month (tp_period tp) || is_day (tp_period tp));
    [|apply ret_quiet].
  apply bind_quiet; [apply lift_quiet|]. intros f ins1.
  apply bind_quiet; [apply print_quiet; discriminate|]. intros _ ins2.
  apply ret_quiet.
Qed.

Lemma view_step_quiet (view : bool) (df : DataFrame) (ins : list string) :
  ~ In (Prompted AskRestart)
      (trace (when view (display_tabular_data df) ins)).
Proof.
  destruct view; [|apply ret_quiet].
  unfold when, display_tabular_data.
  apply bind_quiet; [apply print_quiet; discriminate|]. intros _ ins1.
  apply display_tabular_data_from_quiet.
Qed.

Lemma session_fails_before_restart (files : string -> option DataFrame)
  (ins : list string) :
  fails_before_restart (session files ins).
Proof.
  unfold session.
  apply bind_fails_before_restart; [apply print_quiet; discriminate|].
  intros _ ins1.
  apply bind_fails_before_restart; [apply get_city_filename_quiet|].
  intros name ins2.
  apply bind_fails_before_restart; [apply lift_quiet|].
  intros df ins3. cbv zeta.
  apply bind_fails_before_restart; [apply print_quiet; discriminate|].
  intros _ ins4.
  apply bind_fails_before_restart; [apply get_time_period_quiet|].
  intros tp ins5.
  apply bind_fails_before_restart; [apply filter_step_quiet|].
  intros df' ins6.
  apply bind_fails_before_restart; [intros ins7; apply report_quiet|].
  intros _ ins7.
  apply bind_fails_before_restart; [apply display_data_quiet|].
  intros view ins8.
  apply bind_fails_before_restart; [intros ins9; apply view_step_quiet|].
  intros _ ins9.
  intros e. unfold bind, input, ret, outcome, trace.
  destruct ins9; simpl; intros H; inversion H; congruence.
Qed.

Lemma session_returns_after_restart (files : string -> option DataFrame)
  (ins : list string) :
  returns_after_restart (session files ins).
Proof.
  unfold session.
  do 3 (apply bind_returns_after_restart; intros ? ?). cbv zeta.
  do 6 (apply bind_returns_after_restart; intros ? ?).
  match goal with
  | |- returns_after_restart (_ ?rest) => destruct rest
  end; intros b; unfold bind, input, ret, outcome, trace; simpl;
    intros H; inversion H. now left.
Qed.

Lemma report_run_stages (cols : list string) (df : DataFrame)
  (tp : time_period) (ins : list string) :
  report cols df tp ins
  = (StatisticsHeader :: fst (run_stages (stages_of cols df tp)),
     snd (run_stages (stages_of cols df tp)), ins).
Proof.
  unfold report, stages_of.
  generalize (popular_month df) (popular_day df) (popular_hour df)
    (popular_stations df) (popular_trip df) (gender df)
    (birth_years df) (existsb (String.eqb "gender") cols)
    (existsb (String.eqb "birth year") cols) (users df) (trip_duration df).
  intros pm pd ph ps pt g b eg eb u td.
  destruct (tp_period tp); report_cases; reflexivity.
Qed.

Lemma run_stages_stops (before later : list stage) (s : stage) (e : exn) :
  Forall (fun s' => is_ok (call s') = true) before ->
  call s = Raise e ->
  run_stages (before ++ s :: later)
  = (flat_map lines before ++ announced s, Raise e).
Proof.
  intros Hb Hs. induction Hb as [|x before Hx Hb IH].
  - cbn [app flat_map run_stages]. now rewrite Hs.
  - cbn [app flat_map run_stages]. unfold lines at 1.
    destruct (call x) as [printed|e']; [|discriminate].
    rewrite IH. cbn [fst snd]. now rewrite <- !app_assoc.
Qed.

Lemma run_stages_all (l : list stage) :
  Forall (fun s => is_ok (call s) = true) l ->
  run_stages l = (flat_map lines l, Ok tt).
Proof.
  intros H. induction H as [|x l Hx H IH]; [reflexivity|].
  cbn [flat_map run_stages]. unfold lines at 1.
  destruct (call x) as [printed|e']; [|discriminate].
  rewrite IH. cbn [fst snd]. now rewrite <- !app_assoc.
Qed.

Lemma session_stops_with_report (files : string -> option DataFrame)
  (ins : list string) (o1 : list Output) (cols : list string)
  (df : DataFrame) (tp : time_period) (ins1 : list string) (e : exn) :
  prepare files ins = (o1, Ok (cols, df, tp), ins1) ->
  outcome (report cols df tp ins1) = Raise e ->
  session files ins = (o1 ++ trace (report cols df tp ins1), Raise e, ins1).
Proof.
  intros Hp Hr.
  pose proof (report_reads_nothing cols df tp ins1) as Hn.
  unfold session, prepare, bind, print, open_file, lift, ret in *.
  cbn beta iota zeta in *.
  destruct (get_city_filename ins) as [[oc [name|ec]] rc]; [|discriminate].
  destruct (files name) as [data|]; [|discriminate].
  cbn beta iota zeta in *.
  destruct (get_time_period rc) as [[ot [sel|et]] rt]; [|discriminate].
  destruct (is_month (tp_period sel) || is_day (tp_period sel)).
  - destruct (filter_city_data data sel) as [f|ef]; [|discriminate].
    cbn beta iota zeta in *. inversion Hp; subst.
    destruct (report (map lower (columns data)) df tp ins1)
      as [[o r] rest].
    unfold outcome, trace in *. cbn [fst snd] in *. subst.
    cbn [app]. repeat (rewrite <- app_assoc; cbn [app]).
    rewrite ?app_nil_r. reflexivity.
  - cbn beta iota zeta in *. inversion Hp; subst.
    destruct (report (map lower (columns df)) df tp ins1) as [[o r] rest].
    unfold outcome, trace in *. cbn [fst snd] in *. subst.
    cbn [app]. repeat (rewrite <- app_assoc; cbn [app]).
    rewrite ?app_nil_r. reflexivity.
Qed.

(** C3 (amended). The stages of the driver are not isolated.  The
    statistics part returns exactly when every aggregator it calls returns,
    and it has then printed the lines of every stage, in order.  When the
    call of a stage raises, the statistics part has printed its header, the
    lines of the stages before that one and what that stage prints before
    its call, and nothing of the stages after it; the exception is the
    outcome, and whatever follows the statistics part is not run: nothing
    more is printed and no answer is read.  In a session the exception ends
    the session there, before the prompt for the trip data.  A session that
    ends with an exception other than the end of the operator's answers has
    not reached the restart prompt; a session that returns has. *)
Theorem stage_failure_ends_the_session :
  (forall cols df tp ins,
      outcome (report cols df tp ins) = Ok tt
      <-> all_stages_return cols df tp = true)
  /\ (forall cols df tp ins e (k : io bool),
         outcome (report cols df tp ins) = Raise e ->
         (report cols df tp ;;; k) ins
         = (trace (report cols df tp ins), Raise e, ins))
  /\ (forall files ins e,
         outcome (session files ins) = Raise e -> e <> EOFError ->
         ~ In (Prompted AskRestart) (trace (session files ins)))
  /\ (forall files ins b,
         outcome (session files ins) = Ok b ->
         In (Prompted AskRestart) (trace (session files ins)))
  /\ (forall cols df tp ins before s later e,
         stages_of cols df tp = before ++ s :: later ->
         Forall (fun s' => is_ok (call s') = true) before ->
         call s = Raise e ->
         report cols df tp ins
         = (StatisticsHeader :: flat_map lines before ++ announced s,
            Raise e, ins))
  /\ (forall cols df tp ins,
         Forall (fun s => is_ok (call s) = true) (stages_of cols df tp) ->
         report cols df tp ins
         = (StatisticsHeader :: flat_map lines (stages_of cols df tp),
            Ok tt, ins))
  /\ (forall files ins o1 cols df tp ins1 e,
         prepare files ins = (o1, Ok (cols, df, tp), ins1) ->
         outcome (report cols df tp ins1) = Raise e ->
         session files ins
         = (o1 ++ trace (report cols df tp ins1), Raise e, ins1)).
Proof.
  split; [apply report_returns_iff|].
  split.
  { intros cols df tp ins e k H.
    pose proof (report_reads_nothing cols df tp ins) as Hr.
    unfold bind. destruct (report cols df tp ins) as [[o r] rest].
    unfold outcome, trace in *. simpl in *. now subst. }
  split; [intros files ins; apply session_fails_before_restart|].
  split; [intros files ins; apply session_returns_after_restart|].
  split.
  { intros cols df tp ins before s later e Hst Hb Hs.
    rewrite report_run_stages, Hst, (run_stages_stops _ _ _ _ Hb Hs).
    reflexivity. }
  split.
  { intros cols df tp ins Hall.
    rewrite report_run_stages, (run_stages_all _ Hall). reflexivity. }
  intros files ins o1 cols df tp ins1 e. apply session_stops_with_report.
Qed.

Lemma stage_failure_ends_the_session_witness :
  outcome (session (chicago_only unrecorded_years)
             ["chicago"; "none"; "no"; "no"]) = Raise ValueError
  /\ ~ In (Prompted AskRestart)
         (trace (session (chicago_only unrecorded_years)
                   ["chicago"; "none"; "no"; "no"]))
  /\ report (map lower header) (mkdf header []) january ["no"]
     = (StatisticsHeader
        :: flat_map lines []
        ++ announced (hd (mkstage [] (Ok []))
                        (stages_of (map lower header) (mkdf header [])
                           january)),
        Raise IndexError, ["no"]).
Proof.
  assert (H : outcome (session (chicago_only unrecorded_years)
                         ["chicago"; "none"; "no"; "no"]) = Raise ValueError)
    by reflexivity.
  split; [exact H|]. split.
  - apply (proj1 (proj2 (proj2 stage_failure_ends_the_session))
             (chicago_only unrecorded_years) ["chicago"; "none"; "no"; "no"]
             ValueError H).
    discriminate.
  - apply (proj1 (proj2 (proj2 (proj2 (proj2 stage_failure_ends_the_session))))
             (map lower header) (mkdf header []) january ["no"] []
             (hd (mkstage [] (Ok []))
                (stages_of (map lower header) (mkdf header []) january))
             (tl (stages_of (map lower header) (mkdf header []) january))
             IndexError).
    + reflexivity.
    + constructor.
    + reflexivity.
Defined.

(** C3, as stated, fails: on a table with rows none of which records a
    birth year, birth_years raises; the session ends there with the
    exception, and neither the prompt for the trip data nor the restart
    prompt is printed although answers to both were waiting. *)
Lemma failed_stage_prevents_restart_prompt :
  birth_years unrecorded_years = Raise ValueError
  /\ session (chicago_only unrecorded_years) ["chicago"; "none"; "no"; "no"]
     = ([Hello; Prompted AskCity; LoadingTook; Prompted AskFilter;
         StatisticsHeader; MostPopularMonth "January" 1; Elapsed;
         MostPopularDay "Sunday" 1; Elapsed; MostPopularHour 10 1; Elapsed;
         TotalDuration 5; AverageDuration (mean_of [5]); Elapsed;
         MostPopularStart "A" 1; MostPopularEnd "B" 1; Elapsed;
         MostPopularTrip "A to B" 1; Elapsed; UserTypeHeader;
         UserTypeTable [("Subscriber", 1%nat)]; Elapsed; GenderHeader;
         GenderTable [("Male", 1%nat)]; Elapsed],
        Raise ValueError, ["no"; "no"])
  /\ ~ In (Prompted AskRestart)
         (trace (session (chicago_only unrecorded_years)
                   ["chicago"; "none"; "no"; "no"])).
Proof.
  split; [reflexivity|]. split; [reflexivity|].
  vm_compute. intuition discriminate.
Qed.

(* ================================================================== *)
(** ** The prompt loops *)

Lemma rejected_cons (a : string) (bad : list string) (ask : Prompt)
  (msg : Output) :
  rejected (a :: bad) ask msg = [Prompted ask; msg] ++ rejected bad ask msg.
Proof. reflexivity. Qed.

(** X1. The city prompt turns down every answer that is not one of the three
    city names, in any letter case, printing one message for each, and
    returns the file of the first answer that is; when the answers run out
    before, it ends with EOFError.  The file is one of the three city
    files. *)
Theorem get_city_filename_first_valid_answer :
  (forall bad a rest,
      Forall (fun x => valid_city x = false) bad ->
      valid_city a = true ->
      get_city_filename (bad ++ a :: rest)
      = (rejected bad AskCity InvalidCity ++ [Prompted AskCity],
         Ok (city_file a), rest)
        /\ In (city_file a) [chicago; new_york_city; washington])
  /\ (forall bad,
         Forall (fun x => valid_city x = false) bad ->
         get_city_filename bad
         = (rejected bad AskCity InvalidCity ++ [Prompted AskCity],
            Raise EOFError, [])).
Proof.
  split.
  - intros bad a rest Hbad Ha.
    induction Hbad as [|x bad Hx Hbad IH].
    + unfold valid_city in Ha. unfold city_file.
      cbn [app rejected flat_map get_city_filename].
      destruct (String.eqb (lower a) "chicago");
        [split; [reflexivity | simpl; tauto]|].
      destruct (String.eqb (lower a) "new york");
        [split; [reflexivity | simpl; tauto]|].
      destruct (String.eqb (lower a) "washington");
        [split; [reflexivity | simpl; tauto] | discriminate].
    + destruct IH as [IH Hin]. split; [|exact Hin].
      unfold valid_city in Hx. rewrite !orb_false_iff in Hx.
      destruct Hx as [[H1 H2] H3].
      cbn [app get_city_filename]. rewrite H1, H2, H3, IH.
      reflexivity.
  - intros bad Hbad.
    induction Hbad as [|x bad Hx Hbad IH]; [reflexivity|].
    unfold valid_city in Hx. rewrite !orb_false_iff in Hx.
    destruct Hx as [[H1 H2] H3].
    cbn [get_city_filename]. rewrite H1, H2, H3, IH. reflexivity.
Qed.

Lemma get_city_filename_first_valid_answer_witness :
  get_city_filename (["Boston"; ""] ++ "New York" :: ["none"])
  = (rejected ["Boston"; ""] AskCity InvalidCity ++ [Prompted AskCity],
     Ok (city_file "New York"), ["none"]).
Proof.
  apply (proj1 get_city_filename_first_valid_answer).
  - repeat constructor.
  - reflexivity.
Defined.

Lemma index_of_nth (x : string) (l : list string) :
  forall i, index_of x l = Some i -> nth i l "" = x.
Proof.
  induction l as [|y l IH]; simpl; intros i H; [discriminate|].
  destruct (String.eqb x y) eqn:E.
  - inversion H; subst. symmetry. now apply String.eqb_eq.
  - destruct (index_of x l) as [j|]; [|discriminate].
    inversion H; subst. now apply IH.
Qed.

Lemma month_name_of_answer (i : nat) :
  (i < 6)%nat ->
  lower (month_name (Z.of_nat i + 1)) = nth i valid_months "".
Proof.
  intros H. do 6 (destruct i as [|i]; [reflexivity|]). lia.
Qed.

(** X2. The month prompt turns down every answer that is not the name of a
    month from January to June, in any letter case, and returns for the
    first answer that is the number of that month: a number from 1 to 6
    whose calendar name is the answer, letter case apart. *)
Theorem get_month_first_valid_answer :
  (forall bad a rest,
      Forall (fun x => valid_month x = false) bad ->
      valid_month a = true ->
      exists m,
        get_month (bad ++ a :: rest)
        = (rejected bad AskMonth InvalidMonth ++ [Prompted AskMonth],
           Ok m, rest)
        /\ 1 <= m <= 6
        /\ lower (month_name m) = lower a)
  /\ (forall bad,
         Forall (fun x => valid_month x = false) bad ->
         get_month bad
         = (rejected bad AskMonth InvalidMonth ++ [Prompted AskMonth],
            Raise EOFError, [])).
Proof.
  split.
  - intros bad a rest Hbad Ha.
    induction Hbad as [|x bad Hx Hbad IH].
    + unfold valid_month in Ha.
      destruct (index_of (lower a) valid_months) as [i|] eqn:E;
        [|discriminate].
      exists (Z.of_nat i + 1).
      cbn [app rejected flat_map get_month]. rewrite E.
      pose proof (index_of_bound _ _ _ E) as Hi. simpl in Hi.
      split; [reflexivity|]. split; [lia|].
      rewrite (month_name_of_answer i Hi). now apply index_of_nth.
    + destruct IH as (m & IH & Hm). exists m. split; [|exact Hm].
      unfold valid_month in Hx. cbn [app get_month].
      destruct (index_of (lower x) valid_months); [discriminate|].
      rewrite IH. reflexivity.
  - intros bad Hbad.
    induction Hbad as [|x bad Hx Hbad IH]; [reflexivity|].
    unfold valid_month in Hx. cbn [get_month].
    destruct (index_of (lower x) valid_months); [discriminate|].
    rewrite IH. reflexivity.
Qed.

Lemma get_month_first_valid_answer_witness :
  exists m,
    get_month (["July"; "3"] ++ "MARCH" :: ["7"])
    = (rejected ["July"; "3"] AskMonth InvalidMonth ++ [Prompted AskMonth],
       Ok m, ["7"])
    /\ 1 <= m <= 6
    /\ lower (month_name m) = lower "MARCH".
Proof.
  apply (proj1 get_month_first_valid_answer).
  - repeat constructor.
  - reflexivity.
Defined.

Lemma monthrange_2017_days (month : Z) :
  1 <= month <= 12 ->
  exists w, monthrange 2017 month = Ok (w, days_in_month 2017 month).
Proof.
  intros H. cases_from month 1; eexists; reflexivity.
Qed.

Lemma get_day_loop_first_valid (month_year : string) (last : Z)
  (bad : list string) (a : string) (rest : list string) :
  Forall (fun x => valid_day last x = false) bad ->
  valid_day last a = true ->
  exists d,
    py_int_of_str a = Ok d /\ 1 <= d <= last
    /\ get_day_loop month_year last (bad ++ a :: rest)
       = (rejected bad (AskDay month_year last) InvalidDay
          ++ [Prompted (AskDay month_year last)], Ok d, rest).
Proof.
  intros Hbad Ha. induction Hbad as [|x bad Hx Hbad IH].
  - unfold valid_day in Ha. cbn [app rejected flat_map get_day_loop].
    destruct (py_int_of_str a) as [d|e]; [|discriminate].
    exists d. rewrite Ha. apply andb_true_iff in Ha.
    rewrite !Z.leb_le in Ha. auto.
  - destruct IH as (d & Hd & Hr & IH). exists d.
    split; [exact Hd|]. split; [exact Hr|].
    unfold valid_day in Hx. cbn [app get_day_loop].
    destruct (py_int_of_str x) as [n|e]; [rewrite Hx|]; rewrite IH;
      reflexivity.
Qed.

(** X3. For a month of the calendar, the day prompt turns down every answer
    that is not a whole number between 1 and the number of days of that
    month in 2017, and returns the number that the first other answer
    denotes; the prompt names the month and its last day. *)
Theorem get_day_first_valid_answer (month : Z) (bad : list string)
  (a : string) (rest : list string) :
  1 <= month <= 12 ->
  Forall (fun x => valid_day (days_in_month 2017 month) x = false) bad ->
  valid_day (days_in_month 2017 month) a = true ->
  exists d,
    py_int_of_str a = Ok d
    /\ 1 <= d <= days_in_month 2017 month
    /\ get_day month (bad ++ a :: rest)
       = (rejected bad
            (AskDay (month_name month ++ " 2017")
               (days_in_month 2017 month)) InvalidDay
          ++ [Prompted (AskDay (month_name month ++ " 2017")
                          (days_in_month 2017 month))],
          Ok d, rest).
Proof.
  intros Hm Hbad Ha.
  destruct (get_day_loop_first_valid (month_name month ++ " 2017")
              (days_in_month 2017 month) bad a rest Hbad Ha)
    as (d & Hd & Hr & Hrun).
  exists d. split; [exact Hd|]. split; [exact Hr|].
  unfold get_day, bind, lift.
  destruct (monthrange_2017_days month Hm) as [w ->].
  cbn [snd]. rewrite Hrun. reflexivity.
Qed.

Lemma get_day_first_valid_answer_witness :
  exists d,
    py_int_of_str " 28 " = Ok d
    /\ 1 <= d <= days_in_month 2017 2
    /\ get_day 2 (["29"; "two"; "0"] ++ " 28 " :: ["yes"])
       = (rejected ["29"; "two"; "0"]
            (AskDay (month_name 2 ++ " 2017") (days_in_month 2017 2))
            InvalidDay
          ++ [Prompted (AskDay (month_name 2 ++ " 2017")
                          (days_in_month 2017 2))],
          Ok d, ["yes"]).
Proof.
  apply (get_day_first_valid_answer 2 ["29"; "two"; "0"] " 28 " ["yes"]).
  - lia.
  - repeat constructor.
  - reflexivity.
Defined.

(** X4. The prompt for the trip data turns down every answer other than yes
    and no, in any letter case, and returns whether the first such answer
    is yes. *)
Theorem display_data_first_valid_answer :
  (forall bad a rest,
      Forall (fun x => valid_view x = false) bad ->
      valid_view a = true ->
      display_data (bad ++ a :: rest)
      = (rejected bad AskView InvalidResponse ++ [Prompted AskView],
         Ok (String.eqb (lower a) "yes"), rest))
  /\ (forall bad,
         Forall (fun x => valid_view x = false) bad ->
         display_data bad
         = (rejected bad AskView InvalidResponse ++ [Prompted AskView],
            Raise EOFError, [])).
Proof.
  split.
  - intros bad a rest Hbad Ha.
    induction Hbad as [|x bad Hx Hbad IH].
    + unfold valid_view in Ha. cbn [app rejected flat_map display_data].
      destruct (String.eqb (lower a) "yes"); [reflexivity|].
      destruct (String.eqb (lower a) "no"); [reflexivity | discriminate].
    + unfold valid_view in Hx. rewrite orb_false_iff in Hx.
      destruct Hx as [H1 H2].
      cbn [app display_data]. rewrite H1, H2, IH. reflexivity.
  - intros bad Hbad.
    induction Hbad as [|x bad Hx Hbad IH]; [reflexivity|].
    unfold valid_view in Hx. rewrite orb_false_iff in Hx.
    destruct Hx as [H1 H2].
    cbn [display_data]. rewrite H1, H2, IH. reflexivity.
Qed.

Lemma display_data_first_valid_answer_witness :
  display_data (["maybe"] ++ "YES" :: ["c"])
  = (rejected ["maybe"] AskView InvalidResponse ++ [Prompted AskView],
     Ok (String.eqb (lower "YES") "yes"), ["c"]).
Proof.
  apply (proj1 display_data_first_valid_answer).
  - repeat constructor.
  - reflexivity.
Defined.

(* ================================================================== *)
(** ** More on the time-period filter *)

Lemma filter_city_data_rows (df df' : DataFrame) (tp : time_period) :
  filter_city_data df tp = Ok df' ->
  exists lo hi,
    start_date tp = Ok lo /\ end_date tp = Ok hi
    /\ df' = mkdf (columns df) (filter (in_period lo hi) (rows df)).
Proof.
  unfold filter_city_data. intros H.
  destruct (start_date tp) as [lo|]; [|discriminate].
  destruct (end_date tp) as [hi|]; [|discriminate].
  cbn [rbind] in H. injection H as <-. now exists lo, hi.
Qed.

Lemma filter_narrow {A : Type} (f g : A -> bool) (l : list A) :
  (forall x, In x l -> g x = true -> f x = true) ->
  filter g (filter f l) = filter g l.
Proof.
  induction l as [|x l IH]; intros H; simpl; [reflexivity|].
  destruct (f x) eqn:Ef; simpl.
  - destruct (g x); rewrite IH; auto; intros; apply H; simpl; auto.
  - destruct (g x) eqn:Eg.
    + rewrite (H x (or_introl eq_refl) Eg) in Ef. discriminate.
    + apply IH. intros; apply H; simpl; auto.
Qed.

Lemma filter_swap {A : Type} (f g : A -> bool) (l : list A) :
  filter g (filter f l) = filter f (filter g l).
Proof.
  induction l as [|x l IH]; simpl; [reflexivity|].
  destruct (f x) eqn:Ef, (g x) eqn:Eg; simpl; rewrite ?Ef, ?Eg, IH;
    reflexivity.
Qed.

Lemma returned_selector_fits (ins : list string) (o : list Output)
  (tp : time_period) (rest : list string) :
  get_time_period ins = (o, Ok tp, rest) ->
  tp_period tp <> PNone ->
  month_or_day_selector tp = true.
Proof.
  intros H Hp. apply get_time_period_shape in H.
  destruct (tp_period tp) eqn:Ep; [| |congruence].
  - destruct H as (m & Hm & ->). cases_from m 1; reflexivity.
  - destruct H as (m & d & Hm & Hd & ->).
    assert (Hl : last_day_of_month_2017 m = days_in_month 2017 m)
      by (cases_from m 1; reflexivity).
    rewrite Hl in Hd.
    unfold month_or_day_selector. cbn [is_none negb andb].
    rewrite !andb_true_iff, Z.eqb_eq, !Z.leb_le. lia.
Qed.

Lemma selector_filter_returns (df : DataFrame) (tp : time_period) :
  month_or_day_selector tp = true ->
  exists df', filter_city_data df tp = Ok df'.
Proof.
  intros Hs.
  destruct (month_or_day_selector_dates _ Hs)
    as (m' & a & b & _ & _ & _ & _ & Hlo & Hhi).
  unfold filter_city_data. rewrite Hlo, Hhi. now eexists.
Qed.

(** X5. Every selector that get_time_period returns fits the filter: with
    granularity month or day the filter returns a table, for any table;
    with granularity none the selector holds no date and the filter raises
    TypeError. *)
Theorem get_time_period_selector_fits_filter (ins : list string)
  (o : list Output) (tp : time_period) (rest : list string)
  (df : DataFrame) :
  get_time_period ins = (o, Ok tp, rest) ->
  (tp_period tp <> PNone ->
   month_or_day_selector tp = true
   /\ exists df', filter_city_data df tp = Ok df')
  /\ (tp_period tp = PNone -> filter_city_data df tp = Raise TypeError).
Proof.
  intros H. split.
  - intros Hp. pose proof (returned_selector_fits _ _ _ _ H Hp) as Hs.
    split; [exact Hs | now apply selector_filter_returns].
  - intros Hp. apply get_time_period_shape in H. rewrite Hp in H.
    now subst tp.
Qed.

Lemma get_time_period_selector_fits_filter_witness :
  exists df',
    filter_city_data three_trips
      (mktp PDay (Some 2017) (Some 1) (Some 31, Some 31)) = Ok df'.
Proof.
  refine (proj2 (proj1 (get_time_period_selector_fits_filter
                          ["day"; "January"; "31"]
                          [Prompted AskFilter; Prompted AskMonth;
                           Prompted (AskDay "January 2017" 31)]
                          (mktp PDay (Some 2017) (Some 1) (Some 31, Some 31))
                          [] three_trips eq_refl) _)).
  discriminate.
Defined.

(** X6. Filtering a filtered table again with the same selector changes
    nothing. *)
Theorem filter_city_data_idempotent (df df' : DataFrame)
  (tp : time_period) :
  filter_city_data df tp = Ok df' -> filter_city_data df' tp = Ok df'.
Proof.
  intros H. destruct (filter_city_data_rows _ _ _ H) as (lo & hi & Hlo & Hhi & ->).
  unfold filter_city_data. rewrite Hlo, Hhi. cbn [rbind rows columns].
  rewrite filter_narrow; [reflexivity | auto].
Qed.

Lemma filter_city_data_idempotent_witness :
  filter_city_data (mkdf header (firstn 2 (rows three_trips))) january
  = Ok (mkdf header (firstn 2 (rows three_trips))).
Proof.
  apply (filter_city_data_idempotent three_trips). reflexivity.
Defined.

(** X7. Two selectors can be applied in either order: the table obtained is
    the same, and it holds the rows that each selector alone keeps. *)
Theorem filter_city_data_commutes (df d1 d2 : DataFrame)
  (tp1 tp2 : time_period) :
  filter_city_data df tp1 = Ok d1 ->
  filter_city_data df tp2 = Ok d2 ->
  exists d12,
    filter_city_data d1 tp2 = Ok d12
    /\ filter_city_data d2 tp1 = Ok d12
    /\ forall r, In r (rows d12) <-> In r (rows d1) /\ In r (rows d2).
Proof.
  intros H1 H2.
  destruct (filter_city_data_rows _ _ _ H1) as (lo1 & hi1 & Hlo1 & Hhi1 & ->).
  destruct (filter_city_data_rows _ _ _ H2) as (lo2 & hi2 & Hlo2 & Hhi2 & ->).
  unfold filter_city_data. rewrite Hlo1, Hhi1, Hlo2, Hhi2.
  cbn [rbind rows columns]. eexists. split; [reflexivity|].
  split; [now rewrite filter_swap|].
  intros r. cbn [rows]. rewrite !filter_In. tauto.
Qed.

Lemma filter_city_data_commutes_witness :
  exists d12,
    filter_city_data (mkdf header (firstn 2 (rows three_trips)))
      (day_selector 1 31) = Ok d12
    /\ filter_city_data (mkdf header [nth 1 (rows three_trips)
                                        (ride (at_time 1 1 0 0) 0 "" "" None)])
         january = Ok d12.
Proof.
  destruct (filter_city_data_commutes three_trips _ _ january
              (day_selector 1 31) eq_refl eq_refl) as (d12 & H1 & H2 & _).
  exists d12. split; [exact H1 | exact H2].
Defined.

Lemma day_within_month (m d : Z) (r : Trip) :
  1 <= d <= last_day_of_month_2017 m ->
  in_period (mkdate 2017 m d) (mkdate 2017 m d) r = true ->
  in_period (mkdate 2017 m 1) (mkdate 2017 m (last_day_of_month_2017 m)) r
  = true.
Proof.
  intros Hd. rewrite !in_period_spec. unfold date_le. simpl. lia.
Qed.

Lemma selector_dates_2017 (m a b : Z) (p : Period) :
  1 <= m <= 6 ->
  1 <= a <= last_day_of_month_2017 m ->
  1 <= b <= last_day_of_month_2017 m ->
  start_date (mktp p (Some 2017) (Some m) (Some a, Some b))
  = Ok (mkdate 2017 m a)
  /\ end_date (mktp p (Some 2017) (Some m) (Some a, Some b))
     = Ok (mkdate 2017 m b).
Proof.
  intros Hm Ha Hb. unfold start_date, end_date, datetime_date. cbn [tp_year tp_month tp_day fst snd].
  assert (Hl : last_day_of_month_2017 m = days_in_month 2017 m)
    by (cases_from m 1; reflexivity).
  rewrite Hl in Ha, Hb.
  replace (1 <=? m) with true by (symmetry; apply Z.leb_le; lia).
  replace (m <=? 12) with true by (symmetry; apply Z.leb_le; lia).
  replace (1 <=? a) with true by (symmetry; apply Z.leb_le; lia).
  replace (1 <=? b) with true by (symmetry; apply Z.leb_le; lia).
  replace (a <=? days_in_month 2017 m) with true
    by (symmetry; apply Z.leb_le; lia).
  replace (b <=? days_in_month 2017 m) with true
    by (symmetry; apply Z.leb_le; lia).
  split; reflexivity.
Qed.

(** X8. The trips of a day are among the trips of its month: for a month from
    January to June and a day of it, both filters return, the table of the
    day is a subsequence of the table of the month, and filtering the table
    of the month by the day gives the table of the day. *)
Theorem day_filter_within_month_filter (df : DataFrame) (m d : Z) :
  1 <= m <= 6 ->
  1 <= d <= last_day_of_month_2017 m ->
  exists dm dd,
    filter_city_data df (month_selector m) = Ok dm
    /\ filter_city_data df (day_selector m d) = Ok dd
    /\ filter_city_data dm (day_selector m d) = Ok dd
    /\ Subseq (rows dd) (rows dm).
Proof.
  intros Hm Hd.
  assert (H1 : 1 <= 1 <= last_day_of_month_2017 m)
    by (cases_from m 1; simpl; lia).
  assert (Hl : 1 <= last_day_of_month_2017 m <= last_day_of_month_2017 m)
    by lia.
  destruct (selector_dates_2017 m 1 (last_day_of_month_2017 m) PMonth Hm H1 Hl)
    as [Hlo Hhi].
  destruct (selector_dates_2017 m d d PDay Hm Hd Hd) as [Hlo' Hhi'].
  unfold month_selector, day_selector, filter_city_data.
  rewrite Hlo, Hhi, Hlo', Hhi'. cbn [rbind rows columns].
  do 2 eexists. split; [reflexivity|]. split; [reflexivity|].
  assert (E : filter (in_period (mkdate 2017 m d) (mkdate 2017 m d))
                (filter (in_period (mkdate 2017 m 1)
                           (mkdate 2017 m (last_day_of_month_2017 m)))
                   (rows df))
              = filter (in_period (mkdate 2017 m d) (mkdate 2017 m d))
                  (rows df)).
  { apply filter_narrow. intros r _. now apply day_within_month. }
  split; [cbn [rows columns]; now rewrite E|].
  cbn [rows]. rewrite <- E. apply filter_Subseq.
Qed.

Lemma day_filter_within_month_filter_witness :
  exists dm dd,
    filter_city_data three_trips (month_selector 1) = Ok dm
    /\ filter_city_data three_trips (day_selector 1 31) = Ok dd
    /\ filter_city_data dm (day_selector 1 31) = Ok dd
    /\ Subseq (rows dd) (rows dm).
Proof.
  apply (day_filter_within_month_filter three_trips 1 31); simpl; lia.
Defined.

Lemma date_le_antisym (a b : date) : date_le a b -> date_le b a -> a = b.
Proof.
  destruct a as [ya ma da], b as [yb mb db]. unfold date_le. simpl.
  intros H1 H2. f_equal; lia.
Qed.

Lemma date_le_refl (a : date) : date_le a a.
Proof. unfold date_le. lia. Qed.

(** X9. A day selector keeps exactly the rows that start on that day: for a
    month from January to June and a day of it, a row is in the filtered
    table if and only if it is in the table and its start date is that day
    of 2017. *)
Theorem day_filter_keeps_that_day (df : DataFrame) (m d : Z) :
  1 <= m <= 6 ->
  1 <= d <= last_day_of_month_2017 m ->
  exists dd,
    filter_city_data df (day_selector m d) = Ok dd
    /\ forall r, In r (rows dd)
                 <-> In r (rows df)
                     /\ dt_date (Start_Time r) = mkdate 2017 m d.
Proof.
  intros Hm Hd.
  destruct (selector_dates_2017 m d d PDay Hm Hd Hd) as [Hlo Hhi].
  unfold day_selector, filter_city_data. rewrite Hlo, Hhi.
  cbn [rbind]. eexists. split; [reflexivity|].
  intros r. cbn [rows]. rewrite filter_In, in_period_spec. split.
  - intros (Hin & H1 & H2). split; [exact Hin|].
    symmetry. now apply date_le_antisym.
  - intros (Hin & ->). repeat split; trivial; apply date_le_refl.
Qed.

Lemma day_filter_keeps_that_day_witness :
  exists dd,
    filter_city_data three_trips (day_selector 2 3) = Ok dd
    /\ forall r, In r (rows dd)
                 <-> In r (rows three_trips)
                     /\ dt_date (Start_Time r) = mkdate 2017 2 3.
Proof.
  apply (day_filter_keeps_that_day three_trips 2 3); simpl; lia.
Defined.
(* ================================================================== *)
(** ** More on counting *)

Section ValueCountsFacts.

Context {K : Type}.
Variable eq_dec : forall x y : K, {x = y} + {x <> y}.

Lemma insert_desc_perm (x : K * nat) (l : list (K * nat)) :
  Permutation (insert_desc x l) (x :: l).
Proof.
  induction l as [|y l IH]; simpl; [reflexivity|].
  destruct (snd y <=? snd x)%nat; [reflexivity|].
  rewrite IH. apply perm_swap.
Qed.

Lemma sort_values_desc_perm (l : list (K * nat)) :
  Permutation (sort_values_desc l) l.
Proof.
  induction l as [|x l IH]; simpl; [reflexivity|].
  rewrite insert_desc_perm. now constructor.
Qed.

Lemma insert_desc_sorted (x : K * nat) (l : list (K * nat)) :
  Sorted by_count_desc l -> Sorted by_count_desc (insert_desc x l).
Proof.
  induction l as [|y l IH]; simpl; intros Hs.
  - repeat constructor.
  - destruct (snd y <=? snd x)%nat eqn:E.
    + apply Nat.leb_le in E. constructor; [exact Hs|]. now constructor.
    + apply Nat.leb_gt in E. inversion Hs as [|? ? Hs' Hhd]; subst.
      constructor; [now apply IH|].
      destruct l as [|z l]; simpl.
      * constructor. unfold by_count_desc. lia.
      * destruct (snd z <=? snd x)%nat.
        -- constructor. unfold by_count_desc. lia.
        -- inversion Hhd; subst. now constructor.
Qed.

Lemma sort_values_desc_sorted (l : list (K * nat)) :
  Sorted by_count_desc (sort_values_desc l).
Proof.
  induction l as [|x l IH]; simpl; [constructor|].
  now apply insert_desc_sorted.
Qed.

Lemma bump_sum (k : K) (acc : list (K * nat)) :
  List.list_sum (map snd (bump eq_dec k acc))
  = S (List.list_sum (map snd acc)).
Proof.
  induction acc as [|[k0 n] acc IH]; simpl; [reflexivity|].
  destruct (eq_dec k k0); simpl; [reflexivity|]. rewrite IH. lia.
Qed.

Lemma fold_bump_sum (l : list K) :
  forall acc,
    List.list_sum (map snd (fold_left (fun a x => bump eq_dec x a) l acc))
    = (List.list_sum (map snd acc) + List.length l)%nat.
Proof.
  induction l as [|x l IH]; intros acc; simpl; [lia|].
  rewrite IH, bump_sum. lia.
Qed.

Lemma value_counts_In (l : list K) (k : K) (n : nat) :
  In (k, n) (value_counts eq_dec l)
  <-> In k l /\ n = count_occ eq_dec l k.
Proof.
  unfold value_counts. rewrite sort_values_desc_In. split.
  - apply tally_sound.
  - intros [Hin ->]. now apply tally_complete.
Qed.

Lemma value_counts_NoDup (l : list K) :
  NoDup (map fst (value_counts eq_dec l)).
Proof.
  unfold value_counts.
  apply (Permutation_NoDup (l := map fst (tally eq_dec l))).
  - apply Permutation_map, Permutation_sym, sort_values_desc_perm.
  - unfold tally. apply fold_NoDup. constructor.
Qed.

Lemma value_counts_sum (l : list K) :
  List.list_sum (map snd (value_counts eq_dec l)) = List.length l.
Proof.
  unfold value_counts.
  rewrite (Permutation_list_sum
             (Permutation_map snd (sort_values_desc_perm (tally eq_dec l)))).
  unfold tally. now rewrite fold_bump_sum.
Qed.

Lemma value_counts_constant (c : K) (l : list K) :
  l <> [] -> (forall x, In x l -> x = c) ->
  index0 (value_counts eq_dec l) = Ok c
  /\ iloc0 (value_counts eq_dec l) = Ok (List.length l).
Proof.
  intros Hne Hall.
  destruct (value_counts eq_dec l) as [|[k n] r] eqn:Hv.
  - now apply value_counts_nonempty in Hv.
  - destruct (value_counts_head _ _ _ _ _ Hv) as (Hin & Hn & _).
    apply Hall in Hin. subst k. simpl. split; [reflexivity|].
    f_equal. rewrite Hn. clear Hv Hn Hne r.
    induction l as [|x l IH]; simpl; [reflexivity|].
    rewrite (Hall x (or_introl eq_refl)).
    destruct (eq_dec c c); [|congruence].
    f_equal. apply IH. intros y Hy. apply Hall. now right.
Qed.

End ValueCountsFacts.

(* ================================================================== *)
(** ** More on the aggregators *)

(** X10. users lists every user type that occurs once, with the number of rows
    that have it, in descending order of these numbers; the numbers add up
    to the number of rows that have a user type. *)
Theorem users_counts_every_type (df : DataFrame) :
  NoDup (map fst (users df))
  /\ (forall u n,
         In (u, n) (users df)
         <-> In (Some u) (map User_Type (rows df))
             /\ n = count_occ string_dec
                      (dropna (map User_Type (rows df))) u)
  /\ Sorted by_count_desc (users df)
  /\ List.list_sum (map snd (users df))
     = List.length (dropna (map User_Type (rows df))).
Proof.
  unfold users. split; [apply value_counts_NoDup|].
  split; [intros u n; now rewrite value_counts_In, dropna_In|].
  split; [apply sort_values_desc_sorted | apply value_counts_sum].
Qed.

Lemma getcol_absent {A : Type} (name : string) (cell : Trip -> A)
  (df : DataFrame) :
  ~ In name (columns df) -> getcol name cell df = Raise KeyError.
Proof.
  intros Hin. unfold getcol.
  destruct (existsb (String.eqb name) (columns df)) eqn:E; [|reflexivity].
  apply existsb_exists in E. destruct E as (c & Hc & E).
  apply String.eqb_eq in E. now subst.
Qed.

(** X11. gender raises KeyError on a table without a column named Gender; on a
    table with it, gender lists every recorded gender once, with the number
    of rows that have it, in descending order of these numbers. *)
Theorem gender_counts_or_key_error (df : DataFrame) :
  (~ In "Gender" (columns df) -> gender df = Raise KeyError)
  /\ (In "Gender" (columns df) ->
      exists g,
        gender df = Ok g
        /\ NoDup (map fst g)
        /\ (forall x n,
               In (x, n) g
               <-> In (Some x) (map Gender (rows df))
                   /\ n = count_occ string_dec
                            (dropna (map Gender (rows df))) x)
        /\ Sorted by_count_desc g).
Proof.
  unfold gender. split.
  - intros H. now rewrite (getcol_absent _ _ _ H).
  - intros H. rewrite (getcol_present _ _ _ H). cbn [rbind].
    eexists. split; [reflexivity|].
    split; [apply value_counts_NoDup|].
    split; [intros x n; now rewrite value_counts_In, dropna_In|].
    apply sort_values_desc_sorted.
Qed.

Lemma gender_counts_or_key_error_witness :
  exists g, gender three_trips = Ok g /\ NoDup (map fst g).
Proof.
  destruct (proj2 (gender_counts_or_key_error three_trips)) as (g & Hg & Hn & _).
  - simpl. tauto.
  - exists g. split; assumption.
Defined.

Lemma date_weekday_range (d : date) : 0 <= date_weekday d < 7.
Proof. unfold date_weekday. apply Z.mod_pos_bound. lia. Qed.

Lemma day_name_weekday (w : Z) : 0 <= w < 7 -> In (day_name w) day_names.
Proof. intros H. cases_from w 0; simpl; tauto. Qed.

Lemma head_most_frequent (l : list Z) (k : Z) (n : nat) :
  index0 (value_counts Z.eq_dec l) = Ok k ->
  iloc0 (value_counts Z.eq_dec l) = Ok n ->
  In k l /\ n = count_occ Z.eq_dec l k
  /\ (forall k', (count_occ Z.eq_dec l k' <= n)%nat)
  /\ (1 <= n <= List.length l)%nat.
Proof.
  destruct (value_counts Z.eq_dec l) as [|[k0 n0] r] eqn:Hv; [discriminate|].
  simpl. intros Hk Hn. inversion Hk; inversion Hn; subst.
  destruct (value_counts_head _ _ _ _ _ Hv) as (Hin & Hc & Hmax).
  repeat split; trivial.
  - rewrite Hc. now apply (count_occ_In Z.eq_dec).
  - rewrite Hc. apply count_occ_bound.
Qed.

Lemma popular_inv {A B : Type} (s : list (Z * nat)) (g : Z -> A)
  (f : A * nat -> B) (b : B) :
  (let? k := index0 s in let? n := iloc0 s in Ok (f (g k, n))) = Ok b ->
  exists k n, index0 s = Ok k /\ iloc0 s = Ok n /\ b = f (g k, n).
Proof.
  destruct s as [|[k n] r]; simpl; [discriminate|].
  intros H. inversion H. now exists k, n.
Qed.

(** X12. What popular_month, popular_day and popular_hour return is a most
    frequent month, weekday and hour of the start times, named from the
    calendar, with the number of rows that have it: no other value occurs
    more often, and the number lies between 1 and the number of rows.  The
    weekday is one of the seven names of days. *)
Theorem popular_time_is_most_frequent (df : DataFrame) :
  (forall name n,
      popular_month df = Ok (name, n) ->
      exists m,
        In m (map dt_month (col_Start_Time df))
        /\ name = month_name m
        /\ n = count_occ Z.eq_dec (map dt_month (col_Start_Time df)) m
        /\ (forall m', (count_occ Z.eq_dec
                          (map dt_month (col_Start_Time df)) m' <= n)%nat)
        /\ (1 <= n <= List.length (rows df))%nat)
  /\ (forall name n,
         popular_day df = Ok (name, n) ->
         exists w,
           In w (map dt_weekday (col_Start_Time df))
           /\ name = day_name w /\ In name day_names
           /\ n = count_occ Z.eq_dec (map dt_weekday (col_Start_Time df)) w
           /\ (forall w', (count_occ Z.eq_dec
                             (map dt_weekday (col_Start_Time df)) w'
                           <= n)%nat)
           /\ (1 <= n <= List.length (rows df))%nat)
  /\ (forall r,
         popular_hour df = Ok r ->
         exists h n,
           r = Some (h, n)
           /\ In h (map dt_hour (col_Start_Time df))
           /\ n = count_occ Z.eq_dec (map dt_hour (col_Start_Time df)) h
           /\ (forall h', (count_occ Z.eq_dec
                             (map dt_hour (col_Start_Time df)) h' <= n)%nat)
           /\ (1 <= n <= List.length (rows df))%nat).
Proof.
  assert (Hlen : forall f : Timestamp -> Z,
             List.length (map f (col_Start_Time df)) = List.length (rows df))
    by (intros f; unfold col_Start_Time; now rewrite !length_map).
  split; [|split].
  - intros name n H. unfold popular_month in H.
    apply (popular_inv _ month_name (fun x => x)) in H.
    destruct H as (k & c & Hk & Hc & E). inversion E; subst.
    destruct (head_most_frequent _ _ _ Hk Hc) as (H1 & H2 & H3 & H4).
    rewrite Hlen in H4. exists k. auto.
  - intros name n H. unfold popular_day in H.
    apply (popular_inv _ day_name (fun x => x)) in H.
    destruct H as (k & c & Hk & Hc & E). inversion E; subst.
    destruct (head_most_frequent _ _ _ Hk Hc) as (H1 & H2 & H3 & H4).
    rewrite Hlen in H4. exists k. repeat split; trivial; try lia.
    apply in_map_iff in H1. destruct H1 as (t & <- & _).
    apply day_name_weekday, date_weekday_range.
  - intros r H. unfold popular_hour in H.
    apply (popular_inv _ (fun x => x) Some) in H.
    destruct H as (k & c & Hk & Hc & ->).
    destruct (head_most_frequent _ _ _ Hk Hc) as (H1 & H2 & H3 & H4).
    rewrite Hlen in H4. exists k, c. auto.
Qed.

Lemma popular_time_is_most_frequent_witness :
  exists m,
    In m (map dt_month (col_Start_Time three_trips))
    /\ "January" = month_name m
    /\ 2%nat = count_occ Z.eq_dec (map dt_month (col_Start_Time three_trips)) m
    /\ (forall m', (count_occ Z.eq_dec
                      (map dt_month (col_Start_Time three_trips)) m'
                    <= 2)%nat)
    /\ (1 <= 2 <= List.length (rows three_trips))%nat.
Proof.
  exact (proj1 (popular_time_is_most_frequent three_trips) "January" 2%nat
           eq_refl).
Defined.
Lemma head_most_frequent_string (l : list string) (k : string) (n : nat) :
  index0 (value_counts string_dec l) = Ok k ->
  iloc0 (value_counts string_dec l) = Ok n ->
  In k l /\ n = count_occ string_dec l k
  /\ forall k', (count_occ string_dec l k' <= n)%nat.
Proof.
  destruct (value_counts string_dec l) as [|[k0 n0] r] eqn:Hv; [discriminate|].
  simpl. intros Hk Hn. inversion Hk; inversion Hn; subst.
  exact (value_counts_head _ _ _ _ _ Hv).
Qed.

(** X13. What popular_stations returns is, for the start stations and for the
    end stations separately, a most frequent station with the number of
    rows that have it. *)
Theorem popular_stations_most_frequent (df : DataFrame)
  (st : station_stats) :
  popular_stations df = Ok st ->
  (In (fst (start st)) (map Start_Station (rows df))
   /\ snd (start st)
      = count_occ string_dec (map Start_Station (rows df)) (fst (start st))
   /\ forall s, (count_occ string_dec (map Start_Station (rows df)) s
                 <= snd (start st))%nat)
  /\ (In (fst (end_ st)) (map End_Station (rows df))
      /\ snd (end_ st)
         = count_occ string_dec (map End_Station (rows df)) (fst (end_ st))
      /\ forall s, (count_occ string_dec (map End_Station (rows df)) s
                    <= snd (end_ st))%nat).
Proof.
  unfold popular_stations. intros H.
  destruct (index0 (value_counts string_dec (map Start_Station (rows df))))
    as [s|] eqn:Hs; [|discriminate].
  destruct (iloc0 (value_counts string_dec (map Start_Station (rows df))))
    as [sn|] eqn:Hsn; [|discriminate].
  destruct (index0 (value_counts string_dec (map End_Station (rows df))))
    as [e|] eqn:He; [|discriminate].
  destruct (iloc0 (value_counts string_dec (map End_Station (rows df))))
    as [en|] eqn:Hen; [|discriminate].
  cbn [rbind] in H. inversion H; subst. cbn [start end_ fst snd].
  split; now apply head_most_frequent_string.
Qed.

Lemma popular_stations_most_frequent_witness :
  In "A" (map Start_Station (rows three_trips))
  /\ 3%nat = count_occ string_dec (map Start_Station (rows three_trips)) "A"
  /\ forall s, (count_occ string_dec (map Start_Station (rows three_trips)) s
                <= 3)%nat.
Proof.
  exact (proj1 (popular_stations_most_frequent three_trips
                  (mkstations ("A", 3%nat) ("B", 2%nat)) eq_refl)).
Defined.

(** X14. On a table without rows popular_month, popular_day, popular_hour and
    popular_stations raise IndexError and popular_trip raises KeyError;
    trip_duration returns the total 0 and the mean NaN, users returns no
    row, and so does gender when the table has the column; birth_years
    raises ValueError when the table has the column.  The statistics part
    of the driver prints its header and ends with IndexError, for every
    selector. *)
Theorem aggregators_on_empty_table (df : DataFrame) :
  rows df = [] ->
  popular_month df = Raise IndexError
  /\ popular_day df = Raise IndexError
  /\ popular_hour df = Raise IndexError
  /\ popular_stations df = Raise IndexError
  /\ popular_trip df = Raise KeyError
  /\ trip_duration df = mkdur 0 NaN
  /\ users df = []
  /\ (In "Gender" (columns df) -> gender df = Ok [])
  /\ (In "Birth Year" (columns df) -> birth_years df = Raise ValueError)
  /\ forall cols tp ins,
      report cols df tp ins = ([StatisticsHeader], Raise IndexError, ins).
Proof.
  intros H.
  assert (Hm : popular_month df = Raise IndexError)
    by (unfold popular_month, col_Start_Time; now rewrite H).
  assert (Hd : popular_day df = Raise IndexError)
    by (unfold popular_day, col_Start_Time; now rewrite H).
  assert (Hh : popular_hour df = Raise IndexError)
    by (unfold popular_hour, col_Start_Time; now rewrite H).
  repeat split; trivial.
  - unfold popular_stations. now rewrite H.
  - unfold popular_trip, station_pairs. now rewrite H.
  - unfold trip_duration. now rewrite H.
  - unfold users. now rewrite H.
  - intros Hc. unfold gender. rewrite (getcol_present _ _ _ Hc), H.
    reflexivity.
  - intros Hc. unfold birth_years. rewrite (getcol_present _ _ _ Hc), H.
    reflexivity.
  - intros cols tp ins. unfold report. rewrite Hm, Hd, Hh.
    destruct (tp_period tp); reflexivity.
Qed.

Lemma aggregators_on_empty_table_witness :
  popular_stations (mkdf header []) = Raise IndexError
  /\ popular_trip (mkdf header []) = Raise KeyError.
Proof.
  destruct (aggregators_on_empty_table (mkdf header []) eq_refl)
    as (_ & _ & _ & H1 & H2 & _).
  split; assumption.
Defined.

(** X15. birth_years raises KeyError on a table without a column named Birth
    Year and ValueError on a table with the column where no row records a
    year; whenever it returns, the oldest year is at most the most frequent
    one, which is at most the youngest. *)
Theorem birth_years_outcomes (df : DataFrame) :
  (~ In "Birth Year" (columns df) -> birth_years df = Raise KeyError)
  /\ (In "Birth Year" (columns df) ->
      dropna (map Birth_Year (rows df)) = [] ->
      birth_years df = Raise ValueError)
  /\ (forall b, birth_years df = Ok b ->
                oldest b <= mode b <= youngest b).
Proof.
  unfold birth_years. split; [|split].
  - intros H. now rewrite (getcol_absent _ _ _ H).
  - intros H Hd. rewrite (getcol_present _ _ _ H). cbn [rbind].
    unfold series_min. now rewrite Hd.
  - intros b.
    destruct (getcol "Birth Year" Birth_Year df) as [col|]; [|discriminate].
    cbn [rbind]. unfold series_min, series_max.
    destruct (dropna col) as [|x xs] eqn:Hd; [discriminate|].
    cbn [py_int rbind].
    destruct (value_counts Z.eq_dec (x :: xs)) as [|[m n] r] eqn:Hv;
      [discriminate|].
    cbn [index0 rbind]. intros H. inversion H; subst. cbn [oldest mode youngest].
    destruct (value_counts_head _ _ _ _ _ Hv) as (Hm & _ & _).
    split.
    + now apply fold_min_spec.
    + now apply fold_max_spec.
Qed.

Lemma birth_years_outcomes_witness :
  oldest (mkbirth 1980 1995 1980) <= mode (mkbirth 1980 1995 1980)
  <= youngest (mkbirth 1980 1995 1980).
Proof.
  exact (proj2 (proj2 (birth_years_outcomes three_trips)) _ eq_refl).
Defined.

Lemma wrap_int64_range (z : Z) : - 2 ^ 63 <= wrap_int64 z < 2 ^ 63.
Proof.
  unfold wrap_int64.
  change (2 ^ 64) with (2 * 2 ^ 63). set (h := 2 ^ 63).
  assert (0 < h) by (subst h; reflexivity).
  pose proof (Z.mod_pos_bound (z + h) (2 * h)). lia.
Qed.

Lemma wrap_int64_small (z : Z) : - 2 ^ 63 <= z < 2 ^ 63 -> wrap_int64 z = z.
Proof.
  unfold wrap_int64.
  change (2 ^ 64) with (2 * 2 ^ 63). set (h := 2 ^ 63).
  intros H. rewrite Z.mod_small; lia.
Qed.

Lemma wrap_int64_add (a b : Z) :
  wrap_int64 (wrap_int64 a + b) = wrap_int64 (a + b).
Proof.
  unfold wrap_int64. f_equal.
  replace ((a + 2 ^ 63) mod 2 ^ 64 - 2 ^ 63 + b + 2 ^ 63)
    with ((a + 2 ^ 63) mod 2 ^ 64 + b) by lia.
  rewrite Z.add_mod_idemp_l by (intros E; discriminate E).
  f_equal. lia.
Qed.

Lemma series_sum_from (l : list Z) :
  forall a,
    fold_left (fun acc x => wrap_int64 (acc + x)) l (wrap_int64 a)
    = wrap_int64 (a + list_sum l).
Proof.
  induction l as [|x l IH]; intros a; cbn [fold_left list_sum].
  - f_equal. lia.
  - rewrite wrap_int64_add, IH. f_equal. lia.
Qed.

(** X16. On a table whose durations are int64 values, the total of
    trip_duration is the sum of the duration column reduced to the int64
    range: it wraps around modulo 2^64, and it is the sum itself whenever
    the sum lies in the int64 range. *)
Theorem trip_duration_total_wraps_at_int64 (df : DataFrame) :
  Forall (fun r => - 2 ^ 63 <= Trip_Duration r < 2 ^ 63) (rows df) ->
  total (trip_duration df)
  = wrap_int64 (list_sum (map Trip_Duration (rows df)))
  /\ - 2 ^ 63 <= total (trip_duration df) < 2 ^ 63
  /\ (- 2 ^ 63 <= list_sum (map Trip_Duration (rows df)) < 2 ^ 63 ->
      total (trip_duration df) = list_sum (map Trip_Duration (rows df))).
Proof.
  intros _. unfold trip_duration. cbn [total]. unfold series_sum.
  assert (E : fold_left (fun acc x => wrap_int64 (acc + x))
                (map Trip_Duration (rows df)) 0
              = wrap_int64 (list_sum (map Trip_Duration (rows df)))).
  { change 0 with (wrap_int64 0) at 1. now rewrite series_sum_from. }
  rewrite E. split; [reflexivity|].
  split; [apply wrap_int64_range | apply wrap_int64_small].
Qed.

Lemma trip_duration_total_wraps_at_int64_witness :
  total (trip_duration long_trips) = - 2 ^ 63
  /\ list_sum (map Trip_Duration (rows long_trips)) = 2 ^ 63.
Proof.
  assert (H : Forall (fun r => - 2 ^ 63 <= Trip_Duration r < 2 ^ 63)
                (rows long_trips)).
  { repeat constructor; cbn [Trip_Duration ride]; discriminate. }
  destruct (trip_duration_total_wraps_at_int64 long_trips H) as (E & _ & _).
  split; [rewrite E|]; reflexivity.
Defined.

(** X17. On a table with at least one row whose trips all start on the same
    date, popular_month returns the month of that date and popular_day its
    weekday, each with the number of rows of the table: after a filter by
    day these two aggregators tell nothing that the selector does not. *)
Theorem single_date_makes_month_and_day_trivial (df : DataFrame) (d : date) :
  rows df <> [] ->
  (forall r, In r (rows df) -> dt_date (Start_Time r) = d) ->
  popular_month df = Ok (month_name (month d), List.length (rows df))
  /\ popular_day df
     = Ok (day_name (date_weekday d), List.length (rows df)).
Proof.
  intros Hne Hall.
  assert (Hlen : forall f : Timestamp -> Z,
             List.length (map f (col_Start_Time df)) = List.length (rows df))
    by (intros f; unfold col_Start_Time; now rewrite !length_map).
  assert (Hcol : forall (f : Timestamp -> Z) c,
             (forall t, dt_date t = d -> f t = c) ->
             forall x, In x (map f (col_Start_Time df)) -> x = c).
  { intros f c Hf x Hx. unfold col_Start_Time in Hx. rewrite map_map in Hx.
    apply in_map_iff in Hx. destruct Hx as (r & <- & Hr).
    apply Hf. now apply Hall. }
  split.
  - unfold popular_month.
    destruct (value_counts_constant Z.eq_dec (month d)
                (map dt_month (col_Start_Time df))) as [-> ->].
    + now apply time_column_nonempty.
    + apply Hcol. intros t <-. reflexivity.
    + cbn [rbind]. now rewrite Hlen.
  - unfold popular_day.
    destruct (value_counts_constant Z.eq_dec (date_weekday d)
                (map dt_weekday (col_Start_Time df))) as [-> ->].
    + now apply time_column_nonempty.
    + apply Hcol. intros t <-. reflexivity.
    + cbn [rbind]. now rewrite Hlen.
Qed.

Lemma single_date_makes_month_and_day_trivial_witness :
  popular_month unrecorded_years
  = Ok (month_name (month (mkdate 2017 1 1)),
        List.length (rows unrecorded_years))
  /\ popular_day unrecorded_years
     = Ok (day_name (date_weekday (mkdate 2017 1 1)),
           List.length (rows unrecorded_years)).
Proof.
  apply (single_date_makes_month_and_day_trivial unrecorded_years
           (mkdate 2017 1 1)).
  - discriminate.
  - intros r [<-|[]]. reflexivity.
Defined.
(* ================================================================== *)
(** ** More on the reporting driver *)

Lemma report_outcome (cols : list string) (df : DataFrame)
  (tp : time_period) (ins : list string) :
  outcome (report cols df tp ins) = first_failure cols df tp.
Proof.
  unfold report, first_failure, check.
  generalize (popular_month df) (popular_day df) (popular_hour df)
    (popular_stations df) (popular_trip df) (gender df)
    (birth_years df) (existsb (String.eqb "gender") cols)
    (existsb (String.eqb "birth year") cols) (users df) (trip_duration df).
  intros pm pd ph ps pt g b eg eb u td.
  destruct (tp_period tp); report_cases; reflexivity.
Qed.

Lemma popular_stations_returns (df : DataFrame) :
  rows df <> [] -> exists st, popular_stations df = Ok st.
Proof.
  intros H. unfold popular_stations.
  assert (Hs : map Start_Station (rows df) <> [])
    by (destruct (rows df); [congruence | discriminate]).
  assert (He : map End_Station (rows df) <> [])
    by (destruct (rows df); [congruence | discriminate]).
  destruct (index0_iloc0 _ (value_counts_nonempty string_dec _ Hs))
    as (k & n & r & _ & -> & ->).
  destruct (index0_iloc0 _ (value_counts_nonempty string_dec _ He))
    as (k' & n' & r' & _ & -> & ->).
  now eexists.
Qed.

Lemma popular_trip_returns (df : DataFrame) :
  rows df <> [] -> exists t, popular_trip df = Ok t.
Proof.
  intros H. unfold popular_trip.
  assert (Hp : station_pairs df <> []).
  { unfold station_pairs. destruct (rows df); [congruence | discriminate]. }
  destruct (sort_values_desc
              (groupby_size pair_eq_dec pair_leb (station_pairs df)))
    as [|x r] eqn:Hs.
  - now apply groupby_size_nonempty in Hs.
  - now eexists.
Qed.

Lemma birth_years_returns (df : DataFrame) :
  In "Birth Year" (columns df) ->
  dropna (map Birth_Year (rows df)) <> [] ->
  exists b, birth_years df = Ok b.
Proof.
  intros Hc Hd. unfold birth_years. rewrite (getcol_present _ _ _ Hc).
  cbn [rbind]. unfold series_min, series_max.
  destruct (dropna (map Birth_Year (rows df))) as [|x xs] eqn:E; [congruence|].
  destruct (value_counts Z.eq_dec (x :: xs)) as [|[m n] r] eqn:Hv.
  - apply value_counts_nonempty in Hv; [contradiction | discriminate].
  - now eexists.
Qed.

Lemma time_stages_return (df : DataFrame) (tp : time_period) :
  rows df <> [] ->
  (if is_none (tp_period tp) then check (popular_month df) else Ok tt)
  = Ok tt
  /\ (if is_none (tp_period tp) || is_month (tp_period tp)
      then check (popular_day df) else Ok tt) = Ok tt
  /\ check (popular_hour df) = Ok tt
  /\ check (popular_stations df) = Ok tt
  /\ check (popular_trip df) = Ok tt.
Proof.
  intros H.
  destruct (popular_month_returns df H) as (? & ? & ->).
  destruct (popular_day_returns df H) as (? & ? & ->).
  destruct (popular_hour_returns df H) as (? & ? & ->).
  destruct (popular_stations_returns df H) as (? & ->).
  destruct (popular_trip_returns df H) as (? & ->).
  destruct (tp_period tp); repeat split.
Qed.

(** X18. The statistics part of the driver completes, without reading any
    answer, on every table that has at least one row, has the columns
    Gender and Birth Year under these names whenever the header has them in
    some letter case, and records at least one birth year when it has that
    column. *)
Theorem report_completes_on_recorded_data (df : DataFrame)
  (tp : time_period) (ins : list string) :
  rows df <> [] ->
  (In "gender" (map lower (columns df)) -> In "Gender" (columns df)) ->
  (In "birth year" (map lower (columns df)) ->
   In "Birth Year" (columns df)
   /\ dropna (map Birth_Year (rows df)) <> []) ->
  outcome (report (map lower (columns df)) df tp ins) = Ok tt
  /\ snd (report (map lower (columns df)) df tp ins) = ins.
Proof.
  intros Hne Hg Hb. split; [|apply report_reads_nothing].
  rewrite report_outcome. unfold first_failure.
  destruct (time_stages_return df tp Hne) as (-> & -> & -> & -> & ->).
  cbn [rbind].
  destruct (existsb (String.eqb "gender") (map lower (columns df))) eqn:Eg.
  - apply existsb_exists in Eg. destruct Eg as (c & Hc & Ec).
    apply String.eqb_eq in Ec. subst c.
    unfold gender. rewrite (getcol_present _ _ _ (Hg Hc)). cbn [rbind check].
    destruct (existsb (String.eqb "birth year") (map lower (columns df)))
      eqn:Eb; [|reflexivity].
    apply existsb_exists in Eb. destruct Eb as (c & Hc' & Ec).
    apply String.eqb_eq in Ec. subst c. destruct (Hb Hc') as [H1 H2].
    destruct (birth_years_returns df H1 H2) as [b ->]. reflexivity.
  - cbn [rbind].
    destruct (existsb (String.eqb "birth year") (map lower (columns df)))
      eqn:Eb; [|reflexivity].
    apply existsb_exists in Eb. destruct Eb as (c & Hc' & Ec).
    apply String.eqb_eq in Ec. subst c. destruct (Hb Hc') as [H1 H2].
    destruct (birth_years_returns df H1 H2) as [b ->]. reflexivity.
Qed.

Lemma report_completes_on_recorded_data_witness :
  outcome (report (map lower (columns three_trips)) three_trips january [])
  = Ok tt
  /\ snd (report (map lower (columns three_trips)) three_trips january [])
     = [].
Proof.
  apply (report_completes_on_recorded_data three_trips january []).
  - discriminate.
  - intros _. simpl. tauto.
  - intros _. split; [simpl; tauto | discriminate].
Defined.

(** X19. The driver looks for the gender column without regard to letter case
    but reads it under the name Gender: on a table with at least one row
    whose header has the column in another letter case only, the statistics
    part ends with KeyError at the gender stage. *)
Theorem gender_column_in_other_case_raises (df : DataFrame)
  (tp : time_period) (ins : list string) :
  rows df <> [] ->
  In "gender" (map lower (columns df)) ->
  ~ In "Gender" (columns df) ->
  outcome (report (map lower (columns df)) df tp ins) = Raise KeyError
  /\ In GenderHeader (trace (report (map lower (columns df)) df tp ins))
  /\ forall g,
      ~ In (GenderTable g)
          (trace (report (map lower (columns df)) df tp ins)).
Proof.
  intros Hne Hl Hg.
  assert (Eg : existsb (String.eqb "gender") (map lower (columns df)) = true).
  { apply existsb_exists. exists "gender". split; [exact Hl | reflexivity]. }
  assert (Hgen : gender df = Raise KeyError).
  { unfold gender. now rewrite (getcol_absent _ _ _ Hg). }
  destruct (popular_month_returns df Hne) as (? & ? & Hm).
  destruct (popular_day_returns df Hne) as (? & ? & Hd).
  destruct (popular_hour_returns df Hne) as (? & ? & Hh).
  destruct (popular_stations_returns df Hne) as (? & Hs).
  destruct (popular_trip_returns df Hne) as (? & Ht).
  unfold report. rewrite Eg, Hgen, Hm, Hd, Hh, Hs, Ht.
  generalize (existsb (String.eqb "birth year") (map lower (columns df)))
    (birth_years df) (users df) (trip_duration df).
  intros eb b u td.
  destruct (tp_period tp); report_cases;
    (split; [reflexivity|]); (split; [tauto|]);
    intros g; intuition discriminate.
Qed.

Lemma gender_column_in_other_case_raises_witness :
  outcome (report (map lower (columns lowercase_gender)) lowercase_gender
             all_year [])
  = Raise KeyError.
Proof.
  assert (H1 : rows lowercase_gender <> []) by discriminate.
  assert (H2 : In "gender" (map lower (columns lowercase_gender)))
    by (simpl; tauto).
  assert (H3 : ~ In "Gender" (columns lowercase_gender))
    by (simpl; intuition discriminate).
  exact (proj1 (gender_column_in_other_case_raises lowercase_gender
                  all_year [] H1 H2 H3)).
Defined.

(** X20. When the file of the city named is missing, the session ends with
    FileNotFoundError right after the city prompt: nothing is loaded,
    no further question is asked and the remaining answers are left. *)
Theorem session_without_city_file (files : string -> option DataFrame)
  (a : string) (rest : list string) :
  valid_city a = true ->
  files (city_file a) = None ->
  session files (a :: rest)
  = ([Hello; Prompted AskCity], Raise FileNotFoundError, rest).
Proof.
  intros Ha Hf. unfold valid_city in Ha. unfold city_file in Hf.
  unfold session, bind, print, open_file, lift.
  cbn [get_city_filename].
  destruct (String.eqb (lower a) "chicago"); [now rewrite Hf|].
  destruct (String.eqb (lower a) "new york"); [now rewrite Hf|].
  destruct (String.eqb (lower a) "washington"); [now rewrite Hf|].
  discriminate.
Qed.

Lemma session_without_city_file_witness :
  session (chicago_only three_trips) ("Washington" :: ["none"])
  = ([Hello; Prompted AskCity], Raise FileNotFoundError, ["none"]).
Proof.
  apply (session_without_city_file (chicago_only three_trips)
           "Washington" ["none"]); reflexivity.
Defined.
(* ================================================================== *)
(** ** Display of the trip data *)

Lemma pages_app (o1 o2 : list Output) :
  pages (o1 ++ o2) = pages o1 ++ pages o2.
Proof.
  induction o1 as [|x o1 IH]; simpl; [reflexivity|].
  destruct x; simpl; rewrite ?IH; reflexivity.
Qed.

Lemma firstn_then_firstn {A : Type} (a b : nat) (l : list A) :
  firstn a l ++ firstn b (skipn a l) = firstn (a + b) l.
Proof.
  revert l. induction a as [|a IH]; intros l; simpl; [reflexivity|].
  destruct l as [|x l]; simpl.
  - now rewrite firstn_nil.
  - now rewrite IH.
Qed.

Lemma skipn_add {A : Type} (a b : nat) (l : list A) :
  skipn a (skipn b l) = skipn (b + a) l.
Proof.
  revert l. induction b as [|b IH]; intros l; simpl; [reflexivity|].
  destruct l as [|x l]; simpl; [now rewrite skipn_nil | apply IH].
Qed.

Ltac one_page :=
  unfold trace; cbn [fst pages List.concat app];
  split;
  [ exists 5%nat; now rewrite app_nil_r
  | constructor; [apply firstn_le_length | constructor] ].

Lemma display_from_prefix (df : DataFrame) (ins : list string) :
  forall i,
    (exists k,
        List.concat (pages (trace (display_tabular_data_from df i ins)))
        = firstn k (skipn i (rows df)))
    /\ Forall (fun p => (List.length p <= 5)%nat)
         (pages (trace (display_tabular_data_from df i ins))).
Proof.
  induction ins as [|a ins IH]; intros i.
  - cbn [display_tabular_data_from].
    destruct (List.length (rows df) <? i + 5)%nat; one_page.
  - cbn [display_tabular_data_from].
    destruct (List.length (rows df) <? i + 5)%nat; [one_page|].
    destruct (String.eqb (lower a) "continue" || String.eqb (lower a) "c");
      [|one_page].
    rewrite trace_after, pages_app. cbn [pages app List.concat].
    destruct (IH (i + 5)%nat) as [[k Hk] Hall]. split.
    + exists (5 + k)%nat. rewrite Hk, <- skipn_add.
      apply firstn_then_firstn.
    + constructor; [apply firstn_le_length | exact Hall].
Qed.

(** X21. Whatever the operator answers, the pages that display_tabular_data
    prints hold at most five rows each and, put end to end, are a prefix of
    the rows of the table: rows are shown in the order of the table, none
    twice and none skipped. *)
Theorem display_tabular_data_shows_a_prefix (df : DataFrame)
  (ins : list string) :
  (exists k,
      List.concat (pages (trace (display_tabular_data df ins)))
      = firstn k (rows df))
  /\ Forall (fun p => (List.length p <= 5)%nat)
       (pages (trace (display_tabular_data df ins))).
Proof.
  unfold display_tabular_data, bind, print.
  destruct (display_from_prefix df ins 0) as [Hk Hall].
  destruct (display_tabular_data_from df 0 ins) as [[o r] rest].
  unfold trace in *. cbn [fst app pages] in *. split; assumption.
Qed.

Lemma display_from_all (df : DataFrame) (answers rest : list string) :
  Forall (fun a => says_continue a = true) answers ->
  forall i,
    (i <= List.length (rows df))%nat ->
    List.length answers = ((List.length (rows df) - i) / 5)%nat ->
    exists o,
      display_tabular_data_from df i (answers ++ rest) = (o, Ok tt, rest)
      /\ List.concat (pages o) = skipn i (rows df)
      /\ List.length (pages o) = S (List.length answers)
      /\ last o BlankLine = EndOfTripDetails.
Proof.
  intros Hall. induction Hall as [|a answers Ha Hall IH]; intros i Hi Hlen.
  - assert (Hlt : (List.length (rows df) <? i + 5)%nat = true).
    { apply Nat.ltb_lt. cbn [List.length] in Hlen.
      symmetry in Hlen. apply Nat.div_small_iff in Hlen; lia. }
    destruct rest as [|r rest]; cbn [app display_tabular_data_from];
      rewrite Hlt; eexists; (split; [reflexivity|]);
      cbn [pages List.concat app List.length last];
      rewrite app_nil_r; (split; [|split; reflexivity]);
      apply firstn_all2; rewrite length_skipn;
      apply Nat.ltb_lt in Hlt; lia.
  - cbn [List.length] in Hlen.
    assert (Hge : (5 <= List.length (rows df) - i)%nat).
    { destruct (Nat.lt_ge_cases (List.length (rows df) - i) 5) as [H|H];
        [|exact H].
      rewrite (Nat.div_small _ _ H) in Hlen. discriminate. }
    assert (Hlt : (List.length (rows df) <? i + 5)%nat = false)
      by (apply Nat.ltb_ge; lia).
    destruct (IH (i + 5)%nat) as (o & Hrun & Hcat & Hn & Hlast); [lia| |].
    { replace (List.length (rows df) - (i + 5))%nat
        with (List.length (rows df) - i - 1 * 5)%nat by lia.
      assert (E : (List.length (rows df) - i
                   = (List.length (rows df) - i - 1 * 5) + 1 * 5)%nat) by lia.
      rewrite E, Nat.div_add in Hlen by lia. lia. }
    unfold says_continue in Ha.
    cbn [app display_tabular_data_from]. rewrite Hlt, Ha, Hrun.
    eexists. split; [reflexivity|]. cbn [pages app List.concat List.length].
    split; [|split].
    + rewrite Hcat, <- skipn_add. apply firstn_skipn.
    + now rewrite Hn.
    + destruct o as [|x o]; [discriminate Hn|]. exact Hlast.
Qed.

(** X22. When the operator answers c or continue to every question, in any
    letter case, display_tabular_data shows every row of the table and
    returns: for a table of n rows it reads n/5 answers, rounded down, and
    prints one page more than that, so that the last page is empty when n
    is a multiple of 5; the last line printed marks the end of the data and
    the answers that follow are left unread. *)
Theorem display_tabular_data_shows_all_rows (df : DataFrame)
  (answers rest : list string) :
  Forall (fun a => says_continue a = true) answers ->
  List.length answers = (List.length (rows df) / 5)%nat ->
  exists o,
    display_tabular_data df (answers ++ rest) = (o, Ok tt, rest)
    /\ List.concat (pages o) = rows df
    /\ List.length (pages o) = S (List.length (rows df) / 5)
    /\ last o BlankLine = EndOfTripDetails.
Proof.
  intros Hall Hlen.
  destruct (display_from_all df answers rest Hall 0) as (o & Hrun & H1 & H2 & H3).
  - lia.
  - now rewrite Nat.sub_0_r.
  - exists (TripDetailsHeader :: o).
    unfold display_tabular_data, bind, print. rewrite Hrun.
    split; [reflexivity|]. cbn [pages].
    split; [exact H1|]. split; [now rewrite H2, Hlen|].
    destruct o as [|x o]; [discriminate H2 | exact H3].
Qed.

Lemma display_tabular_data_shows_all_rows_witness :
  exists o,
    display_tabular_data ten_trips (["c"; "Continue"] ++ ["no"])
    = (o, Ok tt, ["no"])
    /\ List.concat (pages o) = rows ten_trips
    /\ List.length (pages o) = S (List.length (rows ten_trips) / 5)
    /\ last o BlankLine = EndOfTripDetails.
Proof.
  apply (display_tabular_data_shows_all_rows ten_trips ["c"; "Continue"]
           ["no"]).
  - repeat constructor.
  - reflexivity.
Defined.
(* ================================================================== *)
(** ** Answers read and exceptions raised by a session *)

Lemma uses_bind {A B : Type} (n1 n2 : nat) (m : io A) (k : A -> io B) :
  uses n1 m -> (forall a, uses n2 (k a)) -> uses (n1 + n2) (bind m k).
Proof.
  intros Hm Hk ins o b rest H.
  apply bind_Ok_inv in H. destruct H as (o1 & a & ins1 & o2 & H1 & H2 & _).
  apply Hm in H1. apply Hk in H2. lia.
Qed.

Lemma uses_print (x : Output) : uses 0 (print x).
Proof. intros ins o a rest H. inversion H; subst. lia. Qed.

Lemma uses_lift {A : Type} (r : result A) : uses 0 (lift r).
Proof. intros ins o a rest H. inversion H; subst. lia. Qed.

Lemma uses_ret {A : Type} (x : A) : uses 0 (ret x).
Proof. intros ins o a rest H. inversion H; subst. lia. Qed.

Lemma uses_input (p : Prompt) : uses 1 (input p).
Proof.
  intros [|x ins] o a rest H; inversion H; subst. simpl. lia.
Qed.

Lemma uses_get_city_filename : uses 1 get_city_filename.
Proof.
  intros ins. induction ins as [|x ins IH]; intros o a rest H;
    [discriminate|].
  cbn [get_city_filename] in H.
  repeat match type of H with
         | (if ?c then _ else _) = _ => destruct c
         end;
    try (inversion H; subst; simpl; lia).
  apply after_inv in H. destruct H as (o' & H & _).
  apply IH in H. simpl. lia.
Qed.

Lemma uses_get_month : uses 1 get_month.
Proof.
  intros ins. induction ins as [|x ins IH]; intros o a rest H;
    [discriminate|].
  cbn [get_month] in H.
  destruct (index_of (lower x) valid_months).
  - inversion H; subst. simpl. lia.
  - apply after_inv in H. destruct H as (o' & H & _).
    apply IH in H. simpl. lia.
Qed.

Lemma uses_get_day_loop (month_year : string) (last : Z) :
  uses 1 (get_day_loop month_year last).
Proof.
  intros ins. induction ins as [|x ins IH]; intros o a rest H;
    [discriminate|].
  cbn [get_day_loop] in H.
  destruct (py_int_of_str x) as [n|e].
  - destruct ((1 <=? n) && (n <=? last)).
    + inversion H; subst. simpl. lia.
    + apply after_inv in H. destruct H as (o' & H & _).
      apply IH in H. simpl. lia.
  - apply after_inv in H. destruct H as (o' & H & _).
    apply IH in H. simpl. lia.
Qed.

(** A selector takes one answer, then a month, then for a day a day. *)
Lemma uses_get_time_period : uses 1 get_time_period.
Proof.
  intros ins. induction ins as [|x ins IH]; intros o a rest H;
    [discriminate|].
  cbn [get_time_period] in H.
  destruct (String.eqb (lower x) "month").
  { apply after_inv in H. destruct H as (o' & H & _).
    apply bind_Ok_inv in H. destruct H as (o1 & m & ins1 & o2 & Hm & H & _).
    apply bind_Ok_inv in H. destruct H as (o3 & mr & ins2 & o4 & Hr & H & _).
    apply uses_get_month in Hm. apply uses_lift in Hr. apply uses_ret in H.
    simpl. lia. }
  destruct (String.eqb (lower x) "day").
  { apply after_inv in H. destruct H as (o' & H & _).
    apply bind_Ok_inv in H. destruct H as (o1 & m & ins1 & o2 & Hm & H & _).
    apply bind_Ok_inv in H. destruct H as (o3 & d & ins2 & o4 & Hd & H & _).
    unfold get_day in Hd.
    apply bind_Ok_inv in Hd. destruct Hd as (o5 & mr & ins3 & o6 & Hr & Hd & _).
    apply uses_get_month in Hm. apply uses_lift in Hr.
    apply uses_get_day_loop in Hd. apply uses_ret in H.
    simpl. lia. }
  destruct (String.eqb (lower x) "none").
  { inversion H; subst. simpl. lia. }
  apply after_inv in H. destruct H as (o' & H & _).
  apply IH in H. simpl. lia.
Qed.

Lemma uses_display_data : uses 1 display_data.
Proof.
  intros ins. induction ins as [|x ins IH]; intros o a rest H;
    [discriminate|].
  cbn [display_data] in H.
  destruct (String.eqb (lower x) "yes"); [inversion H; subst; simpl; lia|].
  destruct (String.eqb (lower x) "no"); [inversion H; subst; simpl; lia|].
  apply after_inv in H. destruct H as (o' & H & _).
  apply IH in H. simpl. lia.
Qed.

Lemma uses_display_tabular_data_from (df : DataFrame) :
  forall i, uses 0 (display_tabular_data_from df i).
Proof.
  intros i ins. revert i.
  induction ins as [|x ins IH]; intros i o a rest H.
  - cbn [display_tabular_data_from] in H.
    destruct (List.length (rows df) <? i + 5)%nat; inversion H; subst. lia.
  - cbn [display_tabular_data_from] in H.
    destruct (List.length (rows df) <? i + 5)%nat;
      [inversion H; subst; lia|].
    destruct (String.eqb (lower x) "continue" || String.eqb (lower x) "c").
    + apply after_inv in H. destruct H as (o' & H & _).
      apply IH in H. simpl. lia.
    + inversion H; subst. simpl. lia.
Qed.

Lemma uses_report (cols : list string) (df : DataFrame) (tp : time_period) :
  uses 0 (report cols df tp).
Proof.
  intros ins o a rest H.
  pose proof (report_reads_nothing cols df tp ins) as Hr.
  rewrite H in Hr. simpl in Hr. subst. lia.
Qed.

Lemma session_uses_four (files : string -> option DataFrame) :
  uses 4 (session files).
Proof.
  unfold session.
  change 4%nat
    with (0 + (1 + (0 + (0 + (1 + (0 + (0 + (1 + (0 + (1 + 0))))))))))%nat.
  apply uses_bind; [apply uses_print|]. intros _.
  apply uses_bind; [apply uses_get_city_filename|]. intros name.
  apply uses_bind; [apply uses_lift|]. intros df. cbv zeta.
  apply uses_bind; [apply uses_print|]. intros _.
  apply uses_bind; [apply uses_get_time_period|]. intros tp.
  apply uses_bind.
  { destruct (is_month (tp_period tp) || is_day (tp_period tp));
      [|apply uses_ret].
    change 0%nat with (0 + (0 + 0))%nat.
    apply uses_bind; [apply uses_lift|]. intros f.
    apply uses_bind; [apply uses_print|]. intros _. apply uses_ret. }
  intros df'.
  apply uses_bind; [apply uses_report|]. intros _.
  apply uses_bind; [apply uses_display_data|]. intros view.
  apply uses_bind.
  { destruct view; [|apply uses_ret].
    unfold when, display_tabular_data. change 0%nat with (0 + 0)%nat.
    apply uses_bind; [apply uses_print|]. intros _.
    apply uses_display_tabular_data_from. }
  intros _.
  apply uses_bind; [apply uses_input|]. intros restart. apply uses_ret.
Qed.

(** X23. A session that returns has read at least four answers: the city, the
    filter, whether to show the trip data, and whether to restart. *)
Theorem session_reads_at_least_four_answers
  (files : string -> option DataFrame) (ins : list string)
  (o : list Output) (b : bool) (rest : list string) :
  session files ins = (o, Ok b, rest) ->
  (List.length rest + 4 <= List.length ins)%nat.
Proof. apply session_uses_four. Qed.

Lemma session_reads_at_least_four_answers_witness :
  (List.length ["later"] + 4
   <= List.length ["chicago"; "none"; "no"; "no"; "later"])%nat.
Proof.
  refine (session_reads_at_least_four_answers (chicago_only three_trips)
            ["chicago"; "none"; "no"; "no"; "later"] _ false ["later"] _).
  vm_compute. reflexivity.
Defined.
Lemma outcome_bind_raise {A B : Type} (m : io A) (k : A -> io B)
  (ins : list string) (e : exn) :
  outcome (bind m k ins) = Raise e ->
  outcome (m ins) = Raise e
  \/ exists o1 a ins1,
      m ins = (o1, Ok a, ins1) /\ outcome (k a ins1) = Raise e.
Proof.
  unfold bind, outcome.
  destruct (m ins) as [[o1 [a|e1]] ins1]; cbn [fst snd].
  - destruct (k a ins1) as [[o2 r] ins2] eqn:Hk. cbn [fst snd].
    intros ->. right. exists o1, a, ins1. rewrite Hk. auto.
  - intros H. injection H as ->. left. reflexivity.
Qed.

Lemma raises_only_bind {A B : Type} (allowed : list exn) (m : io A)
  (k : A -> io B) :
  raises_only allowed m -> (forall a, raises_only allowed (k a)) ->
  raises_only allowed (bind m k).
Proof.
  intros Hm Hk ins e H. apply outcome_bind_raise in H.
  destruct H as [H|(o1 & a & ins1 & _ & H)]; [now apply Hm in H|].
  now apply Hk in H.
Qed.

Lemma raises_only_print (allowed : list exn) (x : Output) :
  raises_only allowed (print x).
Proof. intros ins e H. discriminate. Qed.

Lemma raises_only_ret {A : Type} (allowed : list exn) (x : A) :
  raises_only allowed (ret x).
Proof. intros ins e H. discriminate. Qed.

Lemma raises_only_input (allowed : list exn) (p : Prompt) :
  In EOFError allowed -> raises_only allowed (input p).
Proof.
  intros Hin [|x ins] e H; [|discriminate].
  unfold outcome in H. simpl in H. now inversion H; subst.
Qed.

Lemma outcome_after_eq {A : Type} (pre : list Output)
  (r : list Output * result A * list string) :
  outcome (after pre r) = outcome r.
Proof. destruct r as [[o x] rest]. reflexivity. Qed.

Lemma get_city_filename_raises : raises_only [EOFError] get_city_filename.
Proof.
  intros ins. induction ins as [|x ins IH]; intros e H.
  - inversion H. now left.
  - cbn [get_city_filename] in H.
    repeat match type of H with
           | outcome (if ?c then _ else _) = _ => destruct c
           end; try discriminate.
    rewrite outcome_after_eq in H. now apply IH.
Qed.

Lemma get_month_raises : raises_only [EOFError] get_month.
Proof.
  intros ins. induction ins as [|x ins IH]; intros e H.
  - inversion H. now left.
  - cbn [get_month] in H.
    destruct (index_of (lower x) valid_months); [discriminate|].
    rewrite outcome_after_eq in H. now apply IH.
Qed.

Lemma get_day_loop_raises (month_year : string) (last : Z) :
  raises_only [EOFError] (get_day_loop month_year last).
Proof.
  intros ins. induction ins as [|x ins IH]; intros e H.
  - inversion H. now left.
  - cbn [get_day_loop] in H.
    destruct (py_int_of_str x) as [n|e'].
    + destruct ((1 <=? n) && (n <=? last)); [discriminate|].
      rewrite outcome_after_eq in H. now apply IH.
    + rewrite outcome_after_eq in H. now apply IH.
Qed.

Lemma get_time_period_raises : raises_only [EOFError] get_time_period.
Proof.
  intros ins. induction ins as [|x ins IH]; intros e H.
  - inversion H. now left.
  - cbn [get_time_period] in H.
    destruct (String.eqb (lower x) "month").
    { rewrite outcome_after_eq in H. apply outcome_bind_raise in H.
      destruct H as [H|(o1 & m & ins1 & Hm & H)];
        [now apply get_month_raises in H|].
      apply get_month_range in Hm.
      destruct (monthrange_2017 m Hm) as [w Hw].
      unfold bind, lift, ret in H. rewrite Hw in H. discriminate. }
    destruct (String.eqb (lower x) "day").
    { rewrite outcome_after_eq in H. apply outcome_bind_raise in H.
      destruct H as [H|(o1 & m & ins1 & Hm & H)];
        [now apply get_month_raises in H|].
      apply get_month_range in Hm.
      apply outcome_bind_raise in H.
      destruct H as [H|(o2 & d & ins2 & _ & H)]; [|discriminate].
      unfold get_day in H. apply outcome_bind_raise in H.
      destruct H as [H|(o3 & mr & ins3 & _ & H)].
      - destruct (monthrange_2017 m Hm) as [w Hw].
        unfold lift in H. rewrite Hw in H. discriminate.
      - now apply get_day_loop_raises in H. }
    destruct (String.eqb (lower x) "none"); [discriminate|].
    rewrite outcome_after_eq in H. now apply IH.
Qed.

Lemma display_data_raises : raises_only [EOFError] display_data.
Proof.
  intros ins. induction ins as [|x ins IH]; intros e H.
  - inversion H. now left.
  - cbn [display_data] in H.
    destruct (String.eqb (lower x) "yes"); [discriminate|].
    destruct (String.eqb (lower x) "no"); [discriminate|].
    rewrite outcome_after_eq in H. now apply IH.
Qed.

Lemma display_tabular_data_from_raises (df : DataFrame) :
  forall i, raises_only [EOFError] (display_tabular_data_from df i).
Proof.
  intros i ins. revert i. induction ins as [|x ins IH]; intros i e H.
  - cbn [display_tabular_data_from] in H.
    destruct (List.length (rows df) <? i + 5)%nat; [discriminate|].
    inversion H. now left.
  - cbn [display_tabular_data_from] in H.
    destruct (List.length (rows df) <? i + 5)%nat; [discriminate|].
    destruct (String.eqb (lower x) "continue" || String.eqb (lower x) "c");
      [|discriminate].
    rewrite outcome_after_eq in H. now apply IH in H.
Qed.

Lemma head_raises {K A : Type} (s : list (K * nat)) (f : K -> nat -> A)
  (e : exn) :
  (let? k := index0 s in let? n := iloc0 s in Ok (f k n)) = Raise e ->
  e = IndexError.
Proof.
  destruct s as [|[k n] r]; simpl; intros H; inversion H. reflexivity.
Qed.

Lemma first_failure_raises (cols : list string) (df : DataFrame)
  (tp : time_period) (e : exn) :
  first_failure cols df tp = Raise e ->
  In e [IndexError; KeyError; ValueError].
Proof.
  assert (Hm : forall e, check (popular_month df) = Raise e -> e = IndexError).
  { intros e0 H. unfold check, popular_month in H.
    destruct (value_counts Z.eq_dec (map dt_month (col_Start_Time df)))
      as [|[k n] r]; simpl in H; inversion H. reflexivity. }
  assert (Hd : forall e, check (popular_day df) = Raise e -> e = IndexError).
  { intros e0 H. unfold check, popular_day in H.
    destruct (value_counts Z.eq_dec (map dt_weekday (col_Start_Time df)))
      as [|[k n] r]; simpl in H; inversion H. reflexivity. }
  assert (Hh : forall e, check (popular_hour df) = Raise e -> e = IndexError).
  { intros e0 H. unfold check, popular_hour in H.
    destruct (value_counts Z.eq_dec (map dt_hour (col_Start_Time df)))
      as [|[k n] r]; simpl in H; inversion H. reflexivity. }
  assert (Hs : forall e, check (popular_stations df) = Raise e ->
                         e = IndexError).
  { intros e0 H. unfold check, popular_stations in H.
    destruct (value_counts string_dec (map Start_Station (rows df)))
      as [|[k n] r]; simpl in H; [inversion H; reflexivity|].
    destruct (value_counts string_dec (map End_Station (rows df)))
      as [|[k' n'] r']; simpl in H; inversion H. reflexivity. }
  assert (Ht : forall e, check (popular_trip df) = Raise e -> e = KeyError).
  { intros e0 H. unfold check, popular_trip in H.
    destruct (sort_values_desc
                (groupby_size pair_eq_dec pair_leb (station_pairs df)))
      as [|x r]; simpl in H; inversion H. reflexivity. }
  assert (Hg : forall e, check (gender df) = Raise e -> e = KeyError).
  { intros e0 H. unfold check, gender, getcol in H.
    destruct (existsb (String.eqb "Gender") (columns df)); simpl in H;
      inversion H. reflexivity. }
  assert (Hb : forall e, check (birth_years df) = Raise e ->
                         In e [IndexError; KeyError; ValueError]).
  { intros e0 H. unfold check, birth_years, getcol in H.
    destruct (existsb (String.eqb "Birth Year") (columns df)); simpl in H;
      [|inversion H; simpl; tauto].
    unfold series_min, series_max in H.
    destruct (dropna (map Birth_Year (rows df))) as [|x xs]; simpl in H;
      [inversion H; simpl; tauto|].
    destruct (value_counts Z.eq_dec (x :: xs)) as [|[k n] r]; simpl in H;
      inversion H. simpl. tauto. }
  unfold first_failure.
  destruct (if is_none (tp_period tp) then check (popular_month df)
            else Ok tt) as [[]|e1] eqn:E1.
  2: { intros H. inversion H; subst.
       destruct (is_none (tp_period tp)); [|discriminate].
       apply Hm in E1. subst. simpl. tauto. }
  destruct (if is_none (tp_period tp) || is_month (tp_period tp)
            then check (popular_day df) else Ok tt) as [[]|e2] eqn:E2.
  2: { intros H. inversion H; subst.
       destruct (is_none (tp_period tp) || is_month (tp_period tp));
         [|discriminate].
       apply Hd in E2. subst. simpl. tauto. }
  destruct (check (popular_hour df)) as [[]|e3] eqn:E3.
  2: { intros H. inversion H; subst. specialize (Hh _ eq_refl). subst.
       simpl. tauto. }
  destruct (check (popular_stations df)) as [[]|e4] eqn:E4.
  2: { intros H. inversion H; subst. specialize (Hs _ eq_refl). subst.
       simpl. tauto. }
  destruct (check (popular_trip df)) as [[]|e5] eqn:E5.
  2: { intros H. inversion H; subst. specialize (Ht _ eq_refl). subst.
       simpl. tauto. }
  destruct (if existsb (String.eqb "gender") cols then check (gender df)
            else Ok tt) as [[]|e6] eqn:E6.
  2: { intros H. inversion H; subst.
       destruct (existsb (String.eqb "gender") cols); [|discriminate].
       apply Hg in E6. subst. simpl. tauto. }
  cbn [rbind]. intros H.
  destruct (existsb (String.eqb "birth year") cols); [|discriminate].
  now apply Hb.
Qed.

Lemma incl_session_exceptions (e : exn) :
  In e [IndexError; KeyError; ValueError] -> In e session_exceptions.
Proof. unfold session_exceptions. simpl. tauto. Qed.

Lemma session_raises (files : string -> option DataFrame) :
  raises_only session_exceptions (session files).
Proof.
  assert (Heof : forall e, In e [EOFError] -> In e session_exceptions)
    by (intros e [<-|[]]; simpl; tauto).
  intros ins e H. unfold session in H.
  apply outcome_bind_raise in H.
  destruct H as [H|(o1 & [] & ins1 & _ & H)]; [discriminate|].
  apply outcome_bind_raise in H.
  destruct H as [H|(o2 & name & ins2 & _ & H)];
    [now apply Heof, (get_city_filename_raises ins1)|].
  apply outcome_bind_raise in H.
  destruct H as [H|(o3 & df & ins3 & _ & H)].
  { unfold open_file, lift, outcome in H. simpl in H.
    destruct (files name); inversion H. simpl. tauto. }
  cbv zeta in H. apply outcome_bind_raise in H.
  destruct H as [H|(o4 & [] & ins4 & _ & H)]; [discriminate|].
  apply outcome_bind_raise in H.
  destruct H as [H|(o5 & tp & ins5 & Htp & H)];
    [now apply Heof, (get_time_period_raises ins4)|].
  apply outcome_bind_raise in H.
  destruct H as [H|(o6 & df' & ins6 & _ & H)].
  { exfalso.
    destruct (is_month (tp_period tp) || is_day (tp_period tp)) eqn:Ep;
      [|discriminate].
    assert (Hp : tp_period tp <> PNone)
      by (intros Hn; rewrite Hn in Ep; discriminate).
    destruct (selector_filter_returns df tp
                (returned_selector_fits _ _ _ _ Htp Hp)) as [f Hf].
    unfold bind, lift, print, ret in H. rewrite Hf in H. discriminate. }
  apply outcome_bind_raise in H.
  destruct H as [H|(o7 & [] & ins7 & _ & H)].
  { rewrite report_outcome in H.
    now apply first_failure_raises, incl_session_exceptions in H. }
  apply outcome_bind_raise in H.
  destruct H as [H|(o8 & view & ins8 & _ & H)];
    [now apply Heof, (display_data_raises ins7)|].
  apply outcome_bind_raise in H.
  destruct H as [H|(o9 & [] & ins9 & _ & H)].
  { destruct view; [|discriminate].
    unfold when, display_tabular_data in H. apply outcome_bind_raise in H.
    destruct H as [H|(? & [] & ? & _ & H)]; [discriminate|].
    apply (display_tabular_data_from_raises df' 0) in H. now apply Heof. }
  apply outcome_bind_raise in H.
  destruct H as [H|(? & ? & ? & _ & H)]; [|discriminate].
  apply (raises_only_input session_exceptions AskRestart) in H;
    [exact H | simpl; tauto].
Qed.

(** X24. A session ends with no other exception than EOFError, when the answers
    run out, FileNotFoundError, when the file of the city is missing, and
    the IndexError, KeyError and ValueError of the aggregators.  In
    particular it never ends with TypeError: the filter is only called with
    a selector that holds dates. *)
Theorem session_ends_only_with_known_exceptions
  (files : string -> option DataFrame) (ins : list string) (e : exn) :
  outcome (session files ins) = Raise e ->
  In e [EOFError; FileNotFoundError; IndexError; KeyError; ValueError]
  /\ e <> TypeError.
Proof.
  intros H. apply session_raises in H. split; [exact H|].
  intros ->. simpl in H. intuition discriminate.
Qed.

Lemma session_ends_only_with_known_exceptions_witness :
  In ValueError
    [EOFError; FileNotFoundError; IndexError; KeyError; ValueError]
  /\ ValueError <> TypeError.
Proof.
  refine (session_ends_only_with_known_exceptions
            (chicago_only unrecorded_years)
            ["chicago"; "none"; "no"; "no"] ValueError _).
  vm_compute. reflexivity.
Defined.

(** X25. Every nested call of statistics follows a session that read at least
    four answers: with fewer than four times as many answers as the
    interpreter allows nested calls, statistics never ends with
    RecursionError, and it ends with no other exception than those of a
    session. *)
Theorem statistics_recursion_is_bounded_by_answers (depth : nat)
  (files : string -> option DataFrame) :
  forall (ins : list string) (e : exn),
    (List.length ins < 4 * depth)%nat ->
    outcome (statistics depth files ins) = Raise e ->
    In e [EOFError; FileNotFoundError; IndexError; KeyError; ValueError]
    /\ e <> RecursionError.
Proof.
  induction depth as [|depth IH]; intros ins e Hlen H; [lia|].
  cbn [statistics] in H. apply outcome_bind_raise in H.
  destruct H as [H|(o & restart & rest & Hs & H)].
  - apply session_raises in H. split; [exact H|].
    intros ->. simpl in H. intuition discriminate.
  - destruct restart; [|discriminate].
    apply session_uses_four in Hs. apply (IH rest e); [lia | exact H].
Qed.

Lemma statistics_recursion_is_bounded_by_answers_witness :
  In IndexError
    [EOFError; FileNotFoundError; IndexError; KeyError; ValueError]
  /\ IndexError <> RecursionError.
Proof.
  refine (statistics_recursion_is_bounded_by_answers 3
            (chicago_only three_trips)
            ["chicago"; "none"; "no"; "yes"; "chicago"; "day"; "february";
             "2"]
            IndexError _ _).
  - simpl. lia.
  - vm_compute. reflexivity.
Defined.
(* ================================================================== *)
(** ** Further properties *)

Lemma lower_char_idempotent (c : ascii) :
  lower_char (lower_char c) = lower_char c.
Proof.
  destruct c as [[] [] [] [] [] [] [] []]; reflexivity.
Qed.

Lemma lower_idempotent (s : string) : lower (lower s) = lower s.
Proof.
  induction s as [|c s IH]; simpl; [reflexivity|].
  now rewrite lower_char_idempotent, IH.
Qed.

(** X26. The answers to the city, month and trip-data prompts are read without
    regard to letter case: with every answer put in lower case each prompt
    prints the same and has the same outcome. *)
Theorem prompts_ignore_letter_case (ins : list string) :
  (trace (get_city_filename (map lower ins)) = trace (get_city_filename ins)
   /\ outcome (get_city_filename (map lower ins))
      = outcome (get_city_filename ins))
  /\ (trace (get_month (map lower ins)) = trace (get_month ins)
      /\ outcome (get_month (map lower ins)) = outcome (get_month ins))
  /\ (trace (display_data (map lower ins)) = trace (display_data ins)
      /\ outcome (display_data (map lower ins)) = outcome (display_data ins)).
Proof.
  split; [|split].
  - induction ins as [|a ins [IH1 IH2]]; [split; reflexivity|].
    cbn [map get_city_filename]. rewrite lower_idempotent.
    destruct (String.eqb (lower a) "chicago"); [split; reflexivity|].
    destruct (String.eqb (lower a) "new york"); [split; reflexivity|].
    destruct (String.eqb (lower a) "washington"); [split; reflexivity|].
    rewrite !trace_after, !outcome_after_eq, IH1, IH2. split; reflexivity.
  - induction ins as [|a ins [IH1 IH2]]; [split; reflexivity|].
    cbn [map get_month]. rewrite lower_idempotent.
    destruct (index_of (lower a) valid_months); [split; reflexivity|].
    rewrite !trace_after, !outcome_after_eq, IH1, IH2. split; reflexivity.
  - induction ins as [|a ins [IH1 IH2]]; [split; reflexivity|].
    cbn [map display_data]. rewrite lower_idempotent.
    destruct (String.eqb (lower a) "yes"); [split; reflexivity|].
    destruct (String.eqb (lower a) "no"); [split; reflexivity|].
    rewrite !trace_after, !outcome_after_eq, IH1, IH2. split; reflexivity.
Qed.

Lemma get_time_period_skips (bad ins : list string) :
  Forall (fun x => valid_filter x = false) bad ->
  get_time_period (bad ++ ins)
  = after (rejected bad AskFilter InvalidFilter) (get_time_period ins).
Proof.
  intros Hbad. induction Hbad as [|x bad Hx Hbad IH].
  - cbn [app rejected flat_map].
    destruct (get_time_period ins) as [[o r] rest']. reflexivity.
  - unfold valid_filter in Hx. rewrite !orb_false_iff in Hx.
    destruct Hx as [[H1 H2] H3].
    change ((x :: bad) ++ ins) with (x :: (bad ++ ins)).
    cbn [get_time_period]. rewrite H1, H2, H3, IH.
    destruct (get_time_period ins) as [[o r] rest']. reflexivity.
Qed.

(** X27. The filter prompt turns down every answer other than month, day and
    none, in any letter case, printing one message for each, and goes on
    with the first answer that is one of them; the answer none gives the
    selector without dates and reads nothing more. *)
Theorem get_time_period_first_valid_answer (bad : list string)
  (a : string) (rest : list string) :
  Forall (fun x => valid_filter x = false) bad ->
  get_time_period (bad ++ a :: rest)
  = after (rejected bad AskFilter InvalidFilter)
      (get_time_period (a :: rest))
  /\ (lower a = "none" ->
      get_time_period (a :: rest)
      = ([Prompted AskFilter], Ok (mktp PNone None None (None, None)),
         rest)).
Proof.
  intros Hbad. split; [now apply get_time_period_skips|].
  intros Ha. cbn [get_time_period]. rewrite Ha. reflexivity.
Qed.

Lemma get_time_period_first_valid_answer_witness :
  get_time_period (["week"; "year"] ++ "NONE" :: ["no"])
  = after (rejected ["week"; "year"] AskFilter InvalidFilter)
      (get_time_period ("NONE" :: ["no"])).
Proof.
  apply (get_time_period_first_valid_answer ["week"; "year"] "NONE" ["no"]).
  repeat constructor.
Defined.

Lemma count_pair_le_fst (l : list (string * string)) (s e : string) :
  (count_occ pair_eq_dec l (s, e) <= count_occ string_dec (map fst l) s)%nat.
Proof.
  induction l as [|[s' e'] l IH]; [simpl; lia|].
  cbn [map fst]. destruct (pair_eq_dec (s', e') (s, e)) as [E|E].
  - rewrite (count_occ_cons_eq _ _ E). inversion E; subst.
    rewrite (count_occ_cons_eq _ _ eq_refl). lia.
  - rewrite (count_occ_cons_neq _ _ E).
    destruct (string_dec s' s) as [E'|E'];
      [rewrite (count_occ_cons_eq _ _ E')
      | rewrite (count_occ_cons_neq _ _ E')]; lia.
Qed.

Lemma count_pair_le_snd (l : list (string * string)) (s e : string) :
  (count_occ pair_eq_dec l (s, e) <= count_occ string_dec (map snd l) e)%nat.
Proof.
  induction l as [|[s' e'] l IH]; [simpl; lia|].
  cbn [map snd]. destruct (pair_eq_dec (s', e') (s, e)) as [E|E].
  - rewrite (count_occ_cons_eq _ _ E). inversion E; subst.
    rewrite (count_occ_cons_eq _ _ eq_refl). lia.
  - rewrite (count_occ_cons_neq _ _ E).
    destruct (string_dec e' e) as [E'|E'];
      [rewrite (count_occ_cons_eq _ _ E')
      | rewrite (count_occ_cons_neq _ _ E')]; lia.
Qed.

(** X28. The most popular trip is never more frequent than the most popular
    start station or the most popular end station: the count that
    popular_trip returns is at most each of the two counts that
    popular_stations returns. *)
Theorem popular_trip_count_at_most_station_counts (df : DataFrame)
  (name : string) (n : nat) (st : station_stats) :
  popular_trip df = Ok (name, n) ->
  popular_stations df = Ok st ->
  (n <= snd (start st))%nat /\ (n <= snd (end_ st))%nat.
Proof.
  intros Ht Hs. unfold popular_trip in Ht.
  destruct (sort_values_desc
              (groupby_size pair_eq_dec pair_leb (station_pairs df)))
    as [|[[s e] c] r] eqn:Hg; [discriminate|].
  cbn [row0 rbind fst snd] in Ht. inversion Ht; subst.
  destruct (groupby_size_head _ _ _ _ _ _ Hg) as (_ & Hn & _).
  unfold popular_stations in Hs.
  destruct (value_counts string_dec (map Start_Station (rows df)))
    as [|[s1 n1] r1] eqn:H1; [discriminate|].
  destruct (value_counts string_dec (map End_Station (rows df)))
    as [|[e1 m1] r2] eqn:H2; [discriminate|].
  cbn [index0 iloc0 rbind] in Hs. inversion Hs; subst. cbn [start end_ snd].
  destruct (value_counts_head _ _ _ _ _ H1) as (_ & _ & Hmax1).
  destruct (value_counts_head _ _ _ _ _ H2) as (_ & _ & Hmax2).
  assert (Ef : map fst (station_pairs df) = map Start_Station (rows df))
    by (unfold station_pairs; rewrite map_map; reflexivity).
  assert (Es : map snd (station_pairs df) = map End_Station (rows df))
    by (unfold station_pairs; rewrite map_map; reflexivity).
  split.
  - pose proof (count_pair_le_fst (station_pairs df) s e) as H.
    rewrite Ef in H. specialize (Hmax1 s). lia.
  - pose proof (count_pair_le_snd (station_pairs df) s e) as H.
    rewrite Es in H. specialize (Hmax2 e). lia.
Qed.

Lemma popular_trip_count_at_most_station_counts_witness :
  (2 <= snd (start (mkstations ("A", 3%nat) ("B", 2%nat))))%nat
  /\ (2 <= snd (end_ (mkstations ("A", 3%nat) ("B", 2%nat))))%nat.
Proof.
  exact (popular_trip_count_at_most_station_counts three_trips "A to B"
           2%nat (mkstations ("A", 3%nat) ("B", 2%nat)) eq_refl eq_refl).
Defined.
